(** * scripts/bump_version.py: version bumping from commit-message prefixes

    A shallow embedding of the script and the properties of its
    specification.

    Modelling conventions.
    - A Python [str] is a [string]; a character is its code point, and the
      model covers the code points below 256 (the Latin-1 range), for which
      the tables of [str.isspace], [str.lower] and of the regular-expression
      classes [\s] and [\d] are written out in full.
    - A Python [int] is unbounded: [N] for the version components.
    - The file system is a finite map from paths (relative to the project
      root) to the text that [Path.read_text] returns and [Path.write_text]
      receives.
    - An exception is a value of [exn]; [sys.exit] raises [SystemExit]. The
      effects performed before an exception are kept. *)

From Stdlib Require Import Ascii NArith ZArith Lia.
From Stdlib Require Import DecimalString DecimalPos DecimalN.
From stdpp Require Import base option list gmap strings.

#[local] Arguments String.append !_ _ / : simpl nomatch.



(* ===================================================================== *)
(** * Python string primitives                                             *)
(* ===================================================================== *)

Module Py.

Definition ord (c : ascii) : N := N_of_ascii c.

Definition between (lo hi n : N) : bool := (lo <=? n)%N && (n <=? hi)%N.

(** [str.isspace] on one character: TAB..CR, FS..US, SPACE, NEL, NBSP. *)
Definition isspace (c : ascii) : bool :=
  between 9 13 (ord c) || between 28 32 (ord c)
  || (ord c =? 133)%N || (ord c =? 160)%N.

(** [str.isdecimal] on one character, which is also the class [\d]. *)
Definition isdecimal (c : ascii) : bool := between 48 57 (ord c).

(** [str.lower] on one character: A..Z and the accented capitals
    U+00C0..U+00DE (the multiplication sign U+00D7 apart). *)
Definition lower_char (c : ascii) : ascii :=
  if between 65 90 (ord c)
     || (between 192 222 (ord c) && negb (ord c =? 215)%N)
  then ascii_of_N (ord c + 32) else c.

Fixpoint lower (s : string) : string :=
  match s with
  | EmptyString => EmptyString
  | String c s' => String (lower_char c) (lower s')
  end.

Fixpoint lstrip (s : string) : string :=
  match s with
  | EmptyString => EmptyString
  | String c s' => if isspace c then lstrip s' else s
  end.

Fixpoint rstrip (s : string) : string :=
  match s with
  | EmptyString => EmptyString
  | String c s' =>
      match rstrip s' with
      | EmptyString => if isspace c then EmptyString else String c EmptyString
      | r => String c r
      end
  end.

(** [s.strip()] *)
Definition strip (s : string) : string := rstrip (lstrip s).

(** [s.startswith(p)] *)
Fixpoint startswith (s p : string) : bool :=
  match p, s with
  | EmptyString, _ => true
  | String a p', String b s' => Ascii.eqb a b && startswith s' p'
  | String _ _, EmptyString => false
  end.

(** [s.split(sep)] for a one-character separator: never the empty list. *)
Fixpoint split (sep : ascii) (s : string) : list string :=
  match s with
  | EmptyString => [EmptyString]
  | String c s' =>
      if Ascii.eqb c sep then EmptyString :: split sep s'
      else match split sep s' with
           | h :: t => String c h :: t
           | [] => [String c EmptyString]
           end
  end.

(** [sep.join(l)] *)
Fixpoint join (sep : string) (l : list string) : string :=
  match l with
  | [] => EmptyString
  | [x] => x
  | x :: l' => x +:+ sep +:+ join sep l'
  end.

(** [int(s)] on a string of decimal digits (Horner), leading zeros
    allowed. *)
Definition digit_value (c : ascii) : N := (ord c - 48)%N.

Fixpoint int_acc (acc : N) (s : string) : N :=
  match s with
  | EmptyString => acc
  | String c s' => int_acc (10 * acc + digit_value c)%N s'
  end.

Definition int (s : string) : N := int_acc 0 s.

(** [str(n)], also what an f-string field [{n}] renders: decimal, no
    leading zero, ["0"] for zero. *)
Definition str (n : N) : string := NilEmpty.string_of_uint (N.to_uint n).

(** The same for a signed integer. *)
Definition str_Z (z : Z) : string :=
  match z with
  | Zneg p => String "-" (str (Npos p))
  | _ => str (Z.to_N z)
  end.

End Py.

(* ===================================================================== *)
(** * The fragment of [re] the script uses                                 *)
(* ===================================================================== *)

Module Re.

(** One-character classes. *)
Inductive cclass : Type :=
| Digit                    (* \d *)
| Space                    (* \s *)
| NotChar (c : ascii).     (* [^c] *)

Definition cmatch (k : cclass) (c : ascii) : bool :=
  match k with
  | Digit => Py.isdecimal c
  | Space => Py.isspace c
  | NotChar x => negb (Ascii.eqb c x)
  end.

(** Pattern items. Quantifiers are greedy and, as everywhere in the
    script, apply to a one-character class. *)
Inductive atom : Type :=
| Lit (s : string)         (* literal text *)
| Star (k : cclass)        (* k* *)
| Plus (k : cclass)        (* k+ *)
| Bol.                     (* ^ *)

Inductive node : Type :=
| Atom (a : atom)
| Group (body : list atom). (* ( ... ), capturing *)

Definition pattern : Type := list node.

(** Result of a match: the captured groups in order and the text after
    the match. *)
Definition result : Type := list string * string.

(** Continuations get the beginning-of-line flag of the position reached,
    the text still to match and the groups captured so far. *)
Definition cont : Type := bool -> string -> list string -> option result.

Section Engine.
(** [re.MULTILINE]: [^] also matches after each newline. *)
Variable multiline : bool.

Definition bol_after (c : ascii) : bool :=
  multiline && Ascii.eqb c "010".

Fixpoint m_lit (p : string) (bol : bool) (s : string) (caps : list string)
    (k : cont) : option result :=
  match p with
  | EmptyString => k bol s caps
  | String a p' =>
      match s with
      | String b s' =>
          if Ascii.eqb a b then m_lit p' (bol_after b) s' caps k else None
      | EmptyString => None
      end
  end.

(** Greedy repetition with backtracking: the longest run first, then
    shorter ones. *)
Fixpoint m_star (c : cclass) (bol : bool) (s : string) (caps : list string)
    (k : cont) : option result :=
  match s with
  | String b s' =>
      if cmatch c b then
        match m_star c (bol_after b) s' caps k with
        | Some r => Some r
        | None => k bol s caps
        end
      else k bol s caps
  | EmptyString => k bol s caps
  end.

Definition m_plus (c : cclass) (bol : bool) (s : string)
    (caps : list string) (k : cont) : option result :=
  match s with
  | String b s' =>
      if cmatch c b then m_star c (bol_after b) s' caps k else None
  | EmptyString => None
  end.

Definition m_atom (a : atom) (bol : bool) (s : string)
    (caps : list string) (k : cont) : option result :=
  match a with
  | Lit p => m_lit p bol s caps k
  | Star c => m_star c bol s caps k
  | Plus c => m_plus c bol s caps k
  | Bol => if bol then k bol s caps else None
  end.

Fixpoint m_atoms (l : list atom) (bol : bool) (s : string)
    (caps : list string) (k : cont) : option result :=
  match l with
  | [] => k bol s caps
  | a :: l' =>
      m_atom a bol s caps (fun bol' s' caps' => m_atoms l' bol' s' caps' k)
  end.

(** The text consumed between [s] and its suffix [s']. *)
Definition consumed (s s' : string) : string :=
  String.substring 0 (String.length s - String.length s') s.

Definition m_node (n : node) (bol : bool) (s : string)
    (caps : list string) (k : cont) : option result :=
  match n with
  | Atom a => m_atom a bol s caps k
  | Group body =>
      m_atoms body bol s caps
        (fun bol' s' caps' => k bol' s' (caps' ++ [consumed s s']))
  end.

Fixpoint m_nodes (p : pattern) (bol : bool) (s : string)
    (caps : list string) (k : cont) : option result :=
  match p with
  | [] => k bol s caps
  | n :: p' =>
      m_node n bol s caps (fun bol' s' caps' => m_nodes p' bol' s' caps' k)
  end.

(** A match of [p] that starts exactly at the head of [s]. *)
Definition match_here (p : pattern) (bol : bool) (s : string)
    : option result :=
  m_nodes p bol s [] (fun _ s' caps => Some (caps, s')).

(** [re.search]: the leftmost position that matches. *)
Fixpoint search_from (p : pattern) (bol : bool) (s : string)
    : option result :=
  match match_here p bol s with
  | Some r => Some r
  | None =>
      match s with
      | String c s' => search_from p (bol_after c) s'
      | EmptyString => None
      end
  end.

End Engine.

(** [re.match(p, s)]: anchored at the start, no flags. *)
Definition re_match (p : pattern) (s : string) : option result :=
  match_here false p true s.

(** [re.search(p, s, re.MULTILINE)] *)
Definition re_search_multiline (p : pattern) (s : string) : option result :=
  search_from true p true s.

(** [re.sub(p, repl, s)] without flags, [repl] mapping the groups of a
    match to its replacement: the non-overlapping matches are replaced
    from left to right. [skip] counts the characters of the current
    match that are still to be passed over. Both patterns given to
    [re.sub] by the script match at least one character; an empty match
    is treated as no match. *)
Fixpoint sub_from (p : pattern) (repl : list string -> string)
    (skip : nat) (bol : bool) (s : string) : string :=
  match skip with
  | S n =>
      match s with
      | String _ s' => sub_from p repl n false s'
      | EmptyString => EmptyString
      end
  | O =>
      match s with
      | EmptyString => EmptyString
      | String c s' =>
          match match_here false p bol s with
          | Some (caps, rest) =>
              let len := String.length s - String.length rest in
              match len with
              | O => String c (sub_from p repl 0 false s')
              | S n => repl caps +:+ sub_from p repl n false s'
              end
          | None => String c (sub_from p repl 0 false s')
          end
      end
  end.

Definition re_sub (p : pattern) (repl : list string -> string) (s : string)
    : string :=
  sub_from p repl 0 true s.

End Re.

(* ===================================================================== *)
(** * The fragment of [json] the script uses                               *)
(* ===================================================================== *)

Module Json.

(** The Python objects that [json.loads] builds. A [dict] keeps its
    insertion order and is an association list; a [float] is carried by
    the text [json.dumps] writes for it ([float.__repr__] of a finite
    one, [Infinity], [-Infinity] or [NaN] otherwise), which is all the
    script does with one. *)
#[warnings="-register-all"]
Inductive value : Type :=
| Null
| Bool (b : bool)
| Int (z : Z)
| Float (repr : string)
| Str (s : string)
| Arr (items : list value)
| Obj (members : list (string * value)).

Definition dict : Type := list (string * value).

(** [d.get(k)] *)
Fixpoint dict_get (d : dict) (k : string) : option value :=
  match d with
  | [] => None
  | (k', v) :: d' => if String.eqb k' k then Some v else dict_get d' k
  end.

(** [d[k] = v]: an existing key keeps its place, a new key goes last. *)
Fixpoint dict_set (d : dict) (k : string) (v : value) : dict :=
  match d with
  | [] => [(k, v)]
  | (k', v') :: d' =>
      if String.eqb k' k then (k', v) :: d' else (k', v') :: dict_set d' k v
  end.

Definition dquote : ascii := "034".
Definition backslash : ascii := "092".

Definition hex_digit (n : N) : ascii :=
  if (n <? 10)%N then ascii_of_N (48 + n) else ascii_of_N (87 + n).

(** One character under [ensure_ascii=True]. *)
Definition escape_char (c : ascii) : string :=
  if Ascii.eqb c dquote then String backslash (String dquote EmptyString)
  else if Ascii.eqb c backslash
    then String backslash (String backslash EmptyString)
  else if Ascii.eqb c "010" then String backslash "n"
  else if Ascii.eqb c "013" then String backslash "r"
  else if Ascii.eqb c "009" then String backslash "t"
  else if Ascii.eqb c "008" then String backslash "b"
  else if Ascii.eqb c "012" then String backslash "f"
  else if Py.between 32 126 (Py.ord c) then String c EmptyString
  else String backslash
         ("u00" +:+ String (hex_digit (Py.ord c / 16))
                      (String (hex_digit (Py.ord c mod 16)) EmptyString)).

Fixpoint escape (s : string) : string :=
  match s with
  | EmptyString => EmptyString
  | String c s' => escape_char c +:+ escape s'
  end.

Definition encode_str (s : string) : string :=
  String dquote (escape s +:+ String dquote EmptyString).

Fixpoint spaces (n : nat) : string :=
  match n with
  | O => EmptyString
  | S n' => String " " (spaces n')
  end.

(** A newline and the indentation of nesting level [level]. *)
Definition newline_indent (indent level : nat) : string :=
  String "010" (spaces (indent * level)).

Section Dumps.
Variable indent : nat.

(** [json.dumps(v, indent=indent)] at nesting level [level]: items are
    separated by a comma and a line break, keys by a colon and a
    space; an empty container stays on one line. *)
Fixpoint encode (level : nat) (v : value) : string :=
  match v with
  | Null => "null"
  | Bool true => "true"
  | Bool false => "false"
  | Int z => Py.str_Z z
  | Float r => r
  | Str s => encode_str s
  | Arr [] => "[]"
  | Arr items =>
      String "[" (newline_indent indent (S level))
      +:+ Py.join (String "," (newline_indent indent (S level)))
            (List.map (encode (S level)) items)
      +:+ newline_indent indent level +:+ "]"
  | Obj [] => "{}"
  | Obj members =>
      String "{" (newline_indent indent (S level))
      +:+ Py.join (String "," (newline_indent indent (S level)))
            (List.map
               (fun kv => encode_str (fst kv) +:+ ": "
                          +:+ encode (S level) (snd kv))
               members)
      +:+ newline_indent indent level +:+ "}"
  end.

Definition dumps (v : value) : string := encode 0 v.
End Dumps.

End Json.

(* ===================================================================== *)
(** * The process and its file system                                      *)
(* ===================================================================== *)

Module Sys.

Inductive exn : Type :=
| SystemExit (code : Z)
| ValueError (msg : string)
| FileNotFoundError (path : string)
| JSONDecodeError
| AttributeError.

(** File-system operations, in the order the process performs them. *)
Inductive event : Type :=
| EvExists (path : string)
| EvRead (path : string)
| EvWrite (path content : string).

Record world : Type := World {
  files : gmap string string;
  stdout : list string;
  stderr : list string;
  trace : list event
}.

(** A computation runs in a world and ends with a value or an exception;
    the world it leaves is kept in both cases. *)
Definition M (A : Type) : Type := world -> (exn + A) * world.

Definition ret {A} (x : A) : M A := fun w => (inr x, w).

Definition bind {A B} (c : M A) (f : A -> M B) : M B :=
  fun w =>
    match c w with
    | (inl e, w') => (inl e, w')
    | (inr x, w') => f x w'
    end.

Definition raise {A} (e : exn) : M A := fun w => (inl e, w).

(** A pure computation that may raise. *)
Definition lift {A} (r : exn + A) : M A := fun w => (r, w).

Definition log (e : event) (w : world) : world :=
  World (files w) (stdout w) (stderr w) (trace w ++ [e]).

(** [path.exists()] *)
Definition path_exists (path : string) : M bool :=
  fun w => (inr (bool_decide (is_Some (files w !! path))), log (EvExists path) w).

(** [path.read_text()] *)
Definition read_text (path : string) : M string :=
  fun w =>
    match files w !! path with
    | Some content => (inr content, log (EvRead path) w)
    | None => (inl (FileNotFoundError path), log (EvRead path) w)
    end.

(** [path.write_text(content)] *)
Definition write_text (path content : string) : M unit :=
  fun w =>
    (inr tt,
     World (<[path := content]> (files w)) (stdout w) (stderr w)
           (trace w ++ [EvWrite path content])).

(** [print(line)] *)
Definition print (line : string) : M unit :=
  fun w => (inr tt, World (files w) (stdout w ++ [line]) (stderr w) (trace w)).

(** [print(line, file=sys.stderr)] *)
Definition eprint (line : string) : M unit :=
  fun w => (inr tt, World (files w) (stdout w) (stderr w ++ [line]) (trace w)).

(** [sys.exit(code)] *)
Definition exit (code : Z) : M unit := raise (SystemExit code).

(** The status the process ends with: the argument of [sys.exit], 1 for
    any other uncaught exception, 0 when the script runs to its end. *)
Definition exit_status {A} (r : exn + A) : Z :=
  match r with
  | inl (SystemExit code) => code
  | inl _ => 1
  | inr _ => 0
  end.

Definition is_write (e : event) : bool :=
  match e with EvWrite _ _ => true | _ => false end.

End Sys.

Notation "'let*' x ':=' c 'in' k" := (Sys.bind c (fun x => k))
  (at level 10, x name, c at level 200, k at level 200, only parsing).

(* ===================================================================== *)
(** * The script                                                           *)
(* ===================================================================== *)

Module BumpVersion.
Import Sys.

Definition dquote : ascii := Json.dquote.

(** r'(\d+)\.(\d+)\.(\d+)' *)
Definition version_re : Re.pattern :=
  [Re.Group [Re.Plus Re.Digit]; Re.Atom (Re.Lit ".");
   Re.Group [Re.Plus Re.Digit]; Re.Atom (Re.Lit ".");
   Re.Group [Re.Plus Re.Digit]].

(** r'^version\s*=\s*Q([^Q]+)Q', with Q for the double quote *)
Definition current_version_re : Re.pattern :=
  [Re.Atom Re.Bol; Re.Atom (Re.Lit "version"); Re.Atom (Re.Star Re.Space);
   Re.Atom (Re.Lit "="); Re.Atom (Re.Star Re.Space);
   Re.Atom (Re.Lit (String dquote EmptyString));
   Re.Group [Re.Plus (Re.NotChar dquote)];
   Re.Atom (Re.Lit (String dquote EmptyString))].

(** r'^\s*version\s*=\s*Q[^Q]+Q', with Q for the double quote *)
Definition version_line_re : Re.pattern :=
  [Re.Atom Re.Bol; Re.Atom (Re.Star Re.Space); Re.Atom (Re.Lit "version");
   Re.Atom (Re.Star Re.Space); Re.Atom (Re.Lit "=");
   Re.Atom (Re.Star Re.Space);
   Re.Atom (Re.Lit (String dquote EmptyString));
   Re.Atom (Re.Plus (Re.NotChar dquote));
   Re.Atom (Re.Lit (String dquote EmptyString))].

(** r'(version\s*=\s*Q)[^Q]+(Q)', with Q for the double quote *)
Definition version_value_re : Re.pattern :=
  [Re.Group [Re.Lit "version"; Re.Star Re.Space; Re.Lit "=";
             Re.Star Re.Space; Re.Lit (String dquote EmptyString)];
   Re.Atom (Re.Plus (Re.NotChar dquote));
   Re.Group [Re.Lit (String dquote EmptyString)]].

(** rf'\g<1>{new_version}\g<2>'. [new_version] is spliced into the text
    of the template, so this reading is the template's for a
    [new_version] without backslash ([template_literal]), as [main]
    passes. *)
Definition version_template (new_version : string) (groups : list string)
    : string :=
  nth 0 groups EmptyString +:+ new_version +:+ nth 1 groups EmptyString.

Fixpoint template_literal (s : string) : bool :=
  match s with
  | EmptyString => true
  | String c s' => negb (Ascii.eqb c Json.backslash) && template_literal s'
  end.

(** [parse_version]: the tuple is a list, unpacked by the caller. *)
Definition parse_version (version_str : string) : exn + list N :=
  match Re.re_match version_re version_str with
  | Some (groups, _) => inr (List.map Py.int groups)
  | None => inl (ValueError ("Invalid version format: " +:+ version_str))
  end.

(** [bump_version]; [bump_type] is a [str] or [None]. *)
Definition bump_version (version_str : string) (bump_type : option string)
    : exn + string :=
  match parse_version version_str with
  | inl e => inl e
  | inr [major; minor; patch] =>
      if bool_decide (bump_type = Some "major") then
        inr (Py.str (major + 1) +:+ ".0.0")
      else if bool_decide (bump_type = Some "minor") then
        inr (Py.str major +:+ "." +:+ Py.str (minor + 1) +:+ ".0")
      else if bool_decide (bump_type = Some "patch") then
        inr (Py.str major +:+ "." +:+ Py.str minor +:+ "."
             +:+ Py.str (patch + 1))
      else inr version_str
  | inr _ => inl (ValueError "wrong number of values to unpack")
  end.

(** [get_bump_type_from_commit] *)
Definition get_bump_type_from_commit (commit_msg : string) : option string :=
  let commit_msg := Py.lower (Py.strip commit_msg) in
  if Py.startswith commit_msg "release(" then Some "major"
  else if Py.startswith commit_msg "feature(" then Some "minor"
  else if Py.startswith commit_msg "fix(" then Some "patch"
  else None.

(** The pure part of [get_current_version], on the text read. *)
Definition find_current_version (cargo_toml_path content : string)
    : exn + string :=
  match Re.re_search_multiline current_version_re content with
  | Some (groups, _) => inr (nth 0 groups EmptyString)
  | None => inl (ValueError ("Could not find version in " +:+ cargo_toml_path))
  end.

Definition get_current_version (cargo_toml_path : string) : M string :=
  let* content := read_text cargo_toml_path in
  lift (find_current_version cargo_toml_path content).

(** The variables of the loop of [update_cargo_toml]. *)
Record scan_state : Type := ScanState {
  updated_lines : list string;
  in_package_section : bool;
  version_updated : bool
}.

(** One iteration of the loop (lines 75 to 88). *)
Definition scan_line (new_version : string) (st : scan_state) (line : string)
    : scan_state :=
  if String.eqb (Py.strip line) "[package]" then
    ScanState (updated_lines st ++ [line]) true (version_updated st)
  else
    let in_pkg :=
      if in_package_section st && Py.startswith (Py.strip line) "["
         && negb (String.eqb (Py.strip line) "[package]")
      then false else in_package_section st in
    if in_pkg && bool_decide (is_Some (Re.re_match version_line_re line))
    then ScanState
           (updated_lines st
            ++ [Re.re_sub version_value_re (version_template new_version) line])
           in_pkg true
    else ScanState (updated_lines st ++ [line]) in_pkg (version_updated st).

Definition scan_lines (new_version : string) (lines : list string)
    : scan_state :=
  fold_left (scan_line new_version) lines (ScanState [] false false).

(** [update_cargo_toml] *)
Definition update_cargo_toml (file_path new_version : string) : M bool :=
  let* content := read_text file_path in
  let st := scan_lines new_version (Py.split "010" content) in
  if version_updated st then
    let* _ := write_text file_path (Py.join (String "010" EmptyString) (updated_lines st)) in
    ret true
  else ret false.

(** [data.get('version') != new_version] *)
Definition differs (v : option Json.value) (new_version : string) : bool :=
  match v with
  | Some (Json.Str s) => negb (String.eqb s new_version)
  | _ => true
  end.

Section WithJson.
(** [json.loads], of the standard library: [None] when it raises. *)
Variable json_loads : string -> option Json.value.

(** [update_tauri_conf]; only a [dict] has [get]. *)
Definition update_tauri_conf (file_path new_version : string) : M bool :=
  let* content := read_text file_path in
  match json_loads content with
  | None => raise JSONDecodeError
  | Some (Json.Obj data) =>
      if differs (Json.dict_get data "version") new_version then
        let data := Json.dict_set data "version" (Json.Str new_version) in
        let* _ := write_text file_path
          (Json.dumps 2 (Json.Obj data) +:+ String "010" EmptyString) in
        ret true
      else ret false
  | Some _ => raise AttributeError
  end.

Definition root_cargo : string := "Cargo.toml".
Definition tauri_cargo : string := "src-tauri/Cargo.toml".
Definition tauri_conf : string := "src-tauri/tauri.conf.json".

(** Truth value of a [str] or [None]. *)
Definition truthy (o : option string) : bool :=
  match o with
  | Some (String _ _) => true
  | _ => false
  end.

(** The three updates of lines 138 to 144 and the list [updated]. *)
Definition update_all (new_version : string) : M (list string) :=
  let updated : list string := [] in
  let* u1 := update_cargo_toml root_cargo new_version in
  let updated := if u1 then updated ++ ["Cargo.toml"] else updated in
  let* e2 := path_exists tauri_cargo in
  let* u2 := (if e2 then update_cargo_toml tauri_cargo new_version
        else ret false) in
  let updated :=
    if u2 then updated ++ ["src-tauri/Cargo.toml"] else updated in
  let* e3 := path_exists tauri_conf in
  let* u3 := (if e3 then update_tauri_conf tauri_conf new_version
        else ret false) in
  let updated :=
    if u3 then updated ++ ["src-tauri/tauri.conf.json"] else updated in
  ret updated.

(** [main], on [sys.argv]. *)
Definition main (argv : list string) : M unit :=
  if length argv <? 2 then
    let* _ := eprint "Usage: bump_version.py <commit_message> [base_version]" in
    exit 1
  else
    let commit_msg := nth 1 argv EmptyString in
    let base_version :=
      if 2 <? length argv then Some (nth 2 argv EmptyString)
      else None in
    let bump_type := get_bump_type_from_commit commit_msg in
    if negb (truthy bump_type) then exit 0
    else
      let* current_version := get_current_version root_cargo in
      let version_to_bump :=
        if truthy base_version then default EmptyString base_version
        else current_version in
      let* new_version := lift (bump_version version_to_bump bump_type) in
      if String.eqb new_version current_version then
        let* _ := print ("No version change: " +:+ current_version) in
        exit 0
      else
        let* updated := update_all new_version in
        match updated with
        | _ :: _ =>
            let* _ := print ("Version bumped: " +:+ version_to_bump +:+ " -> "
                   +:+ new_version +:+ " ("
                   +:+ default EmptyString bump_type +:+ ")") in
            let* _ := print ("Updated: " +:+ Py.join ", " updated) in
            exit 0
        | [] =>
            let* _ := print ("No changes made for version: " +:+ current_version) in
            exit 0
        end.

(** One run of the tool in a file system. *)
Definition run (argv : list string) (fs : gmap string string)
    : (exn + unit) * world :=
  main argv (World fs [] [] []).

End WithJson.

End BumpVersion.

(* ===================================================================== *)
(** * Vocabulary of the statements                                         *)
(* ===================================================================== *)

Module Text.

(** Every character of [s] satisfies [f]. *)
Fixpoint all_in (f : ascii -> bool) (s : string) : bool :=
  match s with
  | EmptyString => true
  | String c s' => f c && all_in f s'
  end.

(** [s] begins with a character that satisfies [f]. *)
Definition head_in (f : ascii -> bool) (s : string) : bool :=
  match s with
  | EmptyString => false
  | String c _ => f c
  end.

Definition nonempty (s : string) : bool :=
  match s with
  | EmptyString => false
  | String _ _ => true
  end.

(** The longest prefix of [s] made of characters that satisfy [f], and
    what follows it. *)
Fixpoint span (f : ascii -> bool) (s : string) : string * string :=
  match s with
  | EmptyString => (EmptyString, EmptyString)
  | String c s' =>
      if f c then (String c (fst (span f s')), snd (span f s'))
      else (EmptyString, s)
  end.

(** The beginning-of-line flag after the text [d] has been passed over,
    [multiline] telling whether [re.MULTILINE] is set. *)
Fixpoint bol_end (multiline bol : bool) (d : string) : bool :=
  match d with
  | EmptyString => bol
  | String c d' => bol_end multiline (Re.bol_after multiline c) d'
  end.

Definition not_quote (c : ascii) : bool := negb (Ascii.eqb c Json.dquote).

(** [s] between double quotes. *)
Definition quoted (s : string) : string :=
  String Json.dquote (s +:+ String Json.dquote EmptyString).

(** A quoted value: one character or more, none of them a double quote. *)
Definition is_value (s : string) : bool :=
  nonempty s && all_in not_quote s.

(** The text [version = Q value Q], [ws1] and [ws2] being the white space
    around the equals sign. *)
Definition version_assignment (ws1 ws2 value : string) : string :=
  "version" +:+ ws1 +:+ "=" +:+ ws2 +:+ quoted value.

(** [s] without its prefix [p], when it starts with [p]. *)
Fixpoint drop_prefix (p s : string) : option string :=
  match p with
  | EmptyString => Some s
  | String a p' =>
      match s with
      | String b s' => if Ascii.eqb a b then drop_prefix p' s' else None
      | EmptyString => None
      end
  end.

(** The value of the version assignment that [s] begins with, if it
    begins with one: the word [version], white space, an equals sign,
    white space, and a quoted value that is not empty. White space and
    value may hold line breaks. *)
Definition version_at (s : string) : option string :=
  match drop_prefix "version" s with
  | None => None
  | Some s1 =>
      match drop_prefix "=" (snd (span Py.isspace s1)) with
      | None => None
      | Some s2 =>
          match drop_prefix (String Json.dquote EmptyString)
                  (snd (span Py.isspace s2)) with
          | None => None
          | Some s3 =>
              if nonempty (fst (span not_quote s3)) then
                match drop_prefix (String Json.dquote EmptyString)
                        (snd (span not_quote s3)) with
                | None => None
                | Some _ => Some (fst (span not_quote s3))
                end
              else None
          end
      end
  end.

(** [pre] ends where a line starts: it is empty, [bol] telling whether a
    line starts there, or it ends with a line break. *)
Definition starts_line (bol : bool) (pre : string) : bool :=
  bol_end true bol pre.

(** The value of the first version assignment that begins at the start of
    a line of [s]; [bol] tells whether [s] itself is at the start of a
    line. *)
Fixpoint first_version (bol : bool) (s : string) : option string :=
  match (if bol then version_at s else None) with
  | Some v => Some v
  | None =>
      match s with
      | EmptyString => None
      | String c s' => first_version (Ascii.eqb c "010") s'
      end
  end.

(** A line: no line break in it. *)
Definition is_line (s : string) : bool :=
  all_in (fun c => negb (Ascii.eqb c "010")) s.

(** A decimal number: one digit or more. *)
Definition is_number (s : string) : bool :=
  nonempty s && all_in Py.isdecimal s.

(** A run of white space, possibly empty. *)
Definition is_blank (s : string) : bool := all_in Py.isspace s.

End Text.

(** What the pattern of [parse_version] is said to find: three numbers
    separated by dots at the start of [s], each as long as it can be. The
    result is the three numbers and the text after the third. *)
Definition leading_version (s : string) : option (list string * string) :=
  let n1 := Text.span Py.isdecimal s in
  match Text.nonempty (fst n1), snd n1 with
  | true, String "." s2 =>
      let n2 := Text.span Py.isdecimal s2 in
      match Text.nonempty (fst n2), snd n2 with
      | true, String "." s3 =>
          let n3 := Text.span Py.isdecimal s3 in
          if Text.nonempty (fst n3)
          then Some ([fst n1; fst n2; fst n3], snd n3)
          else None
      | _, _ => None
      end
  | _, _ => None
  end.

(** [s] is [d1.d2.d3] followed by [rest], the three numbers being as long
    as they can. *)
Definition version_prefix (s d1 d2 d3 rest : string) : Prop :=
  s = d1 +:+ "." +:+ d2 +:+ "." +:+ d3 +:+ rest
  /\ Text.is_number d1 = true /\ Text.is_number d2 = true
  /\ Text.is_number d3 = true /\ Text.head_in Py.isdecimal rest = false.

(** Words for the lines of a manifest, as the loop of [update_cargo_toml]
    sees them. *)
Module Manifest.

(** The header of the tracked section. *)
Definition is_package_header (line : string) : bool :=
  String.eqb (Py.strip line) "[package]".

(** Another bracketed header. *)
Definition is_other_header (line : string) : bool :=
  Py.startswith (Py.strip line) "[" && negb (is_package_header line).

(** A line that the pattern of line 84 matches. *)
Definition is_version_line (line : string) : bool :=
  bool_decide (is_Some (Re.re_match BumpVersion.version_line_re line)).

(** The line as line 85 rewrites it. *)
Definition rewritten (new_version line : string) : string :=
  Re.re_sub BumpVersion.version_value_re
    (BumpVersion.version_template new_version) line.

(** The flag [in_package_section] once [line] has been seen. *)
Definition flag_after (flag : bool) (line : string) : bool :=
  if is_package_header line then true
  else flag && negb (is_other_header line).

(** The flag once all of [lines] have been seen. *)
Definition section_flag (lines : list string) : bool :=
  fold_left flag_after lines false.

(** Line [i] of [lines] lies in a tracked section. *)
Definition tracked (lines : list string) (i : nat) : bool :=
  section_flag (take (S i) lines).

(** Line [i] of [lines], which is [line], is one the loop rewrites. *)
Definition is_rewritten (lines : list string) (i : nat) (line : string)
    : bool :=
  negb (is_package_header line) && tracked lines i && is_version_line line.

(** The first line that is rewritten, if any. *)
Definition first_rewritten (lines : list string) : option nat :=
  fst <$> list_find (fun il => is_rewritten lines (fst il) (snd il) = true)
                    (imap (fun i line => (i, line)) lines).

End Manifest.

(** What [main] works out before it updates anything. *)
Module Run.

(** [sys.argv[2]] when it is there. *)
Definition base_version (argv : list string) : option string :=
  if 2 <? length argv then Some (nth 2 argv EmptyString) else None.

Definition bump_type (argv : list string) : option string :=
  BumpVersion.get_bump_type_from_commit (nth 1 argv EmptyString).

Definition version_to_bump (argv : list string) (current : string) : string :=
  if BumpVersion.truthy (base_version argv)
  then default EmptyString (base_version argv) else current.

(** The candidate version, from the text of the root manifest. *)
Definition candidate (argv : list string) (content : string)
    : Sys.exn + string :=
  match BumpVersion.find_current_version BumpVersion.root_cargo content with
  | inl e => inl e
  | inr current =>
      BumpVersion.bump_version (version_to_bump argv current) (bump_type argv)
  end.

(** With the root manifest [content], the run is given a commit message,
    finds a bump type, reads the version [current] and works out
    [candidate]. *)
Definition reaches_guard (argv : list string) (content current candidate
    : string) : Prop :=
  2 <= length argv
  /\ BumpVersion.truthy (bump_type argv) = true
  /\ BumpVersion.find_current_version BumpVersion.root_cargo content
     = inr current
  /\ BumpVersion.bump_version (version_to_bump argv current) (bump_type argv)
     = inr candidate.

(** It goes past the guard of line 133: the candidate is not the current
    version. *)
Definition passes_guard (argv : list string) (content current candidate
    : string) : Prop :=
  reaches_guard argv content current candidate /\ candidate <> current.

(** The end of [main], from the list of the files updated. *)
Definition report (argv : list string) (current candidate : string)
    (updated : list string) : Sys.M unit :=
  match updated with
  | _ :: _ =>
      let* _ := Sys.print ("Version bumped: " +:+ version_to_bump argv current
                           +:+ " -> " +:+ candidate +:+ " ("
                           +:+ default EmptyString (bump_type argv) +:+ ")") in
      let* _ := Sys.print ("Updated: " +:+ Py.join ", " updated) in
      Sys.exit 0
  | [] =>
      let* _ := Sys.print ("No changes made for version: " +:+ current) in
      Sys.exit 0
  end.

(** The world a run starts in. *)
Definition start (fs : gmap string string) : Sys.world :=
  Sys.World fs [] [] [].

(** The writes a run performs. *)
Definition writes (w : Sys.world) : list Sys.event :=
  filter (fun e => Sys.is_write e = true) (Sys.trace w).

End Run.

(** The statements of the specification on the writer of [Cargo.toml], as
    they are worded. *)
Module Worded.

(** The flag [in_package_section] once the first [n] lines have been
    seen. *)
Definition flag_trace (new_version : string) (lines : list string) (n : nat)
    : bool :=
  BumpVersion.in_package_section
    (BumpVersion.scan_lines new_version (take n lines)).

(** Once the tracked section has been left it is not entered again. *)
Definition never_reenters (new_version : string) (lines : list string)
    : Prop :=
  forall i j k,
    i < j -> j < k -> k <= length lines ->
    flag_trace new_version lines i = true ->
    flag_trace new_version lines j = false ->
    flag_trace new_version lines k = false.

(** Only the first matching line of the tracked section is rewritten:
    every other line is copied. *)
Definition only_first_rewritten (new_version content : string) : Prop :=
  let lines := Py.split "010" content in
  forall i line,
    lines !! i = Some line ->
    Manifest.first_rewritten lines <> Some i ->
    BumpVersion.updated_lines (BumpVersion.scan_lines new_version lines) !! i
    = Some line.

(** Past the guard, the writer of the root manifest always reports an
    update, and the run never ends on the notice that nothing changed. *)
Definition root_always_updated (json_loads : string -> option Json.value)
    (argv : list string) (fs : gmap string string) : Prop :=
  forall content current candidate,
    fs !! BumpVersion.root_cargo = Some content ->
    Run.passes_guard argv content current candidate ->
    fst (BumpVersion.update_cargo_toml BumpVersion.root_cargo candidate
           (Run.start fs)) = inr true
    /\ Sys.stdout (snd (BumpVersion.run json_loads argv fs))
       <> ["No changes made for version: " +:+ current].

(** A second run with the same arguments, after a first run that left the
    root manifest at the version it worked out, reports that the version
    does not change and writes nothing. *)
Definition rerun_is_noop (json_loads : string -> option Json.value)
    (argv : list string) (fs : gmap string string) : Prop :=
  let w1 := snd (BumpVersion.run json_loads argv fs) in
  forall content current candidate content1,
    fs !! BumpVersion.root_cargo = Some content ->
    Run.passes_guard argv content current candidate ->
    Sys.files w1 !! BumpVersion.root_cargo = Some content1 ->
    BumpVersion.find_current_version BumpVersion.root_cargo content1
    = inr candidate ->
    let w2 := snd (BumpVersion.run json_loads argv (Sys.files w1)) in
    Sys.stdout w2 = ["No version change: " +:+ candidate]
    /\ Run.writes w2 = [].

End Worded.

(** Texts used in the examples. *)
Module Sample.

Definition quoted : string -> string := Text.quoted.

Definition text (lines : list string) : string :=
  Py.join (String "010" EmptyString) lines.

(** Never called by the examples that use it. *)
Definition no_json (_ : string) : option Json.value := None.

(** A root manifest at version [v]. *)
Definition cargo_toml_at (v : string) : string :=
  text ["[package]"; "name = " +:+ quoted "decorator";
        "version = " +:+ quoted v; "";
        "[dependencies]"; "serde = { version = " +:+ quoted "1.0" +:+ " }";
        ""].

Definition cargo_toml : string := cargo_toml_at "1.2.3".

(** A manifest whose description, a multi-line string, has a line that
    begins with a version assignment. *)
Definition cargo_toml_description : string :=
  text ["[package]"; "name = " +:+ quoted "decorator";
        "version = " +:+ quoted "1.2.3";
        "description = " +:+ String Json.dquote (quoted "");
        "version = " +:+ quoted "1.2.3" +:+ " is the first release";
        String Json.dquote (quoted ""); ""].

(** Lines in which the header of the tracked section comes twice. *)
Definition lines_two_packages : list string :=
  ["[package]"; "[dependencies]"; "[package]";
   "version = " +:+ quoted "1.2.3"].

(** A configuration document at version [v], as [json.loads] gives it. *)
Definition tauri_conf_value (v : string) : Json.value :=
  Json.Obj [("productName", Json.Str "decorator"); ("version", Json.Str v);
            ("app", Json.Obj [("windows", Json.Arr [Json.Obj
                                 [("width", Json.Int 800);
                                  ("resizable", Json.Bool true)]])])].

(** The same document written on one line. *)
Definition tauri_conf_text (v : string) : string :=
  "{" +:+ quoted "productName" +:+ ": " +:+ quoted "decorator" +:+ ", "
  +:+ quoted "version" +:+ ": " +:+ quoted v +:+ ", "
  +:+ quoted "app" +:+ ": {" +:+ quoted "windows" +:+ ": [{"
  +:+ quoted "width" +:+ ": 800, " +:+ quoted "resizable" +:+ ": true}]}}".

(** [json.loads] on the two documents of the examples. *)
Definition loads (s : string) : option Json.value :=
  if String.eqb s (tauri_conf_text "1.2.3") then Some (tauri_conf_value "1.2.3")
  else if String.eqb s (tauri_conf_text "1.2.4")
  then Some (tauri_conf_value "1.2.4")
  else None.

(** The root manifest of a workspace: the version is under
    [[workspace.package]] and there is no [[package]] section. *)
Definition cargo_toml_workspace : string :=
  text ["[workspace]"; "members = [" +:+ quoted "app" +:+ "]"; "";
        "[workspace.package]"; "version = " +:+ quoted "1.2.3"; ""].

End Sample.

(** Words for the further properties of the script. *)
Module Further.

(** The order of versions: by major, then minor, then patch. *)
Definition version_lt (v v' : list N) : Prop :=
  match v, v' with
  | [a; b; c], [a'; b'; c'] =>
      (a < a' \/ (a = a' /\ (b < b' \/ (b = b' /\ c < c'))))%N
  | _, _ => False
  end.

(** One of the three bump types of the classifier. *)
Definition is_bump_tag (t : option string) : Prop :=
  t = Some "major" \/ t = Some "minor" \/ t = Some "patch".

(** The three files the tool is about. *)
Definition is_target (path : string) : bool :=
  String.eqb path BumpVersion.root_cargo
  || String.eqb path BumpVersion.tauri_cargo
  || String.eqb path BumpVersion.tauri_conf.

(** The path an operation is about. *)
Definition event_path (e : Sys.event) : string :=
  match e with
  | Sys.EvExists p => p
  | Sys.EvRead p => p
  | Sys.EvWrite p _ => p
  end.

(** A computation that only touches the three files: from any world, the
    operations it adds to the trace are about them, every other file is
    left as it is, and nothing already in the trace is lost. *)
Definition confined {A} (c : Sys.M A) : Prop :=
  forall w,
    (exists added,
        Sys.trace (snd (c w)) = Sys.trace w ++ added
        /\ Forall (fun e => is_target (event_path e) = true) added)
    /\ (forall path, is_target path = false ->
                     Sys.files (snd (c w)) !! path = Sys.files w !! path).

(** A manifest in which the first line that begins with the word
    [version] is line [n], a version assignment without indentation that
    lies in a tracked section, no line before it being a version line. *)
Definition regular_manifest (lines : list string) (n : nat) : Prop :=
  exists ws1 ws2 v rest,
    lines !! n = Some (Text.version_assignment ws1 ws2 v +:+ rest)
    /\ Text.is_blank ws1 = true /\ Text.is_blank ws2 = true
    /\ Text.is_value v = true
    /\ Manifest.tracked lines n = true
    /\ forall i l, i < n -> lines !! i = Some l ->
                   Text.is_line l = true
                   /\ Py.startswith l "version" = false
                   /\ Manifest.is_version_line l = false.

End Further.

(** Texts used in the examples of the further properties. *)
Module FurtherSample.

(** The configuration document at version [v] as the writer writes it. *)
Definition tauri_conf_written (v : string) : string :=
  Json.dumps 2 (Sample.tauri_conf_value v) +:+ String "010" EmptyString.

(** [json.loads] on the documents of the examples, written on one line or
    as the writer writes them; it raises on any other text. *)
Definition loads (s : string) : option Json.value :=
  if String.eqb s (tauri_conf_written "1.2.3")
  then Some (Sample.tauri_conf_value "1.2.3")
  else if String.eqb s (tauri_conf_written "1.2.4")
  then Some (Sample.tauri_conf_value "1.2.4")
  else Sample.loads s.

(** The manifest of the nested crate, at version [v]. *)
Definition tauri_cargo_toml_at (v : string) : string :=
  Sample.text ["[package]"; "name = " +:+ Sample.quoted "decorator-app";
               "version = " +:+ Sample.quoted v;
               "edition = " +:+ Sample.quoted "2021"; "";
               "[build-dependencies]";
               "tauri-build = { version = " +:+ Sample.quoted "2" +:+ " }";
               ""].

(** A project with its three files at version [v], the document being on
    one line. *)
Definition project_at (v : string) : gmap string string :=
  {[ "Cargo.toml" := Sample.cargo_toml_at v;
     "src-tauri/Cargo.toml" := tauri_cargo_toml_at v;
     "src-tauri/tauri.conf.json" := Sample.tauri_conf_text v ]}.

End FurtherSample.

(** The followers of the root manifest, when a run leaves them alone. *)
Module Follower.

(** The nested manifest is not there, or has no version line in a tracked
    section: its writer is not called, or reports no update. *)
Definition manifest_unchanged (fs : gmap string string) : Prop :=
  match fs !! BumpVersion.tauri_cargo with
  | None => True
  | Some content =>
      ~ exists i line,
          Py.split "010" content !! i = Some line
          /\ Manifest.is_rewritten (Py.split "010" content) i line = true
  end.

(** The document is not there, or is a mapping whose [version] is the new
    version already. *)
Definition document_unchanged (json_loads : string -> option Json.value)
    (fs : gmap string string) (new_version : string) : Prop :=
  match fs !! BumpVersion.tauri_conf with
  | None => True
  | Some content =>
      exists data,
        json_loads content = Some (Json.Obj data)
        /\ Json.dict_get data "version" = Some (Json.Str new_version)
  end.

(** What a run does with a follower it leaves alone: it asks whether the
    file is there, and reads it when it is. *)
Definition probes (fs : gmap string string) (path : string)
    : list Sys.event :=
  Sys.EvExists path
  :: match fs !! path with
     | Some _ => [Sys.EvRead path]
     | None => []
     end.

(** The manifest of a nested crate that takes its version from the
    workspace. *)
Definition tauri_cargo_toml_inherits : string :=
  Sample.text ["[package]"; "name = " +:+ Sample.quoted "decorator-app";
               "version.workspace = true"; ""].

(** A workspace at 1.2.3 whose nested crate takes the version of the
    workspace and whose document is at 1.2.4 already. *)
Definition workspace_project : gmap string string :=
  {[ "Cargo.toml" := Sample.cargo_toml_workspace;
     "src-tauri/Cargo.toml" := tauri_cargo_toml_inherits;
     "src-tauri/tauri.conf.json" := Sample.tauri_conf_text "1.2.4" ]}.

End Follower.

(** The layout of a JSON text written with an indentation of two spaces:
    the text as rows, each with its nesting depth. *)
Module Layout.

(** A character that stands for itself inside a JSON string: a printable
    ASCII character other than the double quote and the backslash. *)
Definition plain_char (c : ascii) : bool :=
  Py.between 32 126 (Py.ord c)
  && negb (Ascii.eqb c Json.dquote) && negb (Ascii.eqb c Json.backslash).

Definition plain (s : string) : bool := Text.all_in plain_char s.

(** A row of the text: its nesting depth and what follows its
    indentation. *)
Definition row : Type := nat * string.

(** A row is indented by two spaces for each level of nesting. *)
Definition indent_row (r : row) : string :=
  Json.spaces (2 * fst r) +:+ snd r.

(** The text of rows: one line each. *)
Definition text (rs : list row) : string :=
  Py.join (String "010" EmptyString) (List.map indent_row rs).

(** The comma that follows an item, unless it is the last one. *)
Definition comma {A} (rest : list A) : string :=
  match rest with
  | [] => EmptyString
  | _ :: _ => ","
  end.

(** The rows of a value at depth [depth], [pre] being what stands before
    it on its first row (the key and the colon, in a mapping) and [post]
    what stands after it on its last row (the comma). A scalar and an
    empty container take one row; a container that is not empty opens on
    one row, has the rows of its items one level deeper, each item
    followed by a comma but the last, and closes on a row of its own at
    its own depth. *)
Fixpoint rows (depth : nat) (pre post : string) (v : Json.value)
    : list row :=
  match v with
  | Json.Null => [(depth, pre +:+ "null" +:+ post)]
  | Json.Bool true => [(depth, pre +:+ "true" +:+ post)]
  | Json.Bool false => [(depth, pre +:+ "false" +:+ post)]
  | Json.Int z => [(depth, pre +:+ Py.str_Z z +:+ post)]
  | Json.Float r => [(depth, pre +:+ r +:+ post)]
  | Json.Str s => [(depth, pre +:+ Json.encode_str s +:+ post)]
  | Json.Arr [] => [(depth, pre +:+ "[]" +:+ post)]
  | Json.Arr items =>
      (depth, pre +:+ "[")
      :: (fix go (xs : list Json.value) : list row :=
            match xs with
            | [] => []
            | x :: xs' => rows (S depth) EmptyString (comma xs') x ++ go xs'
            end) items
      ++ [(depth, "]" +:+ post)]
  | Json.Obj [] => [(depth, pre +:+ "{}" +:+ post)]
  | Json.Obj members =>
      (depth, pre +:+ "{")
      :: (fix go (ms : list (string * Json.value)) : list row :=
            match ms with
            | [] => []
            | (k, x) :: ms' =>
                rows (S depth) (Json.encode_str k +:+ ": ") (comma ms') x
                ++ go ms'
            end) members
      ++ [(depth, "}" +:+ post)]
  end.

(** The rows of the items of a list and of the members of a mapping. *)
Fixpoint items_rows (depth : nat) (xs : list Json.value) : list row :=
  match xs with
  | [] => []
  | x :: xs' => rows depth EmptyString (comma xs') x ++ items_rows depth xs'
  end.

Fixpoint members_rows (depth : nat) (ms : Json.dict) : list row :=
  match ms with
  | [] => []
  | (k, x) :: ms' =>
      rows depth (Json.encode_str k +:+ ": ") (comma ms') x
      ++ members_rows depth ms'
  end.

End Layout.

(** Texts used in the examples of the layout. *)
Module LayoutSample.

(** The sample document at 1.2.4, as [json.dumps] writes it with an
    indentation of two spaces, and the line break the writer adds. *)
Definition tauri_conf_written : string :=
  Sample.text
    ["{";
     "  " +:+ Sample.quoted "productName" +:+ ": "
     +:+ Sample.quoted "decorator" +:+ ",";
     "  " +:+ Sample.quoted "version" +:+ ": " +:+ Sample.quoted "1.2.4"
     +:+ ",";
     "  " +:+ Sample.quoted "app" +:+ ": {";
     "    " +:+ Sample.quoted "windows" +:+ ": [";
     "      {";
     "        " +:+ Sample.quoted "width" +:+ ": 800,";
     "        " +:+ Sample.quoted "resizable" +:+ ": true";
     "      }";
     "    ]";
     "  }";
     "}";
     ""].

(** A name with an accented letter, double quotes, a backslash, a line
    break, a tabulation, a carriage return, a backspace, a form feed,
    the control character 31 and the character 127. *)
Definition odd_name : string :=
  "d" +:+ String "233" "cor " +:+ Sample.quoted "x"
  +:+ String Json.backslash
        (String "010" (String "009" (String "013" (String "008"
           (String "012" (String "031" (String "127" ""))))))).

(** That name as JSON writes it. *)
Definition odd_name_escaped : string :=
  "d" +:+ String Json.backslash "u00e9cor "
  +:+ String Json.backslash (String Json.dquote "x")
  +:+ String Json.backslash (String Json.dquote "")
  +:+ String Json.backslash (String Json.backslash "")
  +:+ String Json.backslash "n" +:+ String Json.backslash "t"
  +:+ String Json.backslash "r" +:+ String Json.backslash "b"
  +:+ String Json.backslash "f" +:+ String Json.backslash "u001f"
  +:+ String Json.backslash "u007f".

(** A document with that name, a list, empty containers, a null, a
    boolean and a negative number, and no version. *)
Definition odd_members : Json.dict :=
  [("productName", Json.Str odd_name);
   ("tags", Json.Arr [Json.Str "a"; Json.Int 1]);
   ("none", Json.Arr []); ("meta", Json.Obj []);
   ("beta", Json.Null); ("draft", Json.Bool false);
   ("ratio", Json.Int (-3))].

Definition odd_value : Json.value := Json.Obj odd_members.

(** The same document written on one line. *)
Definition odd_text : string :=
  "{" +:+ Sample.quoted "productName" +:+ ": "
  +:+ Sample.quoted odd_name_escaped
  +:+ ", " +:+ Sample.quoted "tags" +:+ ": [" +:+ Sample.quoted "a"
  +:+ ", 1], "
  +:+ Sample.quoted "none" +:+ ": [], "
  +:+ Sample.quoted "meta" +:+ ": {}, "
  +:+ Sample.quoted "beta" +:+ ": null, "
  +:+ Sample.quoted "draft" +:+ ": false, "
  +:+ Sample.quoted "ratio" +:+ ": -3}".

(** [json.loads] on that document. *)
Definition loads (s : string) : option Json.value :=
  if String.eqb s odd_text then Some odd_value else None.

(** That document as the writer writes it at 1.2.4: the characters of the
    name escaped, the version last. *)
Definition odd_written : string :=
  Sample.text
    ["{";
     "  " +:+ Sample.quoted "productName" +:+ ": "
     +:+ Sample.quoted odd_name_escaped +:+ ",";
     "  " +:+ Sample.quoted "tags" +:+ ": [";
     "    " +:+ Sample.quoted "a" +:+ ",";
     "    1";
     "  ],";
     "  " +:+ Sample.quoted "none" +:+ ": [],";
     "  " +:+ Sample.quoted "meta" +:+ ": {},";
     "  " +:+ Sample.quoted "beta" +:+ ": null,";
     "  " +:+ Sample.quoted "draft" +:+ ": false,";
     "  " +:+ Sample.quoted "ratio" +:+ ": -3,";
     "  " +:+ Sample.quoted "version" +:+ ": " +:+ Sample.quoted "1.2.4";
     "}";
     ""].

End LayoutSample.

(* ===================================================================== *)
(** * Facts on strings                                                     *)
(* ===================================================================== *)

Section StringFacts.

Lemma append_nil_r (s : string) : s +:+ "" = s.
Proof. induction s as [|c s IH]; simpl; [reflexivity | now rewrite IH]. Qed.

Lemma append_assoc (a b c : string) : (a +:+ b) +:+ c = a +:+ b +:+ c.
Proof. induction a as [|x a IH]; simpl; [reflexivity | now rewrite IH]. Qed.

Lemma length_append (a b : string) :
  String.length (a +:+ b) = String.length a + String.length b.
Proof. induction a as [|x a IH]; simpl; [reflexivity | now rewrite IH]. Qed.

Lemma substring_prefix (a b : string) :
  String.substring 0 (String.length a) (a +:+ b) = a.
Proof.
  induction a as [|x a IH]; simpl.
  - now destruct b.
  - now rewrite IH.
Qed.

Lemma consumed_app (a b : string) : Re.consumed (a +:+ b) b = a.
Proof.
  unfold Re.consumed. rewrite length_append.
  replace (String.length a + String.length b - String.length b)
    with (String.length a) by lia.
  apply substring_prefix.
Qed.

Lemma span_app (f : ascii -> bool) (s : string) :
  fst (Text.span f s) +:+ snd (Text.span f s) = s.
Proof.
  induction s as [|c s IH]; simpl; [reflexivity|].
  destruct (f c); simpl; [now rewrite IH | reflexivity].
Qed.

Lemma span_all (f : ascii -> bool) (s : string) :
  Text.all_in f (fst (Text.span f s)) = true.
Proof.
  induction s as [|c s IH]; simpl; [reflexivity|].
  destruct (f c) eqn:E; simpl; [now rewrite E | reflexivity].
Qed.

Lemma span_head (f : ascii -> bool) (s : string) :
  Text.head_in f (snd (Text.span f s)) = false.
Proof.
  induction s as [|c s IH]; simpl; [reflexivity|].
  destruct (f c) eqn:E; simpl; [exact IH | exact E].
Qed.

(** A run followed by a text that does not continue it is what [span]
    finds. *)
Lemma span_run (f : ascii -> bool) (d rest : string) :
  Text.all_in f d = true -> Text.head_in f rest = false ->
  Text.span f (d +:+ rest) = (d, rest).
Proof.
  intros Hd Hr. induction d as [|c d IH]; simpl in *.
  - destruct rest as [|x rest]; simpl in *; [reflexivity | now rewrite Hr].
  - apply andb_prop in Hd as [Hc Hd]. rewrite Hc, (IH Hd). reflexivity.
Qed.

Lemma all_in_app (f : ascii -> bool) (a b : string) :
  Text.all_in f (a +:+ b) = Text.all_in f a && Text.all_in f b.
Proof.
  induction a as [|c a IH]; simpl; [reflexivity|].
  now rewrite IH, andb_assoc.
Qed.

End StringFacts.

(* ===================================================================== *)
(** * Facts on the matcher                                                 *)
(* ===================================================================== *)

Section ReFacts.
Variable ml : bool.

(** A continuation that rejects every text beginning with a character of
    the class sees the longest run only. *)
Lemma m_star_span_reject (c : Re.cclass) (k : Re.cont) (caps : list string) :
  (forall b x s', Re.cmatch c x = true -> k b (String x s') caps = None) ->
  forall s bol,
    Re.m_star ml c bol s caps k
    = k (Text.bol_end ml bol (fst (Text.span (Re.cmatch c) s)))
        (snd (Text.span (Re.cmatch c) s)) caps.
Proof.
  intros Hk s. induction s as [|x s IH]; intros bol; simpl; [reflexivity|].
  destruct (Re.cmatch c x) eqn:E; simpl; [|reflexivity].
  rewrite IH.
  destruct (k _ _ caps) eqn:Ek; [reflexivity|].
  now apply Hk.
Qed.

(** So does a continuation that accepts every text. *)
Lemma m_star_span_total (c : Re.cclass) (k : Re.cont) (caps : list string) :
  (forall b s', k b s' caps <> None) ->
  forall s bol,
    Re.m_star ml c bol s caps k
    = k (Text.bol_end ml bol (fst (Text.span (Re.cmatch c) s)))
        (snd (Text.span (Re.cmatch c) s)) caps.
Proof.
  intros Hk s. induction s as [|x s IH]; intros bol; simpl; [reflexivity|].
  destruct (Re.cmatch c x) eqn:E; simpl; [|reflexivity].
  rewrite IH.
  destruct (k _ _ caps) eqn:Ek; [reflexivity|].
  now apply Hk in Ek.
Qed.

Lemma m_plus_span (c : Re.cclass) (k : Re.cont) (caps : list string) :
  (forall s bol,
    Re.m_star ml c bol s caps k
    = k (Text.bol_end ml bol (fst (Text.span (Re.cmatch c) s)))
        (snd (Text.span (Re.cmatch c) s)) caps) ->
  forall s bol,
    Re.m_plus ml c bol s caps k
    = if Text.nonempty (fst (Text.span (Re.cmatch c) s))
      then k (Text.bol_end ml bol (fst (Text.span (Re.cmatch c) s)))
             (snd (Text.span (Re.cmatch c) s)) caps
      else None.
Proof.
  intros H s bol. destruct s as [|x s]; simpl; [reflexivity|].
  destruct (Re.cmatch c x) eqn:E; simpl; [|reflexivity].
  apply H.
Qed.

Lemma m_lit_app (p s : string) (bol : bool) (caps : list string)
    (k : Re.cont) :
  Re.m_lit ml p bol (p +:+ s) caps k = k (Text.bol_end ml bol p) s caps.
Proof.
  revert bol. induction p as [|a p IH]; intros bol; simpl; [reflexivity|].
  rewrite Ascii.eqb_refl. apply IH.
Qed.

Lemma m_lit_inv (p s : string) (bol : bool) (caps : list string)
    (k : Re.cont) (r : Re.result) :
  Re.m_lit ml p bol s caps k = Some r ->
  exists s', s = p +:+ s' /\ k (Text.bol_end ml bol p) s' caps = Some r.
Proof.
  revert s bol. induction p as [|a p IH]; intros s bol; simpl.
  - intros H. now exists s.
  - destruct s as [|b s]; [discriminate|].
    destruct (Ascii.eqb a b) eqn:E; [|discriminate].
    apply Ascii.eqb_eq in E as ->. intros H.
    destruct (IH _ _ H) as (s' & -> & Hk). now exists s'.
Qed.

End ReFacts.

(* ===================================================================== *)
(** * Decimal numbers                                                      *)
(* ===================================================================== *)

Section Decimal.

Lemma int_acc_string_of_uint (d d' : Decimal.uint) :
  Py.int_acc (DecimalPos.Unsigned.of_lu d') (NilEmpty.string_of_uint d)
  = DecimalPos.Unsigned.of_lu (Decimal.revapp d d').
Proof.
  revert d'. induction d as [|d IH|d IH|d IH|d IH|d IH|d IH|d IH|d IH|d IH|d IH];
    intros d'; simpl; [reflexivity|..];
    rewrite <- IH; f_equal; simpl;
    unfold Py.digit_value; simpl; lia.
Qed.

(** [int(str(n)) == n] *)
Lemma int_str (n : N) : Py.int (Py.str n) = n.
Proof.
  unfold Py.int, Py.str.
  change 0%N with (DecimalPos.Unsigned.of_lu Decimal.Nil).
  rewrite int_acc_string_of_uint.
  change (Decimal.revapp (N.to_uint n) Decimal.Nil)
    with (Decimal.rev (N.to_uint n)).
  rewrite <- DecimalPos.Unsigned.of_uint_alt.
  apply DecimalN.Unsigned.of_to.
Qed.

Lemma string_of_uint_digits (d : Decimal.uint) :
  Text.all_in Py.isdecimal (NilEmpty.string_of_uint d) = true.
Proof. induction d; simpl; auto. Qed.

Lemma string_of_uint_nonempty (d : Decimal.uint) :
  d <> Decimal.Nil -> Text.nonempty (NilEmpty.string_of_uint d) = true.
Proof. destruct d; simpl; congruence. Qed.

(** [str(n)] is a decimal number. *)
Lemma str_is_number (n : N) : Text.is_number (Py.str n) = true.
Proof.
  unfold Text.is_number, Py.str.
  rewrite string_of_uint_digits, andb_true_r.
  apply string_of_uint_nonempty.
  destruct n as [|p]; simpl; [discriminate|].
  apply DecimalPos.Unsigned.to_uint_nonnil.
Qed.

End Decimal.

(* ===================================================================== *)
(** * parse_version and bump_version                                       *)
(* ===================================================================== *)

Section Versions.
Import BumpVersion Sys.

Lemma consumed_span (f : ascii -> bool) (s : string) :
  Re.consumed s (snd (Text.span f s)) = fst (Text.span f s).
Proof. rewrite <- (span_app f s) at 1. apply consumed_app. Qed.

Lemma digit_not_dot (x : ascii) :
  Py.isdecimal x = true -> Ascii.eqb "." x = false.
Proof.
  destruct x as [[] [] [] [] [] [] [] []]; intros H;
    solve [reflexivity | discriminate H].
Qed.

(** The matcher run on the pattern of [parse_version] finds the leading
    version. *)
Lemma re_match_version_re (s : string) :
  Re.re_match version_re s = leading_version s.
Proof.
  unfold Re.re_match, Re.match_here, version_re, leading_version.
  cbn [Re.m_nodes Re.m_node Re.m_atoms Re.m_atom].
  rewrite m_plus_span.
  2:{ intros. apply m_star_span_reject. intros b x s' Hx.
      cbn [Re.m_nodes Re.m_node Re.m_atoms Re.m_atom Re.m_lit].
      now rewrite (digit_not_dot x Hx). }
  change (Re.cmatch Re.Digit) with Py.isdecimal.
  destruct (Text.nonempty _) eqn:E1; [|reflexivity].
  cbn [Re.m_lit].
  destruct (snd (Text.span Py.isdecimal s)) as [|c1 s2] eqn:R1;
    [reflexivity|].
  destruct (Ascii.eqb_spec "." c1) as [<-|N1].
  2:{ destruct c1 as [[] [] [] [] [] [] [] []]; try reflexivity.
      now contradiction N1. }
  rewrite m_plus_span.
  2:{ intros. apply m_star_span_reject. intros b x s' Hx.
      cbn [Re.m_nodes Re.m_node Re.m_atoms Re.m_atom Re.m_lit].
      now rewrite (digit_not_dot x Hx). }
  change (Re.cmatch Re.Digit) with Py.isdecimal.
  destruct (Text.nonempty (fst (Text.span Py.isdecimal s2))) eqn:E2;
    [|reflexivity].
  destruct (snd (Text.span Py.isdecimal s2)) as [|c2 s3] eqn:R2;
    [reflexivity|].
  destruct (Ascii.eqb_spec "." c2) as [<-|N2].
  2:{ destruct c2 as [[] [] [] [] [] [] [] []]; try reflexivity.
      now contradiction N2. }
  rewrite m_plus_span.
  2:{ intros. now apply m_star_span_total. }
  change (Re.cmatch Re.Digit) with Py.isdecimal.
  destruct (Text.nonempty (fst (Text.span Py.isdecimal s3))) eqn:E3;
    [|reflexivity].
  rewrite <- R1, <- R2, !consumed_span. reflexivity.
Qed.

(** The leading version of a text that starts with three numbers. *)
Lemma leading_version_prefix (s d1 d2 d3 rest : string) :
  version_prefix s d1 d2 d3 rest ->
  leading_version s = Some ([d1; d2; d3], rest).
Proof.
  intros (-> & H1 & H2 & H3 & Hr).
  unfold Text.is_number in *.
  apply andb_prop in H1 as [N1 A1], H2 as [N2 A2], H3 as [N3 A3].
  unfold leading_version.
  rewrite (span_run Py.isdecimal d1) by (auto; reflexivity).
  cbn [fst snd]. rewrite N1. simpl.
  rewrite (span_run Py.isdecimal d2) by (auto; reflexivity).
  cbn [fst snd]. rewrite N2. simpl.
  rewrite (span_run Py.isdecimal d3) by auto.
  cbn [fst snd]. now rewrite N3.
Qed.

(** A leading version is found only in such a text. *)
Lemma leading_version_inv (s : string) (groups : list string)
    (rest : string) :
  leading_version s = Some (groups, rest) ->
  exists d1 d2 d3,
    groups = [d1; d2; d3] /\ version_prefix s d1 d2 d3 rest.
Proof.
  unfold leading_version. intros H.
  destruct (Text.nonempty (fst (Text.span Py.isdecimal s))) eqn:E1;
    [|discriminate].
  destruct (snd (Text.span Py.isdecimal s)) as [|c1 s2] eqn:R1;
    [discriminate|].
  destruct (Ascii.eqb_spec "." c1) as [<-|N1].
  2:{ destruct c1 as [[] [] [] [] [] [] [] []]; try discriminate.
      now contradiction N1. }
  destruct (Text.nonempty (fst (Text.span Py.isdecimal s2))) eqn:E2;
    [|discriminate].
  destruct (snd (Text.span Py.isdecimal s2)) as [|c2 s3] eqn:R2;
    [discriminate|].
  destruct (Ascii.eqb_spec "." c2) as [<-|N2].
  2:{ destruct c2 as [[] [] [] [] [] [] [] []]; try discriminate.
      now contradiction N2. }
  destruct (Text.nonempty (fst (Text.span Py.isdecimal s3))) eqn:E3;
    [|discriminate].
  injection H as <- <-.
  eexists _, _, _. split; [reflexivity|].
  unfold version_prefix, Text.is_number.
  rewrite E1, E2, E3, !span_all, span_head. repeat split.
  rewrite <- (span_app Py.isdecimal s) at 1. rewrite R1.
  rewrite <- (span_app Py.isdecimal s2) at 1. rewrite R2.
  rewrite <- (span_app Py.isdecimal s3) at 1.
  simpl. reflexivity.
Qed.

Lemma parse_version_prefix (s d1 d2 d3 rest : string) :
  version_prefix s d1 d2 d3 rest ->
  parse_version s = inr [Py.int d1; Py.int d2; Py.int d3].
Proof.
  intros H. unfold parse_version.
  now rewrite re_match_version_re, (leading_version_prefix _ _ _ _ _ H).
Qed.

Lemma no_version_prefix (s : string) :
  leading_version s = None ->
  forall d1 d2 d3 rest, ~ version_prefix s d1 d2 d3 rest.
Proof.
  intros E d1 d2 d3 rest H.
  apply leading_version_prefix in H. congruence.
Qed.

(** A version rendered from three integers parses back to them. *)
Lemma parse_version_str (a b c : N) :
  parse_version (Py.str a +:+ "." +:+ Py.str b +:+ "." +:+ Py.str c)
  = inr [a; b; c].
Proof.
  rewrite (parse_version_prefix _ (Py.str a) (Py.str b) (Py.str c) "").
  - now rewrite !int_str.
  - unfold version_prefix. rewrite !str_is_number, append_nil_r. auto.
Qed.

End Versions.

(** C9. [parse_version] reads the pattern [\d+\.\d+\.\d+] at the start of
    the string and ignores what follows the third number: a string that
    starts with three dot-separated numbers parses to their values, and
    every string that does not start so raises the error for an invalid
    version format, which carries the string. *)
Theorem parse_version_leading_pattern (s : string) :
  (forall d1 d2 d3 rest,
      version_prefix s d1 d2 d3 rest ->
      BumpVersion.parse_version s = inr [Py.int d1; Py.int d2; Py.int d3])
  /\ ((forall d1 d2 d3 rest, ~ version_prefix s d1 d2 d3 rest) ->
      BumpVersion.parse_version s
      = inl (Sys.ValueError ("Invalid version format: " +:+ s))).
Proof.
  split.
  - intros d1 d2 d3 rest H. exact (parse_version_prefix _ _ _ _ _ H).
  - intros H. unfold BumpVersion.parse_version.
    rewrite re_match_version_re.
    destruct (leading_version s) as [[groups rest]|] eqn:E; [|reflexivity].
    apply leading_version_inv in E as (d1 & d2 & d3 & _ & Hp).
    now destruct (H d1 d2 d3 rest).
Qed.

(** The version [1.2.3-beta.1] parses as (1, 2, 3), and [v1.2.3], which
    does not start with a digit, is refused. *)
Lemma parse_version_leading_pattern_witness :
  BumpVersion.parse_version "1.2.3-beta.1" = inr [1; 2; 3]%N
  /\ BumpVersion.parse_version "v1.2.3"
     = inl (Sys.ValueError "Invalid version format: v1.2.3").
Proof.
  split.
  - apply (proj1 (parse_version_leading_pattern "1.2.3-beta.1")
             "1" "2" "3" "-beta.1").
    repeat split.
  - apply (proj2 (parse_version_leading_pattern "v1.2.3")).
    apply no_version_prefix. reflexivity.
Defined.

(** C1. On a version string that starts with three dot-separated numbers,
    [bump_version] adds one to the component the category names, sets the
    less significant ones to 0 and keeps the more significant ones; the
    string it returns parses back to exactly these three values. *)
Theorem bump_version_components (s d1 d2 d3 rest : string) :
  version_prefix s d1 d2 d3 rest ->
  let major := Py.int d1 in
  let minor := Py.int d2 in
  let patch := Py.int d3 in
  BumpVersion.bump_version s (Some "major")
  = inr (Py.str (major + 1) +:+ ".0.0")
  /\ BumpVersion.bump_version s (Some "minor")
     = inr (Py.str major +:+ "." +:+ Py.str (minor + 1) +:+ ".0")
  /\ BumpVersion.bump_version s (Some "patch")
     = inr (Py.str major +:+ "." +:+ Py.str minor +:+ "."
            +:+ Py.str (patch + 1))
  /\ BumpVersion.parse_version (Py.str (major + 1) +:+ ".0.0")
     = inr [major + 1; 0; 0]%N
  /\ BumpVersion.parse_version
       (Py.str major +:+ "." +:+ Py.str (minor + 1) +:+ ".0")
     = inr [major; minor + 1; 0]%N
  /\ BumpVersion.parse_version
       (Py.str major +:+ "." +:+ Py.str minor +:+ "." +:+ Py.str (patch + 1))
     = inr [major; minor; patch + 1]%N.
Proof.
  intros H major minor patch.
  unfold BumpVersion.bump_version.
  rewrite (parse_version_prefix _ _ _ _ _ H).
  fold major minor patch.
  repeat split; try reflexivity.
  - apply (parse_version_str (major + 1) 0 0).
  - apply (parse_version_str major (minor + 1) 0).
  - apply parse_version_str.
Qed.

(** From [1.9.9-rc1]: major gives 2.0.0, minor 1.10.0, patch 1.9.10. *)
Lemma bump_version_components_witness :
  BumpVersion.bump_version "1.9.9-rc1" (Some "major") = inr "2.0.0"
  /\ BumpVersion.bump_version "1.9.9-rc1" (Some "minor") = inr "1.10.0"
  /\ BumpVersion.bump_version "1.9.9-rc1" (Some "patch") = inr "1.9.10".
Proof.
  destruct (bump_version_components "1.9.9-rc1" "1" "9" "9" "-rc1")
    as (H1 & H2 & H3 & _).
  - repeat split.
  - exact (conj H1 (conj H2 H3)).
Defined.

(* ===================================================================== *)
(** * The classifier                                                       *)
(* ===================================================================== *)

Section Classifier.
Import BumpVersion.

Lemma isspace_lower_char (c : ascii) :
  Py.isspace (Py.lower_char c) = Py.isspace c.
Proof. destruct c as [[] [] [] [] [] [] [] []]; reflexivity. Qed.

Lemma lower_lstrip (s : string) :
  Py.lower (Py.lstrip s) = Py.lstrip (Py.lower s).
Proof.
  induction s as [|c s IH]; simpl; [reflexivity|].
  rewrite isspace_lower_char. now destruct (Py.isspace c).
Qed.

Lemma lower_rstrip (s : string) :
  Py.lower (Py.rstrip s) = Py.rstrip (Py.lower s).
Proof.
  induction s as [|c s IH]; simpl; [reflexivity|].
  rewrite <- IH, isspace_lower_char.
  destruct (Py.rstrip s); simpl; [|reflexivity].
  now destruct (Py.isspace c).
Qed.

Lemma lower_strip (s : string) :
  Py.lower (Py.strip s) = Py.strip (Py.lower s).
Proof. unfold Py.strip. now rewrite lower_rstrip, lower_lstrip. Qed.

Lemma lstrip_blank (l s : string) :
  Text.is_blank l = true -> Py.lstrip (l +:+ s) = Py.lstrip s.
Proof.
  induction l as [|c l IH]; simpl; [reflexivity|].
  intros H. apply andb_prop in H as [-> H]. auto.
Qed.

Lemma rstrip_blank_only (r : string) :
  Text.is_blank r = true -> Py.rstrip r = "".
Proof.
  induction r as [|c r IH]; simpl; [reflexivity|].
  intros H. apply andb_prop in H as [-> H]. now rewrite IH.
Qed.

Lemma rstrip_blank (s r : string) :
  Text.is_blank r = true -> Py.rstrip (s +:+ r) = Py.rstrip s.
Proof.
  intros H. induction s as [|c s IH]; simpl.
  - now apply rstrip_blank_only.
  - now rewrite IH.
Qed.

Lemma lstrip_app (s r : string) :
  Py.lstrip (s +:+ r)
  = if Text.is_blank s then Py.lstrip r else Py.lstrip s +:+ r.
Proof.
  unfold Text.is_blank.
  induction s as [|c s IH]; simpl; [reflexivity|].
  destruct (Py.isspace c); simpl; [exact IH | reflexivity].
Qed.

Lemma lstrip_blank_only (s : string) :
  Text.is_blank s = true -> Py.lstrip s = "".
Proof.
  induction s as [|c s IH]; simpl; [reflexivity|].
  intros H. apply andb_prop in H as [-> H]. auto.
Qed.

(** White space around a text does not change what [strip] gives. *)
Lemma strip_blank (l s r : string) :
  Text.is_blank l = true -> Text.is_blank r = true ->
  Py.strip (l +:+ s +:+ r) = Py.strip s.
Proof.
  intros Hl Hr. unfold Py.strip.
  rewrite (lstrip_blank l _ Hl), lstrip_app.
  destruct (Text.is_blank s) eqn:E.
  - now rewrite (lstrip_blank_only r Hr), (lstrip_blank_only s E).
  - now apply rstrip_blank.
Qed.

End Classifier.

(** C2. The classifier strips the message, lowercases it and tests the
    three prefixes in order: [release(] gives major, else [feature(] gives
    minor, else [fix(] gives patch, else None. Messages equal up to case
    are classified alike, and so are a message and the same message with
    white space added on either side. *)
Theorem get_bump_type_from_commit_spec (commit_msg : string) :
  let m := Py.lower (Py.strip commit_msg) in
  (Py.startswith m "release(" = true ->
     BumpVersion.get_bump_type_from_commit commit_msg = Some "major")
  /\ (Py.startswith m "release(" = false ->
      Py.startswith m "feature(" = true ->
      BumpVersion.get_bump_type_from_commit commit_msg = Some "minor")
  /\ (Py.startswith m "release(" = false ->
      Py.startswith m "feature(" = false ->
      Py.startswith m "fix(" = true ->
      BumpVersion.get_bump_type_from_commit commit_msg = Some "patch")
  /\ (Py.startswith m "release(" = false ->
      Py.startswith m "feature(" = false ->
      Py.startswith m "fix(" = false ->
      BumpVersion.get_bump_type_from_commit commit_msg = None)
  /\ (forall other,
        Py.lower other = Py.lower commit_msg ->
        BumpVersion.get_bump_type_from_commit other
        = BumpVersion.get_bump_type_from_commit commit_msg)
  /\ (forall l r,
        Text.is_blank l = true -> Text.is_blank r = true ->
        BumpVersion.get_bump_type_from_commit (l +:+ commit_msg +:+ r)
        = BumpVersion.get_bump_type_from_commit commit_msg).
Proof.
  intros m. unfold BumpVersion.get_bump_type_from_commit. fold m.
  repeat split.
  - now intros ->.
  - now intros -> ->.
  - now intros -> -> ->.
  - now intros -> -> ->.
  - intros other H. subst m. now rewrite !lower_strip, H.
  - intros l r Hl Hr. now rewrite (strip_blank l commit_msg r Hl Hr).
Qed.

(** [ Release(x): y ], with a space on either side, is a major bump, as
    are [release(x): y] and [RELEASE(X): Y]. *)
Lemma get_bump_type_from_commit_spec_witness :
  BumpVersion.get_bump_type_from_commit " Release(x): y " = Some "major"
  /\ BumpVersion.get_bump_type_from_commit "RELEASE(X): Y"
     = BumpVersion.get_bump_type_from_commit "release(x): y"
  /\ BumpVersion.get_bump_type_from_commit " Release(x): y "
     = BumpVersion.get_bump_type_from_commit "Release(x): y"
  /\ BumpVersion.get_bump_type_from_commit "Feature(a): b" = Some "minor"
  /\ BumpVersion.get_bump_type_from_commit "FIX(a): b" = Some "patch"
  /\ BumpVersion.get_bump_type_from_commit "chore: cleanup" = None.
Proof.
  destruct (get_bump_type_from_commit_spec " Release(x): y ") as (A & _).
  destruct (get_bump_type_from_commit_spec "release(x): y")
    as (_ & _ & _ & _ & B & _).
  destruct (get_bump_type_from_commit_spec "Release(x): y")
    as (_ & _ & _ & _ & _ & C).
  destruct (get_bump_type_from_commit_spec "Feature(a): b") as (_ & D & _).
  destruct (get_bump_type_from_commit_spec "FIX(a): b") as (_ & _ & E & _).
  destruct (get_bump_type_from_commit_spec "chore: cleanup")
    as (_ & _ & _ & F & _).
  exact (conj (A eq_refl)
          (conj (B "RELEASE(X): Y" eq_refl)
             (conj (C " " " " eq_refl eq_refl)
                (conj (D eq_refl eq_refl)
                   (conj (E eq_refl eq_refl eq_refl)
                      (F eq_refl eq_refl eq_refl)))))).
Defined.

(* ===================================================================== *)
(** * The run as a whole                                                   *)
(* ===================================================================== *)

(** C5. A commit message that, stripped and lowercased, starts with none
    of the three prefixes ends the run at once with status 0: nothing is
    printed, no file is probed, read or written, and the file system is
    the one the run started in. *)
Theorem main_no_bump_no_effect (json_loads : string -> option Json.value)
    (prog commit_msg : string) (more : list string) (w : Sys.world) :
  let m := Py.lower (Py.strip commit_msg) in
  Py.startswith m "release(" = false ->
  Py.startswith m "feature(" = false ->
  Py.startswith m "fix(" = false ->
  let r := BumpVersion.main json_loads (prog :: commit_msg :: more) w in
  r = (inl (Sys.SystemExit 0), w)
  /\ Sys.exit_status (fst r) = 0%Z
  /\ Sys.files (snd r) = Sys.files w
  /\ Sys.trace (snd r) = Sys.trace w
  /\ Sys.stdout (snd r) = Sys.stdout w
  /\ Sys.stderr (snd r) = Sys.stderr w.
Proof.
  intros m H1 H2 H3 r.
  assert (E : r = (inl (Sys.SystemExit 0), w)).
  { subst r. unfold BumpVersion.main.
    cbn [length Nat.ltb Nat.leb nth].
    unfold BumpVersion.get_bump_type_from_commit. fold m.
    now rewrite H1, H2, H3. }
  rewrite E. repeat split.
Qed.

(** The message [chore: cleanup] ends the run with status 0 and leaves
    the world as it was. *)
Lemma main_no_bump_no_effect_witness :
  BumpVersion.run Sample.no_json ["bump_version.py"; "chore: cleanup"]
    {[ "Cargo.toml" := Sample.cargo_toml ]}
  = (inl (Sys.SystemExit 0),
     Sys.World {[ "Cargo.toml" := Sample.cargo_toml ]} [] [] []).
Proof.
  exact (proj1 (main_no_bump_no_effect Sample.no_json "bump_version.py"
                  "chore: cleanup" []
                  (Sys.World {[ "Cargo.toml" := Sample.cargo_toml ]} [] [] [])
                  eq_refl eq_refl eq_refl)).
Defined.

(* ===================================================================== *)
(** * The loop of update_cargo_toml                                        *)
(* ===================================================================== *)

Section Scanner.
Import BumpVersion Manifest.
Variable new_version : string.

(** One iteration, in the words of the statements. *)
Lemma scan_line_spec (st : scan_state) (line : string) :
  let flag := flag_after (in_package_section st) line in
  let hit := negb (is_package_header line) && flag && is_version_line line in
  scan_line new_version st line
  = ScanState
      (updated_lines st ++ [if hit then rewritten new_version line else line])
      flag (version_updated st || hit).
Proof.
  unfold scan_line, flag_after, is_other_header, is_version_line, rewritten.
  fold (is_package_header line).
  destruct (is_package_header line); simpl.
  - now rewrite orb_false_r.
  - rewrite andb_true_r.
    destruct (in_package_section st), (Py.startswith (Py.strip line) "[");
      simpl; try (now rewrite orb_false_r);
      destruct (bool_decide _); simpl;
      now rewrite ?orb_true_r, ?orb_false_r.
Qed.

Lemma scan_lines_snoc (lines : list string) (line : string) :
  scan_lines new_version (lines ++ [line])
  = scan_line new_version (scan_lines new_version lines) line.
Proof. unfold scan_lines. now rewrite fold_left_app. Qed.

Lemma section_flag_snoc (lines : list string) (line : string) :
  section_flag (lines ++ [line]) = flag_after (section_flag lines) line.
Proof. unfold section_flag. now rewrite fold_left_app. Qed.

Lemma tracked_snoc_old (lines : list string) (line : string) (i : nat) :
  i < length lines -> tracked (lines ++ [line]) i = tracked lines i.
Proof.
  intros H. unfold tracked. now rewrite take_app_le by lia.
Qed.

Lemma tracked_snoc_new (lines : list string) (line : string) :
  tracked (lines ++ [line]) (length lines)
  = flag_after (section_flag lines) line.
Proof.
  unfold tracked.
  rewrite take_ge by (rewrite length_app; simpl; lia).
  apply section_flag_snoc.
Qed.

(** The flag of the loop is the flag of the statements. *)
Lemma scan_lines_flag (lines : list string) :
  in_package_section (scan_lines new_version lines) = section_flag lines.
Proof.
  induction lines as [|line lines IH] using rev_ind; [reflexivity|].
  rewrite scan_lines_snoc, section_flag_snoc, scan_line_spec. simpl.
  now rewrite IH.
Qed.

Lemma scan_lines_length (lines : list string) :
  length (updated_lines (scan_lines new_version lines)) = length lines.
Proof.
  induction lines as [|line lines IH] using rev_ind; [reflexivity|].
  rewrite scan_lines_snoc, scan_line_spec. simpl.
  rewrite !length_app, IH. reflexivity.
Qed.

(** Line by line: a rewritten line is replaced, any other is copied. *)
Lemma scan_lines_lookup (lines : list string) (i : nat) (line : string) :
  lines !! i = Some line ->
  updated_lines (scan_lines new_version lines) !! i
  = Some (if is_rewritten lines i line then rewritten new_version line
          else line).
Proof.
  revert i line.
  induction lines as [|x lines IH] using rev_ind; intros i line H;
    [discriminate|].
  rewrite scan_lines_snoc, scan_line_spec. simpl.
  destruct (decide (i < length lines)) as [Hi|Hi].
  - rewrite lookup_app_l in H by exact Hi.
    rewrite lookup_app_l by (now rewrite scan_lines_length).
    rewrite (IH i line H). unfold is_rewritten.
    now rewrite tracked_snoc_old.
  - apply lookup_lt_Some in H as Hlt. rewrite length_app in Hlt. simpl in Hlt.
    assert (i = length lines) as -> by lia.
    rewrite lookup_app_r in H by lia. rewrite Nat.sub_diag in H.
    injection H as ->.
    rewrite lookup_app_r by (rewrite scan_lines_length; lia).
    rewrite scan_lines_length, Nat.sub_diag. simpl.
    unfold is_rewritten. now rewrite tracked_snoc_new, scan_lines_flag.
Qed.

(** The loop reports an update exactly when some line is rewritten. *)
Lemma scan_lines_updated (lines : list string) :
  version_updated (scan_lines new_version lines) = true
  <-> exists i line, lines !! i = Some line
                     /\ is_rewritten lines i line = true.
Proof.
  induction lines as [|x lines IH] using rev_ind.
  - split; [discriminate|]. now intros (i & line & H & _).
  - rewrite scan_lines_snoc, scan_line_spec. simpl.
    rewrite orb_true_iff, IH, scan_lines_flag. split.
    + intros [(i & line & H & R)|R].
      * exists i, line. apply lookup_lt_Some in H as Hi. split.
        -- now rewrite lookup_app_l.
        -- unfold is_rewritten in *. now rewrite tracked_snoc_old.
      * exists (length lines), x. split.
        -- now rewrite lookup_app_r, Nat.sub_diag by lia.
        -- unfold is_rewritten. now rewrite tracked_snoc_new.
    + intros (i & line & H & R).
      destruct (decide (i < length lines)) as [Hi|Hi].
      * left. exists i, line. rewrite lookup_app_l in H by exact Hi.
        split; [exact H|]. unfold is_rewritten in *.
        now rewrite tracked_snoc_old in R.
      * right. apply lookup_lt_Some in H as Hlt.
        rewrite length_app in Hlt. simpl in Hlt.
        assert (i = length lines) as -> by lia.
        rewrite lookup_app_r in H by lia. rewrite Nat.sub_diag in H.
        injection H as ->. unfold is_rewritten in R.
        now rewrite tracked_snoc_new in R.
Qed.

End Scanner.

(* ===================================================================== *)
(** * The patterns of update_cargo_toml                                    *)
(* ===================================================================== *)

Section VersionLine.
Import BumpVersion Manifest.

Lemma space_not_letter (a x : ascii) :
  Py.isspace a = false -> Py.isspace x = true -> Ascii.eqb a x = false.
Proof.
  intros Ha Hx. destruct (Ascii.eqb_spec a x) as [->|]; [congruence|reflexivity].
Qed.

(** What [m_star] accepts is a run of the class followed by a text the
    continuation accepts. *)
Lemma m_star_inv (ml : bool) (c : Re.cclass) (k : Re.cont) (r : Re.result)
    (caps : list string) (s : string) (bol : bool) :
  Re.m_star ml c bol s caps k = Some r ->
  exists d rest,
    s = d +:+ rest /\ Text.all_in (Re.cmatch c) d = true
    /\ k (Text.bol_end ml bol d) rest caps = Some r.
Proof.
  revert bol. induction s as [|x s IH]; intros bol; simpl.
  - intros H. now exists "", "".
  - destruct (Re.cmatch c x) eqn:E.
    + destruct (Re.m_star ml c _ s caps k) eqn:M.
      * intros [= <-]. destruct (IH _ M) as (d & rest & -> & Hd & Hk).
        exists (String x d), rest. simpl. now rewrite E, Hd.
      * intros H. now exists "", (String x s).
    + intros H. now exists "", (String x s).
Qed.

Lemma m_plus_inv (ml : bool) (c : Re.cclass) (k : Re.cont) (r : Re.result)
    (caps : list string) (s : string) (bol : bool) :
  Re.m_plus ml c bol s caps k = Some r ->
  exists d rest,
    s = d +:+ rest /\ Text.nonempty d = true
    /\ Text.all_in (Re.cmatch c) d = true
    /\ k (Text.bol_end ml bol d) rest caps = Some r.
Proof.
  destruct s as [|x s]; simpl; [discriminate|].
  destruct (Re.cmatch c x) eqn:E; [|discriminate].
  intros H. apply m_star_inv in H as (d & rest & -> & Hd & Hk).
  exists (String x d), rest. simpl. now rewrite E, Hd.
Qed.

Lemma assignment_app (ws1 ws2 v rest : string) :
  Text.version_assignment ws1 ws2 v +:+ rest
  = "version" +:+ ws1 +:+ "=" +:+ ws2 +:+ String dquote ""
    +:+ v +:+ String dquote "" +:+ rest.
Proof.
  unfold Text.version_assignment, Text.quoted.
  rewrite !append_assoc. simpl. now rewrite !append_assoc.
Qed.

(** A line made of white space and a version assignment matches the
    pattern of line 84, whatever follows the closing quote. *)
Lemma version_line_match (ws0 ws1 ws2 v rest : string) :
  Text.is_blank ws0 = true -> Text.is_blank ws1 = true ->
  Text.is_blank ws2 = true -> Text.is_value v = true ->
  is_version_line (ws0 +:+ Text.version_assignment ws1 ws2 v +:+ rest) = true.
Proof.
  unfold Text.is_blank, Text.is_value. intros H0 H1 H2 Hv.
  apply andb_prop in Hv as [Nv Av].
  unfold is_version_line. apply bool_decide_eq_true.
  unfold Re.re_match, Re.match_here, version_line_re.
  cbn [Re.m_nodes Re.m_node Re.m_atoms Re.m_atom].
  rewrite m_star_span_reject.
  2:{ intros b x s' Hx. cbn [Re.m_lit].
      now rewrite (space_not_letter "v" x eq_refl Hx). }
  rewrite assignment_app.
  rewrite (span_run (Re.cmatch Re.Space) ws0) by (auto; reflexivity).
  cbn [fst snd]. rewrite (m_lit_app _ "version").
  rewrite m_star_span_reject.
  2:{ intros b x s' Hx. cbn [Re.m_lit].
      now rewrite (space_not_letter "=" x eq_refl Hx). }
  rewrite (span_run (Re.cmatch Re.Space) ws1) by (auto; reflexivity).
  cbn [fst snd]. rewrite (m_lit_app _ "=").
  rewrite m_star_span_reject.
  2:{ intros b x s' Hx. cbn [Re.m_lit].
      now rewrite (space_not_letter dquote x eq_refl Hx). }
  rewrite (span_run (Re.cmatch Re.Space) ws2) by (auto; reflexivity).
  cbn [fst snd].
  rewrite (m_lit_app _ (String dquote "")).
  rewrite m_plus_span.
  2:{ intros. apply m_star_span_reject. intros b x s' Hx. cbn [Re.m_lit].
      simpl in Hx. rewrite Ascii.eqb_sym. now destruct (Ascii.eqb x dquote). }
  rewrite (span_run (Re.cmatch (Re.NotChar dquote)) v).
  2:{ exact Av. }
  2:{ reflexivity. }
  cbn [fst snd]. rewrite Nv.
  rewrite (m_lit_app _ (String dquote "")). eauto.
Qed.

(** Only such a line matches it. *)
Lemma version_line_inv (line : string) :
  is_version_line line = true ->
  exists ws0 ws1 ws2 v rest,
    line = ws0 +:+ Text.version_assignment ws1 ws2 v +:+ rest
    /\ Text.is_blank ws0 = true /\ Text.is_blank ws1 = true
    /\ Text.is_blank ws2 = true /\ Text.is_value v = true.
Proof.
  unfold is_version_line. intros H. apply bool_decide_eq_true in H as [r H].
  unfold Re.re_match, Re.match_here, version_line_re in H.
  cbn [Re.m_nodes Re.m_node Re.m_atoms Re.m_atom] in H.
  apply m_star_inv in H as (ws0 & s0 & -> & B0 & H).
  apply m_lit_inv in H as (s1 & -> & H).
  apply m_star_inv in H as (ws1 & s2 & -> & B1 & H).
  apply m_lit_inv in H as (s3 & -> & H).
  apply m_star_inv in H as (ws2 & s4 & -> & B2 & H).
  apply m_lit_inv in H as (s5 & -> & H).
  apply m_plus_inv in H as (v & s6 & -> & Nv & Av & H).
  apply m_lit_inv in H as (rest & -> & _).
  exists ws0, ws1, ws2, v, rest.
  rewrite assignment_app. unfold Text.is_blank, Text.is_value.
  rewrite Nv. auto.
Qed.

(** The pattern of line 85 at the head of a version assignment: the first
    group is the text up to the opening quote, the second the closing
    quote, and the match ends after it. *)
Lemma match_value_assignment (b : bool) (ws1 ws2 v rest : string) :
  Text.is_blank ws1 = true -> Text.is_blank ws2 = true ->
  Text.is_value v = true ->
  Re.match_here false version_value_re b
    (Text.version_assignment ws1 ws2 v +:+ rest)
  = Some (["version" +:+ ws1 +:+ "=" +:+ ws2 +:+ String dquote "";
           String dquote ""], rest).
Proof.
  unfold Text.is_blank, Text.is_value. intros H1 H2 Hv.
  apply andb_prop in Hv as [Nv Av].
  unfold Re.match_here, version_value_re.
  cbn [Re.m_nodes Re.m_node Re.m_atoms Re.m_atom].
  rewrite assignment_app.
  rewrite (m_lit_app _ "version").
  rewrite m_star_span_reject.
  2:{ intros b' x s' Hx. cbn [Re.m_atoms Re.m_atom Re.m_lit].
      now rewrite (space_not_letter "=" x eq_refl Hx). }
  rewrite (span_run (Re.cmatch Re.Space) ws1) by (auto; reflexivity).
  cbn [fst snd Re.m_atoms Re.m_atom]. rewrite (m_lit_app _ "=").
  rewrite m_star_span_reject.
  2:{ intros b' x s' Hx. cbn [Re.m_atoms Re.m_atom Re.m_lit].
      now rewrite (space_not_letter dquote x eq_refl Hx). }
  rewrite (span_run (Re.cmatch Re.Space) ws2) by (auto; reflexivity).
  cbn [fst snd Re.m_atoms Re.m_atom].
  rewrite (m_lit_app _ (String dquote "")).
  cbn [Re.m_nodes Re.m_node Re.m_atoms Re.m_atom].
  rewrite m_plus_span.
  2:{ intros. apply m_star_span_reject. intros b' x s' Hx.
      cbn [Re.m_atoms Re.m_atom Re.m_lit].
      simpl in Hx. rewrite Ascii.eqb_sym. now destruct (Ascii.eqb x dquote). }
  rewrite (span_run (Re.cmatch (Re.NotChar dquote)) v).
  2:{ exact Av. }
  2:{ reflexivity. }
  cbn [fst snd]. rewrite Nv.
  rewrite (m_lit_app _ (String dquote "")).
  cbn [Re.m_nodes]. f_equal. f_equal.
  replace ("version" +:+ ws1 +:+ "=" +:+ ws2 +:+ String dquote ""
           +:+ v +:+ String dquote "" +:+ rest)
    with (("version" +:+ ws1 +:+ "=" +:+ ws2 +:+ String dquote "")
          +:+ v +:+ String dquote "" +:+ rest)
    by (now rewrite !append_assoc).
  rewrite consumed_app.
  now rewrite consumed_app.
Qed.

(** The pattern of line 85 needs a double quote. *)
Lemma match_value_quote (b : bool) (s : string) (r : Re.result) :
  Re.match_here false version_value_re b s = Some r ->
  Text.all_in Text.not_quote s = false.
Proof.
  unfold Re.match_here, version_value_re.
  cbn [Re.m_nodes Re.m_node Re.m_atoms Re.m_atom]. intros H.
  apply m_lit_inv in H as (s1 & -> & H).
  apply m_star_inv in H as (ws1 & s2 & -> & _ & H).
  apply m_lit_inv in H as (s3 & -> & H).
  apply m_star_inv in H as (ws2 & s4 & -> & _ & H).
  apply m_lit_inv in H as (s5 & -> & _).
  rewrite !all_in_app. simpl.
  now rewrite !andb_false_r.
Qed.

Section Sub.
Variable repl : list string -> string.

(** Text without a double quote is left as it is. *)
Lemma sub_no_quote (s : string) (b : bool) :
  Text.all_in Text.not_quote s = true ->
  Re.sub_from version_value_re repl 0 b s = s.
Proof.
  revert b. induction s as [|c s IH]; intros b H; [reflexivity|].
  cbn [Re.sub_from].
  destruct (Re.match_here false version_value_re b (String c s))
    as [[caps rest]|] eqn:M.
  - apply match_value_quote in M. congruence.
  - simpl in H. apply andb_prop in H as [_ H]. now rewrite IH.
Qed.

(** Leading white space is copied. *)
Lemma sub_blank (ws s : string) (b : bool) :
  Text.is_blank ws = true ->
  Re.sub_from version_value_re repl 0 b (ws +:+ s)
  = ws +:+ Re.sub_from version_value_re repl 0
             (if Text.nonempty ws then false else b) s.
Proof.
  unfold Text.is_blank. revert b.
  induction ws as [|c ws IH]; intros b H; [reflexivity|].
  simpl in H. apply andb_prop in H as [Hc H].
  change (String c ws +:+ s) with (String c (ws +:+ s)).
  cbn [Re.sub_from].
  replace (Re.match_here false version_value_re b (String c (ws +:+ s)))
    with (@None Re.result).
  - rewrite (IH false H). simpl. now destruct (Text.nonempty ws).
  - unfold Re.match_here, version_value_re.
    cbn [Re.m_nodes Re.m_node Re.m_atoms Re.m_atom Re.m_lit].
    now rewrite (space_not_letter "v" c eq_refl Hc).
Qed.

(** The characters of a match are passed over. *)
Lemma sub_skip (d rest : string) :
  Re.sub_from version_value_re repl (String.length d) false (d +:+ rest)
  = Re.sub_from version_value_re repl 0 false rest.
Proof. induction d as [|c d IH]; [reflexivity | exact IH]. Qed.

(** A version assignment is replaced by what [repl] makes of its groups,
    and the substitution goes on after its closing quote. *)
Lemma sub_assignment (b : bool) (ws1 ws2 v rest : string) :
  Text.is_blank ws1 = true -> Text.is_blank ws2 = true ->
  Text.is_value v = true ->
  Re.sub_from version_value_re repl 0 b
    (Text.version_assignment ws1 ws2 v +:+ rest)
  = repl ["version" +:+ ws1 +:+ "=" +:+ ws2 +:+ String dquote "";
          String dquote ""]
    +:+ Re.sub_from version_value_re repl 0 false rest.
Proof.
  intros H1 H2 Hv.
  pose proof (match_value_assignment b ws1 ws2 v rest H1 H2 Hv) as M.
  remember (Text.version_assignment ws1 ws2 v) as a eqn:Ea.
  destruct a as [|c a]; [discriminate Ea|].
  change (String c a +:+ rest) with (String c (a +:+ rest)) in *.
  cbn [Re.sub_from]. rewrite M.
  replace (String.length (String c (a +:+ rest)) - String.length rest)
    with (S (String.length a)).
  - now rewrite sub_skip.
  - simpl. rewrite length_append. lia.
Qed.

End Sub.

(** Line 85 on a line made of white space and a version assignment: the
    quoted value becomes [new_version], and the text after the closing
    quote is treated in the same way. *)
Lemma rewritten_assignment (new_version ws0 ws1 ws2 v rest : string) :
  Text.is_blank ws0 = true -> Text.is_blank ws1 = true ->
  Text.is_blank ws2 = true -> Text.is_value v = true ->
  rewritten new_version (ws0 +:+ Text.version_assignment ws1 ws2 v +:+ rest)
  = ws0 +:+ Text.version_assignment ws1 ws2 new_version
    +:+ Re.sub_from version_value_re (version_template new_version) 0 false
          rest.
Proof.
  intros H0 H1 H2 Hv. unfold rewritten, Re.re_sub.
  rewrite (sub_blank _ ws0 _ _ H0), (sub_assignment _ _ ws1 ws2 v rest H1 H2 Hv).
  f_equal. unfold version_template. cbn [nth].
  rewrite assignment_app. now rewrite !append_assoc.
Qed.

End VersionLine.

(* ===================================================================== *)
(** * The tracked section                                                  *)
(* ===================================================================== *)

Section Tracked.
Import BumpVersion Manifest.

(** The flag is up exactly when the last bracketed header seen is the one
    of the tracked section. *)
Lemma section_flag_last_header (lines : list string) :
  section_flag lines = true
  <-> exists j header,
        lines !! j = Some header /\ is_package_header header = true
        /\ forall k line, j < k -> lines !! k = Some line ->
                          is_other_header line = false.
Proof.
  induction lines as [|x lines IH] using rev_ind.
  - split; [discriminate|]. now intros (j & h & H & _).
  - rewrite section_flag_snoc. unfold flag_after.
    destruct (is_package_header x) eqn:Hx.
    + split; [intros _|reflexivity].
      exists (length lines), x. split; [|split; [exact Hx|]].
      * now rewrite lookup_app_r, Nat.sub_diag by lia.
      * intros k line Hk H. apply lookup_lt_Some in H.
        rewrite length_app in H. simpl in H. lia.
    + rewrite andb_true_iff, negb_true_iff, IH. split.
      * intros [(j & h & Hj & Hh & Hlater) Ho].
        exists j, h. apply lookup_lt_Some in Hj as Hlt.
        split; [now rewrite lookup_app_l|]. split; [exact Hh|].
        intros k line Hk H.
        destruct (decide (k < length lines)) as [Hkl|Hkl].
        -- rewrite lookup_app_l in H by exact Hkl. eauto.
        -- apply lookup_lt_Some in H as Hlt'.
           rewrite length_app in Hlt'. simpl in Hlt'.
           assert (k = length lines) as -> by lia.
           rewrite lookup_app_r, Nat.sub_diag in H by lia.
           now injection H as <-.
      * intros (j & h & Hj & Hh & Hlater).
        assert (Hjl : j < length lines).
        { apply lookup_lt_Some in Hj as Hlt.
          rewrite length_app in Hlt. simpl in Hlt.
          destruct (decide (j = length lines)) as [->|]; [|lia].
          rewrite lookup_app_r, Nat.sub_diag in Hj by lia.
          injection Hj as <-. congruence. }
        split.
        -- exists j, h. rewrite lookup_app_l in Hj by exact Hjl.
           split; [exact Hj|]. split; [exact Hh|].
           intros k line Hk H. apply (Hlater k line Hk).
           apply lookup_lt_Some in H as Hlt. now rewrite lookup_app_l.
        -- apply (Hlater (length lines) x Hjl).
           now rewrite lookup_app_r, Nat.sub_diag by lia.
Qed.

End Tracked.

(** C4, as amended. The scanner has no memory of a closed section: after
    any lines, the flag is up exactly when the last bracketed header seen
    is [[package]]. A line that is [[package]] once stripped therefore
    puts the scanner in the tracked state again, whatever came before,
    also another header that had closed the section. *)
Theorem package_header_reenters (new_version : string)
    (lines : list string) :
  (BumpVersion.in_package_section (BumpVersion.scan_lines new_version lines)
   = true
   <-> exists j header,
         lines !! j = Some header
         /\ Manifest.is_package_header header = true
         /\ forall k line, j < k -> lines !! k = Some line ->
                           Manifest.is_other_header line = false)
  /\ (forall header,
        Manifest.is_package_header header = true ->
        BumpVersion.in_package_section
          (BumpVersion.scan_lines new_version (lines ++ [header])) = true).
Proof.
  split.
  - rewrite scan_lines_flag. apply section_flag_last_header.
  - intros header H.
    rewrite scan_lines_flag, section_flag_snoc. unfold Manifest.flag_after.
    now rewrite H.
Qed.

(** After [[package]] and [[dependencies]], a second [[package]] puts the
    flag up again. *)
Lemma package_header_reenters_witness :
  BumpVersion.in_package_section
    (BumpVersion.scan_lines "2.0.0" ["[package]"; "[dependencies]"]) = false
  /\ BumpVersion.in_package_section
       (BumpVersion.scan_lines "2.0.0"
          (["[package]"; "[dependencies]"] ++ [" [package] "])) = true.
Proof.
  split; [reflexivity|].
  exact (proj2 (package_header_reenters "2.0.0"
                  ["[package]"; "[dependencies]"]) " [package] " eq_refl).
Defined.

(** C4, as worded, fails: on the lines [[package]], [[dependencies]],
    [[package]], [version = Q1.2.3Q] the flag is up after the first line,
    down after the second and up again after the third. *)
Lemma never_reenters_counterexample :
  ~ Worded.never_reenters "2.0.0" Sample.lines_two_packages.
Proof.
  intros H. specialize (H 1 2 3).
  discriminate H; solve [reflexivity | simpl; lia].
Qed.

(* ===================================================================== *)
(** * What the writer of Cargo.toml changes                                *)
(* ===================================================================== *)

Section Frame.
Import BumpVersion Manifest.

(** Line [i] lies in a tracked section when the last bracketed header at
    or before it is the one of the tracked section. *)
Lemma tracked_last_header (lines : list string) (i : nat) :
  tracked lines i = true
  <-> exists j header,
        j <= i /\ lines !! j = Some header
        /\ is_package_header header = true
        /\ forall k line, j < k -> k <= i -> lines !! k = Some line ->
                          is_other_header line = false.
Proof.
  unfold tracked. rewrite section_flag_last_header. split.
  - intros (j & h & Hj & Hh & Hlater).
    apply lookup_take_Some in Hj as [Hj Hji].
    exists j, h. repeat split; [lia | exact Hj | exact Hh |].
    intros k line Hk Hki H. apply (Hlater k line Hk).
    apply lookup_take_Some. split; [exact H | lia].
  - intros (j & h & Hji & Hj & Hh & Hlater).
    exists j, h. repeat split; [|exact Hh|].
    + apply lookup_take_Some. split; [exact Hj | lia].
    + intros k line Hk H. apply lookup_take_Some in H as [H Hki].
      apply (Hlater k line Hk); [lia | exact H].
Qed.

Lemma rstrip_head (c : ascii) (s : string) :
  Py.isspace c = false -> exists t, Py.rstrip (String c s) = String c t.
Proof.
  intros H. simpl. destruct (Py.rstrip s); [|eauto].
  rewrite H. eauto.
Qed.

(** A line that begins, after white space, with the word [version] is no
    bracketed header. *)
Lemma version_line_not_header (ws0 rest : string) :
  Text.is_blank ws0 = true ->
  is_package_header (ws0 +:+ "version" +:+ rest) = false
  /\ is_other_header (ws0 +:+ "version" +:+ rest) = false.
Proof.
  intros H0. unfold is_other_header, is_package_header, Py.strip.
  rewrite (lstrip_blank ws0 _ H0).
  change (Py.lstrip ("version" +:+ rest)) with (String "v" ("ersion" +:+ rest)).
  destruct (rstrip_head "v" ("ersion" +:+ rest) eq_refl) as [t ->].
  split; reflexivity.
Qed.

End Frame.

(** C3, as amended. The writer rewrites every line that lies in a tracked
    section and is a version line (white space, the word [version], an
    equals sign with white space around it, a quoted value that is not
    empty, then anything), not the first such line only; a rewritten line
    gets the new version as its quoted value, and the text after the
    closing quote is treated in the same way, so that it is kept when it
    has no double quote. Every other line is copied as it is, and no line
    is added or dropped. ([new_version] is taken without backslash, as
    [bump_version] makes it.) *)
Theorem update_cargo_toml_frame (new_version content : string) :
  BumpVersion.template_literal new_version = true ->
  let lines := Py.split "010" content in
  let out :=
    BumpVersion.updated_lines (BumpVersion.scan_lines new_version lines) in
  length out = length lines
  /\ (forall i line,
        lines !! i = Some line ->
        out !! i
        = Some (if Manifest.is_rewritten lines i line
                then Manifest.rewritten new_version line else line))
  /\ (forall i line,
        lines !! i = Some line ->
        (Manifest.is_rewritten lines i line = true
         <-> Manifest.tracked lines i = true
             /\ exists ws0 ws1 ws2 v rest,
                  line = ws0 +:+ Text.version_assignment ws1 ws2 v +:+ rest
                  /\ Text.is_blank ws0 = true /\ Text.is_blank ws1 = true
                  /\ Text.is_blank ws2 = true /\ Text.is_value v = true))
  /\ (forall i,
        Manifest.tracked lines i = true
        <-> exists j header,
              j <= i /\ lines !! j = Some header
              /\ Manifest.is_package_header header = true
              /\ forall k line, j < k -> k <= i -> lines !! k = Some line ->
                                Manifest.is_other_header line = false)
  /\ (forall ws0 ws1 ws2 v rest,
        Text.is_blank ws0 = true -> Text.is_blank ws1 = true ->
        Text.is_blank ws2 = true -> Text.is_value v = true ->
        Manifest.rewritten new_version
          (ws0 +:+ Text.version_assignment ws1 ws2 v +:+ rest)
        = ws0 +:+ Text.version_assignment ws1 ws2 new_version
          +:+ Re.sub_from BumpVersion.version_value_re
                (BumpVersion.version_template new_version) 0 false rest
        /\ (Text.all_in Text.not_quote rest = true ->
            Manifest.rewritten new_version
              (ws0 +:+ Text.version_assignment ws1 ws2 v +:+ rest)
            = ws0 +:+ Text.version_assignment ws1 ws2 new_version +:+ rest)).
Proof.
  intros _ lines out. split; [apply scan_lines_length|].
  split; [intros i line H; now apply scan_lines_lookup|].
  split; [|split].
  - intros i line H. unfold Manifest.is_rewritten.
    rewrite !andb_true_iff, negb_true_iff. split.
    + intros [[_ Ht] Hv]. split; [exact Ht|]. now apply version_line_inv.
    + intros [Ht (ws0 & ws1 & ws2 & v & rest & -> & B0 & B1 & B2 & Hv)].
      split; [split; [|exact Ht]|].
      * unfold Text.version_assignment. rewrite !append_assoc.
        now apply version_line_not_header.
      * now apply version_line_match.
  - intros i. apply tracked_last_header.
  - intros ws0 ws1 ws2 v rest B0 B1 B2 Hv.
    pose proof (rewritten_assignment new_version ws0 ws1 ws2 v rest
                  B0 B1 B2 Hv) as E.
    split; [exact E|]. intros Hr. rewrite E. now rewrite sub_no_quote.
Qed.

(** In the sample manifest the version line of the tracked section is
    rewritten and the version of a dependency, in another section, is
    not. *)
Lemma update_cargo_toml_frame_witness :
  let out :=
    BumpVersion.updated_lines
      (BumpVersion.scan_lines "1.2.4" (Py.split "010" Sample.cargo_toml)) in
  length out = 7
  /\ out !! 2 = Some ("version = " +:+ Text.quoted "1.2.4")
  /\ out !! 3 = Some ""
  /\ out !! 5 = Some ("serde = { version = " +:+ Text.quoted "1.0" +:+ " }").
Proof.
  destruct (update_cargo_toml_frame "1.2.4" Sample.cargo_toml eq_refl)
    as (L & H & _).
  exact (conj L (conj (H 2 _ eq_refl) (conj (H 3 _ eq_refl) (H 5 _ eq_refl)))).
Defined.

(** C3, as worded, fails: in a manifest whose description is a multi-line
    string with a line that begins with a version assignment, that line
    is rewritten as well as the version line before it. *)
Lemma only_first_rewritten_counterexample :
  ~ Worded.only_first_rewritten "1.2.4" Sample.cargo_toml_description.
Proof.
  intros H.
  specialize (H 4 ("version = " +:+ Text.quoted "1.2.3"
                   +:+ " is the first release") eq_refl).
  discriminate H. vm_compute. discriminate.
Qed.

(* ===================================================================== *)
(** * The steps of main                                                    *)
(* ===================================================================== *)

Section Main.
Import BumpVersion Sys.
Variable json_loads : string -> option Json.value.

Lemma bind_ok {A B} (c : M A) (f : A -> M B) (w w' : world) (x : A) :
  c w = (inr x, w') -> Sys.bind c f w = f x w'.
Proof. unfold Sys.bind. now intros ->. Qed.

Lemma bind_raise {A B} (c : M A) (f : A -> M B) (w w' : world) (e : exn) :
  c w = (inl e, w') -> Sys.bind c f w = (inl e, w').
Proof. unfold Sys.bind. now intros ->. Qed.

Lemma get_current_version_run (path content : string) (w : world) :
  files w !! path = Some content ->
  get_current_version path w
  = (find_current_version path content, log (EvRead path) w).
Proof.
  intros H. unfold get_current_version, Sys.bind, read_text, lift.
  now rewrite H.
Qed.

(** [main] up to the guard of line 133. *)
Lemma main_reaches_guard (argv : list string) (w : world)
    (content current candidate : string) :
  files w !! root_cargo = Some content ->
  Run.reaches_guard argv content current candidate ->
  main json_loads argv w
  = if String.eqb candidate current then
      (inl (SystemExit 0),
       World (files w) (stdout w ++ ["No version change: " +:+ current])
             (stderr w) (trace w ++ [EvRead root_cargo]))
    else
      Sys.bind (update_all json_loads candidate)
        (Run.report argv current candidate) (log (EvRead root_cargo) w).
Proof.
  intros Hfs (Hlen & Ht & Hcur & Hbump).
  destruct argv as [|prog [|msg more]]; simpl in Hlen; try lia.
  unfold Run.report, Run.bump_type, Run.version_to_bump, Run.base_version
    in *.
  unfold main.
  destruct more as [|base more]; cbn [length Nat.ltb Nat.leb nth] in *;
    rewrite Ht; cbn [negb];
    (erewrite bind_ok;
       [|rewrite (get_current_version_run _ _ _ Hfs), Hcur; reflexivity]);
    (erewrite bind_ok; [|unfold lift; rewrite Hbump; reflexivity]);
    destruct (String.eqb candidate current); reflexivity.
Qed.

(** [update_cargo_toml] on a file that is there. *)
Lemma update_cargo_toml_run (path new_version content : string) (w : world) :
  files w !! path = Some content ->
  update_cargo_toml path new_version w
  = let st := scan_lines new_version (Py.split "010" content) in
    if version_updated st then
      (inr true,
       World (<[path := Py.join (String "010" "") (updated_lines st)]> (files w))
             (stdout w) (stderr w)
             (trace w ++ [EvRead path;
                          EvWrite path
                            (Py.join (String "010" "") (updated_lines st))]))
    else (inr false, log (EvRead path) w).
Proof.
  intros H. unfold update_cargo_toml.
  erewrite bind_ok; [|unfold read_text; rewrite H; reflexivity].
  cbv zeta. destruct (version_updated _); [|reflexivity].
  unfold Sys.bind, write_text, ret, log. cbn [files stdout stderr trace].
  now rewrite <- app_assoc.
Qed.

Lemma path_exists_absent (path : string) (w : world) :
  files w !! path = None ->
  path_exists path w = (inr false, log (EvExists path) w).
Proof.
  intros H. unfold path_exists. rewrite H.
  now rewrite bool_decide_eq_false_2 by (intros [? ?]; discriminate).
Qed.

(** The three updates when only the root manifest is there. *)
Lemma update_all_root_only (new_version content : string) (w : world) :
  files w !! root_cargo = Some content ->
  files w !! tauri_cargo = None ->
  files w !! tauri_conf = None ->
  update_all json_loads new_version w
  = let st := scan_lines new_version (Py.split "010" content) in
    let text := Py.join (String "010" "") (updated_lines st) in
    if version_updated st then
      (inr ["Cargo.toml"],
       World (<[root_cargo := text]> (files w)) (stdout w) (stderr w)
             (trace w ++ [EvRead root_cargo; EvWrite root_cargo text;
                          EvExists tauri_cargo; EvExists tauri_conf]))
    else
      (inr [],
       World (files w) (stdout w) (stderr w)
             (trace w ++ [EvRead root_cargo; EvExists tauri_cargo;
                          EvExists tauri_conf])).
Proof.
  intros Hr Hc Hj. unfold update_all. cbv zeta.
  pose proof (update_cargo_toml_run root_cargo new_version content w Hr) as E.
  cbv zeta in E.
  destruct (version_updated _).
  - erewrite bind_ok; [|exact E].
    erewrite bind_ok.
    2:{ apply path_exists_absent. cbn [files].
        rewrite lookup_insert_ne; [exact Hc | cbv; discriminate]. }
    erewrite bind_ok; [|reflexivity].
    erewrite bind_ok.
    2:{ apply path_exists_absent. unfold log. cbn [files].
        rewrite lookup_insert_ne; [exact Hj | cbv; discriminate]. }
    erewrite bind_ok; [|reflexivity].
    unfold ret, log. cbn [files stdout stderr trace].
    now rewrite <- !app_assoc.
  - erewrite bind_ok; [|exact E].
    erewrite bind_ok; [|apply path_exists_absent; exact Hc].
    erewrite bind_ok; [|reflexivity].
    erewrite bind_ok; [|apply path_exists_absent; exact Hj].
    erewrite bind_ok; [|reflexivity].
    unfold ret, log. cbn [files stdout stderr trace].
    now rewrite <- !app_assoc.
Qed.

Lemma path_exists_present (path content : string) (w : world) :
  files w !! path = Some content ->
  path_exists path w = (inr true, log (EvExists path) w).
Proof.
  intros H. unfold path_exists. rewrite H.
  now rewrite bool_decide_eq_true_2 by eauto.
Qed.

Lemma update_tauri_conf_run (path new_version content : string)
    (data : Json.dict) (w : world) :
  files w !! path = Some content ->
  json_loads content = Some (Json.Obj data) ->
  update_tauri_conf json_loads path new_version w
  = if differs (Json.dict_get data "version") new_version
    then (inr true,
          World (<[path := Json.dumps 2 (Json.Obj
                             (Json.dict_set data "version"
                                (Json.Str new_version)))
                           +:+ String "010" ""]> (files w))
            (stdout w) (stderr w)
            (trace w ++ [EvRead path;
                         EvWrite path
                           (Json.dumps 2 (Json.Obj
                              (Json.dict_set data "version"
                                 (Json.Str new_version)))
                            +:+ String "010" "")]))
    else (inr false, log (EvRead path) w).
Proof.
  intros Hfs Hload. unfold update_tauri_conf.
  rewrite (bind_ok (read_text path) _ w (log (EvRead path) w) content)
    by (unfold read_text; now rewrite Hfs).
  rewrite Hload.
  destruct (differs _ new_version); [|reflexivity].
  unfold Sys.bind, write_text, ret, log.
  cbn [files stdout stderr trace].
  now rewrite <- app_assoc.
Qed.

(** The three updates when none of them changes a file. *)
Lemma update_all_unchanged (new_version content : string) (w : world) :
  files w !! root_cargo = Some content ->
  version_updated (scan_lines new_version (Py.split "010" content)) = false ->
  Follower.manifest_unchanged (files w) ->
  Follower.document_unchanged json_loads (files w) new_version ->
  update_all json_loads new_version w
  = (inr [],
     World (files w) (stdout w) (stderr w)
       (trace w ++ [EvRead root_cargo]
        ++ Follower.probes (files w) tauri_cargo
        ++ Follower.probes (files w) tauri_conf)).
Proof.
  intros Hr U1 Hm Hd. unfold update_all. cbv zeta.
  pose proof (update_cargo_toml_run root_cargo new_version content w Hr) as E.
  cbv zeta in E. rewrite U1 in E.
  erewrite bind_ok; [|exact E].
  unfold Follower.manifest_unchanged, Follower.document_unchanged,
    Follower.probes in *.
  set (w1 := log (EvRead root_cargo) w).
  assert (F1 : files w1 = files w) by reflexivity.
  assert (S2 : exists w2,
             (forall k : bool -> M (list string),
                 Sys.bind (path_exists tauri_cargo)
                   (fun e2 =>
                      Sys.bind (if e2 : bool
                                then update_cargo_toml tauri_cargo new_version
                                else ret false) k) w1
                 = k false w2)
             /\ files w2 = files w /\ stdout w2 = stdout w
             /\ stderr w2 = stderr w
             /\ trace w2
                = trace w1
                  ++ EvExists tauri_cargo
                     :: match files w !! tauri_cargo with
                        | Some _ => [EvRead tauri_cargo]
                        | None => []
                        end).
  { destruct (files w !! tauri_cargo) as [c2|] eqn:H2.
    - eexists. split.
      + intros k.
        erewrite bind_ok;
          [|apply (path_exists_present tauri_cargo c2); now rewrite F1].
        cbv beta iota.
        apply bind_ok.
        rewrite (update_cargo_toml_run tauri_cargo new_version c2
                   (log (EvExists tauri_cargo) w1)) by exact H2.
        cbv zeta.
        assert (U2 : version_updated
                       (scan_lines new_version (Py.split "010" c2)) = false).
        { destruct (version_updated
                      (scan_lines new_version (Py.split "010" c2))) eqn:U2;
            [|reflexivity].
          apply scan_lines_updated in U2. now destruct Hm. }
        rewrite U2. reflexivity.
      + unfold log. cbn [files stdout stderr trace].
        now rewrite <- app_assoc.
    - eexists. split.
      + intros k.
        erewrite bind_ok;
          [|apply path_exists_absent; now rewrite F1].
        cbv beta iota. apply bind_ok. reflexivity.
      + unfold ret, log. now cbn [files stdout stderr trace]. }
  destruct S2 as (w2 & E2 & F2 & O2 & R2 & T2).
  rewrite E2. cbv beta iota.
  destruct (files w !! tauri_conf) as [c3|] eqn:H3.
  - destruct Hd as (data & L & V).
    erewrite bind_ok;
      [|apply (path_exists_present tauri_conf c3); now rewrite F2].
    cbv beta iota.
    erewrite bind_ok.
    2:{ rewrite (update_tauri_conf_run tauri_conf new_version c3 data
                   (log (EvExists tauri_conf) w2))
          by (try exact L; unfold log; cbn [files]; now rewrite F2).
        rewrite V. unfold differs. rewrite String.eqb_refl. reflexivity. }
    unfold ret, log. cbn [files stdout stderr trace negb].
    rewrite F2, O2, R2, T2. subst w1. unfold log. cbn [trace].
    now rewrite <- !app_assoc.
  - erewrite bind_ok; [|apply path_exists_absent; now rewrite F2].
    cbv beta iota.
    erewrite bind_ok; [|reflexivity].
    unfold ret, log. cbn [files stdout stderr trace].
    rewrite F2, O2, R2, T2. subst w1. unfold log. cbn [trace].
    now rewrite <- !app_assoc.
Qed.

End Main.

(** C6, as amended. Past the guard, the writer of the root manifest
    reports an update exactly when some line of the root manifest is a
    version line inside a tracked section; the current version, read
    from the first version line anywhere in the file, need not be such a
    line. When there is none and no follower is changed (each of the two
    is not there, or is there and its writer reports no update: the
    nested manifest has no version line in a tracked section, the
    document is a mapping at the candidate version already), the run ends
    on the notice that nothing changed and writes nothing, having read
    the followers that are there. With no follower there, a root manifest
    that has such a line makes the run report the bump and name
    [Cargo.toml]. *)
Theorem root_updated_iff_version_in_package
    (json_loads : string -> option Json.value) (argv : list string)
    (fs : gmap string string) (content current candidate : string) :
  fs !! BumpVersion.root_cargo = Some content ->
  Run.passes_guard argv content current candidate ->
  let lines := Py.split "010" content in
  let st := BumpVersion.scan_lines candidate lines in
  let text := Py.join (String "010" "") (BumpVersion.updated_lines st) in
  fst (BumpVersion.update_cargo_toml BumpVersion.root_cargo candidate
         (Run.start fs))
  = inr (BumpVersion.version_updated st)
  /\ (BumpVersion.version_updated st = true
      <-> exists i line,
            lines !! i = Some line
            /\ Manifest.is_rewritten lines i line = true)
  /\ (fs !! BumpVersion.tauri_cargo = None ->
      fs !! BumpVersion.tauri_conf = None ->
      BumpVersion.run json_loads argv fs
      = if BumpVersion.version_updated st then
          (inl (Sys.SystemExit 0),
           Sys.World (<[BumpVersion.root_cargo := text]> fs)
             ["Version bumped: " +:+ Run.version_to_bump argv current
              +:+ " -> " +:+ candidate +:+ " ("
              +:+ default "" (Run.bump_type argv) +:+ ")";
              "Updated: Cargo.toml"]
             []
             [Sys.EvRead BumpVersion.root_cargo;
              Sys.EvRead BumpVersion.root_cargo;
              Sys.EvWrite BumpVersion.root_cargo text;
              Sys.EvExists BumpVersion.tauri_cargo;
              Sys.EvExists BumpVersion.tauri_conf])
        else
          (inl (Sys.SystemExit 0),
           Sys.World fs ["No changes made for version: " +:+ current] []
             [Sys.EvRead BumpVersion.root_cargo;
              Sys.EvRead BumpVersion.root_cargo;
              Sys.EvExists BumpVersion.tauri_cargo;
              Sys.EvExists BumpVersion.tauri_conf]))
  /\ (~ (exists i line,
           lines !! i = Some line
           /\ Manifest.is_rewritten lines i line = true) ->
      Follower.manifest_unchanged fs ->
      Follower.document_unchanged json_loads fs candidate ->
      BumpVersion.run json_loads argv fs
      = (inl (Sys.SystemExit 0),
         Sys.World fs ["No changes made for version: " +:+ current] []
           ([Sys.EvRead BumpVersion.root_cargo;
             Sys.EvRead BumpVersion.root_cargo]
            ++ Follower.probes fs BumpVersion.tauri_cargo
            ++ Follower.probes fs BumpVersion.tauri_conf))).
Proof.
  intros Hfs [Hg Hne] lines st text. split; [|split; [|split]].
  - rewrite (update_cargo_toml_run _ candidate content (Run.start fs) Hfs).
    cbv zeta. fold lines st. now destruct (BumpVersion.version_updated st).
  - apply scan_lines_updated.
  - intros Hc Hj. unfold BumpVersion.run.
    rewrite (main_reaches_guard json_loads argv (Sys.World fs [] [] [])
               content current candidate Hfs Hg).
    apply String.eqb_neq in Hne. rewrite Hne.
    pose proof (update_all_root_only json_loads candidate content
                  (Sys.log (Sys.EvRead BumpVersion.root_cargo)
                     (Sys.World fs [] [] [])) Hfs Hc Hj) as E.
    cbv zeta in E. fold lines st text in E.
    destruct (BumpVersion.version_updated st);
      (erewrite bind_ok; [|exact E]); reflexivity.
  - intros Hno Hm Hd. unfold BumpVersion.run.
    rewrite (main_reaches_guard json_loads argv (Sys.World fs [] [] [])
               content current candidate Hfs Hg).
    apply String.eqb_neq in Hne. rewrite Hne.
    assert (U : BumpVersion.version_updated st = false).
    { destruct (BumpVersion.version_updated st) eqn:U; [|reflexivity].
      destruct Hno. exact (proj1 (scan_lines_updated candidate lines) U). }
    erewrite bind_ok.
    2:{ apply (update_all_unchanged json_loads candidate content);
          [exact Hfs | exact U | exact Hm | exact Hd]. }
    reflexivity.
Qed.

(** With the sample manifest alone, a fix bumps 1.2.3 to 1.2.4 in
    [Cargo.toml]; with the manifest of a workspace, whose version is not
    in a [[package]] section, the same run changes nothing, alone and
    beside a nested manifest that takes the version of the workspace and
    a document at 1.2.4, which are read and left as they are. *)
Lemma root_updated_iff_version_in_package_witness :
  Sys.stdout
    (snd (BumpVersion.run Sample.no_json
            ["bump_version.py"; "fix(core): patch bug"]
            {[ "Cargo.toml" := Sample.cargo_toml ]}))
  = ["Version bumped: 1.2.3 -> 1.2.4 (patch)"; "Updated: Cargo.toml"]
  /\ Sys.stdout
       (snd (BumpVersion.run Sample.no_json
               ["bump_version.py"; "fix(core): patch bug"]
               {[ "Cargo.toml" := Sample.cargo_toml_workspace ]}))
     = ["No changes made for version: 1.2.3"]
  /\ BumpVersion.run Sample.loads
       ["bump_version.py"; "fix(core): patch bug"] Follower.workspace_project
     = (inl (Sys.SystemExit 0),
        Sys.World Follower.workspace_project
          ["No changes made for version: 1.2.3"] []
          [Sys.EvRead "Cargo.toml"; Sys.EvRead "Cargo.toml";
           Sys.EvExists "src-tauri/Cargo.toml";
           Sys.EvRead "src-tauri/Cargo.toml";
           Sys.EvExists "src-tauri/tauri.conf.json";
           Sys.EvRead "src-tauri/tauri.conf.json"]).
Proof.
  assert (G : forall content,
             BumpVersion.find_current_version "Cargo.toml" content
             = inr "1.2.3" ->
             Run.passes_guard ["bump_version.py"; "fix(core): patch bug"]
               content "1.2.3" "1.2.4").
  { intros content H. repeat split; [simpl; lia | exact H | discriminate]. }
  split; [|split].
  - destruct (root_updated_iff_version_in_package Sample.no_json
                ["bump_version.py"; "fix(core): patch bug"]
                {[ "Cargo.toml" := Sample.cargo_toml ]}
                Sample.cargo_toml "1.2.3" "1.2.4")
      as (_ & _ & H & _); [reflexivity | apply G; reflexivity |].
    rewrite H; reflexivity.
  - destruct (root_updated_iff_version_in_package Sample.no_json
                ["bump_version.py"; "fix(core): patch bug"]
                {[ "Cargo.toml" := Sample.cargo_toml_workspace ]}
                Sample.cargo_toml_workspace "1.2.3" "1.2.4")
      as (_ & _ & H & _); [reflexivity | apply G; reflexivity |].
    rewrite H; reflexivity.
  - destruct (root_updated_iff_version_in_package Sample.loads
                ["bump_version.py"; "fix(core): patch bug"]
                Follower.workspace_project
                Sample.cargo_toml_workspace "1.2.3" "1.2.4")
      as (_ & _ & _ & H); [reflexivity | apply G; reflexivity |].
    rewrite H; [reflexivity | | |].
    + intros (i & line & L & R).
      do 6 (destruct i as [|i]; [injection L as <-; discriminate R|]).
      discriminate L.
    + unfold Follower.manifest_unchanged.
      replace (Follower.workspace_project !! BumpVersion.tauri_cargo)
        with (Some Follower.tauri_cargo_toml_inherits) by reflexivity.
      intros (i & line & L & R).
      do 4 (destruct i as [|i]; [injection L as <-; discriminate R|]).
      discriminate L.
    + unfold Follower.document_unchanged.
      replace (Follower.workspace_project !! BumpVersion.tauri_conf)
        with (Some (Sample.tauri_conf_text "1.2.4")) by reflexivity.
      eexists. split; reflexivity.
Defined.

(** C6, as worded, fails: the root manifest of a workspace has its version
    under [[workspace.package]]; a fix goes past the guard with candidate
    1.2.4 against 1.2.3, the writer of the root manifest reports no
    update, and the run ends on the notice that nothing changed. *)
Lemma root_always_updated_counterexample :
  ~ Worded.root_always_updated Sample.no_json
      ["bump_version.py"; "fix(core): patch bug"]
      {[ "Cargo.toml" := Sample.cargo_toml_workspace ]}.
Proof.
  intros H.
  destruct (H Sample.cargo_toml_workspace "1.2.3" "1.2.4") as [H1 _].
  - reflexivity.
  - repeat split; [simpl; lia | discriminate].
  - vm_compute in H1. discriminate H1.
Qed.

(** C7, as amended. With a base version given on the command line, a run
    that finds the root manifest at the version worked out from the base
    version, as a first run with the same arguments leaves it, reports
    that the version does not change, reads the root manifest once and
    writes nothing. (Without a base version the second run bumps the
    version the first run wrote.) *)
Theorem rerun_with_base_is_noop
    (json_loads : string -> option Json.value) (argv : list string)
    (fs : gmap string string) (content1 target : string) :
  BumpVersion.truthy (Run.base_version argv) = true ->
  BumpVersion.truthy (Run.bump_type argv) = true ->
  BumpVersion.bump_version (default "" (Run.base_version argv))
    (Run.bump_type argv) = inr target ->
  let w1 := snd (BumpVersion.run json_loads argv fs) in
  Sys.files w1 !! BumpVersion.root_cargo = Some content1 ->
  BumpVersion.find_current_version BumpVersion.root_cargo content1
  = inr target ->
  let r2 := BumpVersion.run json_loads argv (Sys.files w1) in
  r2 = (inl (Sys.SystemExit 0),
        Sys.World (Sys.files w1) ["No version change: " +:+ target] []
          [Sys.EvRead BumpVersion.root_cargo])
  /\ Sys.exit_status (fst r2) = 0%Z
  /\ Run.writes (snd r2) = []
  /\ Sys.files (snd r2) = Sys.files w1.
Proof.
  intros Hb Ht Hbump w1 Hfs Hcur r2.
  assert (E : r2 = (inl (Sys.SystemExit 0),
                    Sys.World (Sys.files w1)
                      ["No version change: " +:+ target] []
                      [Sys.EvRead BumpVersion.root_cargo])).
  { subst r2. unfold BumpVersion.run.
    rewrite (main_reaches_guard json_loads argv
               (Sys.World (Sys.files w1) [] [] []) content1 target target Hfs).
    - now rewrite String.eqb_refl.
    - repeat split; try assumption.
      + unfold Run.base_version in Hb.
        destruct (2 <? length argv) eqn:L; [|discriminate].
        apply Nat.ltb_lt in L. lia.
      + unfold Run.version_to_bump. now rewrite Hb. }
  rewrite E. repeat split.
Qed.

(** With base version 1.2.3, a fix bumps the sample manifest to 1.2.4,
    and a second run with the same arguments changes nothing. *)
Lemma rerun_with_base_is_noop_witness :
  let argv := ["bump_version.py"; "fix(core): patch bug"; "1.2.3"] in
  let w1 :=
    snd (BumpVersion.run Sample.no_json argv
           {[ "Cargo.toml" := Sample.cargo_toml ]}) in
  Sys.files w1 = {[ "Cargo.toml" := Sample.cargo_toml_at "1.2.4" ]}
  /\ BumpVersion.run Sample.no_json argv (Sys.files w1)
     = (inl (Sys.SystemExit 0),
        Sys.World (Sys.files w1) ["No version change: 1.2.4"] []
          [Sys.EvRead "Cargo.toml"]).
Proof.
  intros argv w1. split; [reflexivity|].
  refine (proj1 (rerun_with_base_is_noop Sample.no_json argv
                   {[ "Cargo.toml" := Sample.cargo_toml ]}
                   (Sample.cargo_toml_at "1.2.4") "1.2.4" _ _ _ _ _));
    reflexivity.
Defined.

(** C7, as worded, fails without a base version: a fix bumps the sample
    manifest from 1.2.3 to 1.2.4, and the second run, which finds 1.2.4,
    bumps it to 1.2.5 and writes the root manifest again. *)
Lemma rerun_is_noop_counterexample :
  ~ Worded.rerun_is_noop Sample.no_json
      ["bump_version.py"; "fix(core): patch bug"]
      {[ "Cargo.toml" := Sample.cargo_toml ]}.
Proof.
  intros H.
  destruct (H Sample.cargo_toml "1.2.3" "1.2.4" (Sample.cargo_toml_at "1.2.4"))
    as [H1 _].
  - reflexivity.
  - repeat split; [simpl; lia | discriminate].
  - reflexivity.
  - reflexivity.
  - vm_compute in H1. discriminate H1.
Qed.

(* ===================================================================== *)
(** * Reading the current version                                          *)
(* ===================================================================== *)

Section CurrentVersion.
Import BumpVersion.

(** A literal is matched by dropping it. *)
Lemma m_lit_drop (ml : bool) (p s : string) (bol : bool)
    (caps : list string) (k : Re.cont) :
  Re.m_lit ml p bol s caps k
  = match Text.drop_prefix p s with
    | Some s' => k (Text.bol_end ml bol p) s' caps
    | None => None
    end.
Proof.
  revert s bol. induction p as [|a p IH]; intros s bol; simpl; [reflexivity|].
  destruct s as [|b s]; [reflexivity|].
  destruct (Ascii.eqb_spec a b) as [->|]; [|reflexivity].
  apply IH.
Qed.

Lemma drop_prefix_head (a x : ascii) (s : string) :
  Ascii.eqb a x = false ->
  Text.drop_prefix (String a "") (String x s) = None.
Proof. simpl. now intros ->. Qed.

(** The pattern of [get_current_version] at the start of a line reads a
    version assignment. *)
Lemma match_current_version (s : string) :
  fst <$> Re.match_here true current_version_re true s
  = (fun v => [v]) <$> Text.version_at s.
Proof.
  unfold Re.match_here, current_version_re, Text.version_at.
  cbn [Re.m_nodes Re.m_node Re.m_atoms Re.m_atom].
  rewrite m_lit_drop.
  destruct (Text.drop_prefix "version" s) as [s1|]; [|reflexivity].
  rewrite m_star_span_reject.
  2:{ intros b x s' Hx. rewrite m_lit_drop.
      now rewrite (drop_prefix_head "=" x s' (space_not_letter "=" x eq_refl Hx)). }
  change (Re.cmatch Re.Space) with Py.isspace.
  rewrite m_lit_drop.
  destruct (Text.drop_prefix "=" _) as [s2|]; [|reflexivity].
  rewrite m_star_span_reject.
  2:{ intros b x s' Hx. rewrite m_lit_drop.
      now rewrite (drop_prefix_head dquote x s'
                     (space_not_letter dquote x eq_refl Hx)). }
  change (Re.cmatch Re.Space) with Py.isspace.
  rewrite m_lit_drop.
  change (String dquote "") with (String Json.dquote "").
  destruct (Text.drop_prefix (String Json.dquote "") _) as [s3|];
    [|reflexivity].
  cbn [Re.m_nodes Re.m_node Re.m_atoms Re.m_atom].
  rewrite m_plus_span.
  2:{ intros. apply m_star_span_reject. intros b x s' Hx.
      cbn [Re.m_nodes Re.m_node Re.m_atoms Re.m_atom]. rewrite m_lit_drop.
      rewrite drop_prefix_head; [reflexivity|].
      simpl in Hx. rewrite Ascii.eqb_sym. change Json.dquote with dquote.
      now destruct (Ascii.eqb x dquote). }
  change (Re.cmatch (Re.NotChar dquote)) with Text.not_quote.
  destruct (Text.nonempty _); [|reflexivity].
  cbn [Re.m_nodes Re.m_node Re.m_atoms Re.m_atom]. rewrite m_lit_drop.
  change (String dquote "") with (String Json.dquote "").
  destruct (Text.drop_prefix (String Json.dquote "") _) as [s4|];
    [|reflexivity].
  cbn [Re.m_nodes]. simpl. now rewrite consumed_span.
Qed.

Lemma match_current_version_not_bol (s : string) :
  Re.match_here true current_version_re false s = None.
Proof. reflexivity. Qed.

(** [re.search] with the pattern finds the first version assignment at
    the start of a line. *)
Lemma search_current_version (s : string) (bol : bool) :
  fst <$> Re.search_from true current_version_re bol s
  = (fun v => [v]) <$> Text.first_version bol s.
Proof.
  revert bol. induction s as [|c s IH]; intros bol.
  - destruct bol; reflexivity.
  - cbn [Re.search_from Text.first_version].
    destruct bol.
    + pose proof (match_current_version (String c s)) as M.
      destruct (Re.match_here true current_version_re true (String c s))
        as [r|], (Text.version_at (String c s)) as [v|];
        try discriminate M; [exact M|].
      apply IH.
    + rewrite match_current_version_not_bol. apply IH.
Qed.

(** [find_current_version] in the words of the statements. *)
Lemma find_current_version_first (path content : string) :
  find_current_version path content
  = match Text.first_version true content with
    | Some v => inr v
    | None => inl (Sys.ValueError ("Could not find version in " +:+ path))
    end.
Proof.
  unfold find_current_version, Re.re_search_multiline.
  pose proof (search_current_version content true) as S.
  destruct (Re.search_from true current_version_re true content)
    as [[groups rest]|], (Text.first_version true content) as [v|];
    try discriminate S; [|reflexivity].
  simpl in S. now injection S as ->.
Qed.

Lemma drop_prefix_app (p s : string) : Text.drop_prefix p (p +:+ s) = Some s.
Proof.
  induction p as [|a p IH]; simpl; [reflexivity|].
  now rewrite Ascii.eqb_refl.
Qed.

Lemma drop_prefix_inv (p s s' : string) :
  Text.drop_prefix p s = Some s' -> s = p +:+ s'.
Proof.
  revert s. induction p as [|a p IH]; intros s; simpl.
  - now intros [= ->].
  - destruct s as [|b s]; [discriminate|].
    destruct (Ascii.eqb_spec a b) as [->|]; [|discriminate].
    intros H. now rewrite (IH _ H).
Qed.

(** A version assignment is read whatever follows its closing quote. *)
Lemma version_at_assignment (ws1 ws2 v rest : string) :
  Text.is_blank ws1 = true -> Text.is_blank ws2 = true ->
  Text.is_value v = true ->
  Text.version_at (Text.version_assignment ws1 ws2 v +:+ rest) = Some v.
Proof.
  unfold Text.is_blank, Text.is_value. intros H1 H2 Hv.
  apply andb_prop in Hv as [Nv Av].
  rewrite assignment_app. unfold Text.version_at.
  rewrite drop_prefix_app.
  rewrite (span_run Py.isspace ws1) by (auto; reflexivity).
  cbn [fst snd]. rewrite drop_prefix_app.
  rewrite (span_run Py.isspace ws2) by (auto; reflexivity).
  cbn [fst snd].
  change (String dquote "") with (String Json.dquote "").
  rewrite drop_prefix_app.
  rewrite (span_run Text.not_quote v) by (auto; reflexivity).
  cbn [fst snd]. now rewrite Nv, drop_prefix_app.
Qed.

(** Only a version assignment is read. *)
Lemma version_at_inv (s v : string) :
  Text.version_at s = Some v ->
  exists ws1 ws2 rest,
    s = Text.version_assignment ws1 ws2 v +:+ rest
    /\ Text.is_blank ws1 = true /\ Text.is_blank ws2 = true
    /\ Text.is_value v = true.
Proof.
  unfold Text.version_at. intros H.
  destruct (Text.drop_prefix "version" s) as [s1|] eqn:D1; [|discriminate].
  destruct (Text.drop_prefix "=" _) as [s2|] eqn:D2; [|discriminate].
  destruct (Text.drop_prefix (String Json.dquote "") _) as [s3|] eqn:D3;
    [|discriminate].
  destruct (Text.nonempty _) eqn:Nv; [|discriminate].
  destruct (Text.drop_prefix (String Json.dquote "")
              (snd (Text.span Text.not_quote s3))) as [rest|] eqn:D4;
    [|discriminate].
  injection H as <-.
  apply drop_prefix_inv in D1, D2, D3, D4.
  exists (fst (Text.span Py.isspace s1)), (fst (Text.span Py.isspace s2)), rest.
  unfold Text.is_blank, Text.is_value.
  rewrite Nv, !span_all. repeat split.
  rewrite assignment_app, D1.
  rewrite <- (span_app Py.isspace s1) at 1. rewrite D2.
  rewrite <- (span_app Py.isspace s2) at 1. rewrite D3.
  rewrite <- (span_app Text.not_quote s3) at 1. rewrite D4.
  reflexivity.
Qed.

(** The first version assignment at the start of a line, by positions. *)
Lemma first_version_Some (s : string) (bol : bool) (v : string) :
  Text.first_version bol s = Some v
  <-> exists pre suf,
        s = pre +:+ suf /\ Text.starts_line bol pre = true
        /\ Text.version_at suf = Some v
        /\ forall pre' suf',
             s = pre' +:+ suf' ->
             String.length pre' < String.length pre ->
             Text.starts_line bol pre' = true ->
             Text.version_at suf' = None.
Proof.
  unfold Text.starts_line.
  revert bol. induction s as [|c s IH]; intros bol.
  - split.
    + destruct bol; discriminate.
    + intros (pre & suf & E & _ & V & _).
      destruct pre; [|discriminate E]. simpl in E. subst suf. discriminate V.
  - cbn [Text.first_version].
    destruct (if bol then Text.version_at (String c s) else None) as [v0|]
      eqn:Head.
    + split.
      * intros [= ->]. exists "", (String c s).
        destruct bol; [|discriminate Head].
        repeat split; [exact Head|]. intros pre' suf' _ L. simpl in L. lia.
      * intros (pre & suf & E & B & V & Min).
        destruct pre as [|c' pre].
        -- simpl in E, B. subst suf bol. congruence.
        -- specialize (Min "" (String c s) eq_refl).
           destruct bol; [|discriminate Head].
           rewrite Min in Head; [discriminate|simpl; lia|reflexivity].
    + rewrite IH. split.
      * intros (pre & suf & -> & B & V & Min).
        exists (String c pre), suf. repeat split; [exact B | exact V |].
        intros pre' suf' E L B'. destruct pre' as [|c' pre'].
        -- simpl in E, B'. subst suf' bol. exact Head.
        -- injection E as <- E. apply (Min pre' suf' E); [simpl in L; lia|].
           exact B'.
      * intros (pre & suf & E & B & V & Min).
        destruct pre as [|c' pre].
        -- simpl in E, B. subst suf bol. congruence.
        -- injection E as <- E. exists pre, suf.
           repeat split; [exact E | exact B | exact V |].
           intros pre' suf' E' L B'.
           apply (Min (String c pre') suf'); [now rewrite E' | simpl; lia|].
           exact B'.
Qed.

(** No version is found exactly when no line starts with a version
    assignment. *)
Lemma first_version_None (s : string) (bol : bool) :
  Text.first_version bol s = None
  <-> forall pre suf,
        s = pre +:+ suf -> Text.starts_line bol pre = true ->
        Text.version_at suf = None.
Proof.
  unfold Text.starts_line. split.
  - intros H pre suf E B.
    destruct (Text.version_at suf) as [v|] eqn:V; [|reflexivity].
    exfalso. revert bol pre H E B.
    induction s as [|c s IH]; intros bol pre H E B.
    + destruct pre; [|discriminate E]. simpl in E. subst suf. discriminate V.
    + cbn [Text.first_version] in H.
      destruct (if bol then Text.version_at (String c s) else None) eqn:Head;
        [discriminate|].
      destruct pre as [|c' pre].
      * simpl in E, B. subst suf bol. congruence.
      * injection E as <- E. exact (IH _ pre H E B).
  - intros H. destruct (Text.first_version bol s) as [v|] eqn:F; [|reflexivity].
    apply first_version_Some in F as (pre & suf & E & B & V & _).
    rewrite (H pre suf E B) in V. discriminate.
Qed.

Lemma drop_prefix_other_line (p l rest : string) :
  Text.is_line p = true -> Py.startswith l p = false ->
  Text.drop_prefix p (l +:+ String "010" rest) = None.
Proof.
  unfold Text.is_line. revert l.
  induction p as [|a p IH]; intros l Hp Hl.
  - destruct l; discriminate Hl.
  - simpl in Hp. apply andb_prop in Hp as [Ha Hp].
    destruct l as [|b l]; simpl.
    + now apply negb_true_iff in Ha as ->.
    + simpl in Hl. destruct (Ascii.eqb a b); [|reflexivity].
      now apply IH.
Qed.

(** A line that does not begin with the word [version] begins no version
    assignment. *)
Lemma version_at_other_line (l rest : string) :
  Py.startswith l "version" = false ->
  Text.version_at (l +:+ String "010" rest) = None.
Proof.
  intros H. unfold Text.version_at.
  now rewrite (drop_prefix_other_line "version" l rest eq_refl H).
Qed.

Lemma first_version_skip_line (l rest : string) :
  Text.is_line l = true ->
  Text.first_version false (l +:+ String "010" rest)
  = Text.first_version true rest.
Proof.
  unfold Text.is_line. induction l as [|c l IH]; intros H; [reflexivity|].
  simpl in H. apply andb_prop in H as [Hc H].
  apply negb_true_iff in Hc. simpl. rewrite Hc. now apply IH.
Qed.

Lemma first_version_other_line (l rest : string) :
  Text.is_line l = true -> Py.startswith l "version" = false ->
  Text.first_version true (l +:+ String "010" rest)
  = Text.first_version true rest.
Proof.
  intros Hl Hv. pose proof (version_at_other_line l rest Hv) as V.
  destruct l as [|c l].
  - change ("" +:+ String "010" rest) with (String "010" rest) in *.
    cbn [Text.first_version]. now rewrite V.
  - change (String c l +:+ String "010" rest)
      with (String c (l +:+ String "010" rest)) in *.
    cbn [Text.first_version]. rewrite V.
    unfold Text.is_line in Hl. simpl in Hl. apply andb_prop in Hl as [Hc Hl].
    apply negb_true_iff in Hc. rewrite Hc. now apply first_version_skip_line.
Qed.

Lemma first_version_head (s v : string) :
  Text.version_at s = Some v -> Text.first_version true s = Some v.
Proof. intros H. destruct s; cbn [Text.first_version]; now rewrite H. Qed.

Lemma join_cons (sep x : string) (l : list string) :
  l <> [] -> Py.join sep (x :: l) = x +:+ sep +:+ Py.join sep l.
Proof. destruct l; [congruence | reflexivity]. Qed.

(** In a text given by its lines, the version is read from the first line
    that begins with the word [version], when that line begins with a
    version assignment; the lines before it are of any other kind. *)
Lemma first_version_lines (before after : list string)
    (line ws1 ws2 v rest : string) :
  Forall (fun l => Text.is_line l = true
                   /\ Py.startswith l "version" = false) before ->
  line = Text.version_assignment ws1 ws2 v +:+ rest ->
  Text.is_blank ws1 = true -> Text.is_blank ws2 = true ->
  Text.is_value v = true ->
  Text.first_version true
    (Py.join (String "010" "") (before ++ line :: after)) = Some v.
Proof.
  intros Hb -> B1 B2 Hv. induction Hb as [|l before [Hl Hs] _ IH].
  - apply first_version_head. change ([] ++ ?x) with x.
    destruct after as [|a after].
    + now apply version_at_assignment.
    + rewrite join_cons by discriminate. rewrite append_assoc.
      now apply version_at_assignment.
  - change ((l :: before) ++ ?x) with (l :: (before ++ x)).
    rewrite join_cons by (now destruct before).
    change (String "010" "" +:+ ?x) with (String "010" x).
    now rewrite first_version_other_line.
Qed.

End CurrentVersion.

(** C10. [get_current_version] does not look at sections. It returns the
    value of the first version assignment that begins where a line of
    the file begins (the pattern is anchored at line starts; its white
    space and its value are those of the pattern, which may hold line
    breaks), and it raises exactly when no line of the file begins with
    one. So the version line may stand before the header of the tracked
    section or under any other header: in a file given by its lines,
    the version is read from the first line that begins with the word
    [version], whatever the lines before it are. *)
Theorem get_current_version_any_section (path content : string) :
  (forall w,
      Sys.files w !! path = Some content ->
      BumpVersion.get_current_version path w
      = (BumpVersion.find_current_version path content,
         Sys.log (Sys.EvRead path) w))
  /\ (forall v,
        BumpVersion.find_current_version path content = inr v
        <-> exists pre suf,
              content = pre +:+ suf /\ Text.starts_line true pre = true
              /\ Text.version_at suf = Some v
              /\ forall pre' suf',
                   content = pre' +:+ suf' ->
                   String.length pre' < String.length pre ->
                   Text.starts_line true pre' = true ->
                   Text.version_at suf' = None)
  /\ (BumpVersion.find_current_version path content
      = inl (Sys.ValueError ("Could not find version in " +:+ path))
      <-> forall pre suf,
            content = pre +:+ suf -> Text.starts_line true pre = true ->
            Text.version_at suf = None)
  /\ (forall s v,
        Text.version_at s = Some v
        <-> exists ws1 ws2 rest,
              s = Text.version_assignment ws1 ws2 v +:+ rest
              /\ Text.is_blank ws1 = true /\ Text.is_blank ws2 = true
              /\ Text.is_value v = true)
  /\ (forall before after line ws1 ws2 v rest,
        content = Py.join (String "010" "") (before ++ line :: after) ->
        Forall (fun l => Text.is_line l = true
                         /\ Py.startswith l "version" = false) before ->
        line = Text.version_assignment ws1 ws2 v +:+ rest ->
        Text.is_blank ws1 = true -> Text.is_blank ws2 = true ->
        Text.is_value v = true ->
        BumpVersion.find_current_version path content = inr v).
Proof.
  split; [intros w H; now apply get_current_version_run|].
  split; [|split; [|split]].
  - intros v. rewrite find_current_version_first, <- first_version_Some.
    destruct (Text.first_version true content); split; congruence.
  - rewrite find_current_version_first, <- first_version_None.
    destruct (Text.first_version true content); split; congruence.
  - intros s v. split; [apply version_at_inv|].
    intros (ws1 & ws2 & rest & -> & B1 & B2 & Hv).
    now apply version_at_assignment.
  - intros before after line ws1 ws2 v rest -> Hb Hl B1 B2 Hv.
    rewrite find_current_version_first.
    now rewrite (first_version_lines before after line ws1 ws2 v rest).
Qed.

(** In the manifest of a workspace the version stands under
    [[workspace.package]], and there is no [[package]] section: it is
    read all the same. *)
Lemma get_current_version_any_section_witness :
  BumpVersion.find_current_version "Cargo.toml" Sample.cargo_toml_workspace
  = inr "1.2.3".
Proof.
  apply (get_current_version_any_section "Cargo.toml"
           Sample.cargo_toml_workspace)
    with (before := ["[workspace]";
                     "members = [" +:+ Sample.quoted "app" +:+ "]"; "";
                     "[workspace.package]"])
         (after := [""]) (line := "version = " +:+ Sample.quoted "1.2.3")
         (ws1 := " ") (ws2 := " ") (rest := "");
    try reflexivity.
  repeat constructor.
Defined.

(* ===================================================================== *)
(** * The writer of tauri.conf.json                                        *)
(* ===================================================================== *)

Section Document.
Import BumpVersion Sys.

Lemma dict_get_set_eq (d : Json.dict) (k : string) (v : Json.value) :
  Json.dict_get (Json.dict_set d k v) k = Some v.
Proof.
  induction d as [|[k' v'] d IH]; simpl.
  - now rewrite String.eqb_refl.
  - destruct (String.eqb k' k) eqn:E; simpl; now rewrite E.
Qed.

Lemma dict_get_set_ne (d : Json.dict) (k k' : string) (v : Json.value) :
  k' <> k -> Json.dict_get (Json.dict_set d k v) k' = Json.dict_get d k'.
Proof.
  intros N. apply not_eq_sym, String.eqb_neq in N.
  induction d as [|[k0 v0] d IH]; simpl.
  - now rewrite N.
  - destruct (String.eqb_spec k0 k) as [->|]; simpl.
    + now rewrite N.
    + now rewrite IH.
Qed.

(** Setting a key keeps the members in their places: the key keeps its
    place when it is there and goes last when it is not. *)
Lemma dict_set_keys (d : Json.dict) (k : string) (v : Json.value) :
  List.map fst (Json.dict_set d k v)
  = match Json.dict_get d k with
    | Some _ => List.map fst d
    | None => List.map fst d ++ [k]
    end.
Proof.
  induction d as [|[k0 v0] d IH]; simpl; [reflexivity|].
  destruct (String.eqb k0 k); simpl; [reflexivity|].
  rewrite IH. now destruct (Json.dict_get d k).
Qed.

Lemma dict_set_other (d : Json.dict) (k : string) (v : Json.value)
    (i : nat) (k' : string) (v' : Json.value) :
  d !! i = Some (k', v') -> k' <> k ->
  Json.dict_set d k v !! i = Some (k', v').
Proof.
  revert i. induction d as [|[k0 v0] d IH]; intros i H N; [discriminate|].
  simpl. destruct i as [|i]; simpl in H.
  - injection H as -> ->. apply String.eqb_neq in N. now rewrite N.
  - destruct (String.eqb k0 k); simpl; [exact H | now apply IH].
Qed.

Lemma differs_false (o : option Json.value) (new_version : string) :
  differs o new_version = false <-> o = Some (Json.Str new_version).
Proof.
  unfold differs. destruct o as [[| | | |s| |]|]; try (split; congruence).
  rewrite negb_false_iff, String.eqb_eq. split; congruence.
Qed.

End Document.

(* ===================================================================== *)
(** * The layout of the text written                                       *)
(* ===================================================================== *)

Section LayoutFacts.
Import Json Layout.

Lemma value_nested_ind (P : value -> Prop) :
  P Null -> (forall b, P (Bool b)) -> (forall z, P (Int z)) ->
  (forall r, P (Float r)) -> (forall s, P (Str s)) ->
  (forall items, Forall P items -> P (Arr items)) ->
  (forall members, Forall (fun kv => P (snd kv)) members ->
                   P (Obj members)) ->
  forall v, P v.
Proof.
  intros HN HB HI HF HS HA HO.
  fix IH 1. intros [| b | z | r | s | items | members].
  - exact HN.
  - apply HB.
  - apply HI.
  - apply HF.
  - apply HS.
  - apply HA. induction items as [|x xs IHxs]; constructor;
      [apply IH | exact IHxs].
  - apply HO. induction members as [|[k x] ms IHms]; constructor;
      [apply IH | exact IHms].
Qed.

Lemma rows_arr (depth : nat) (pre post : string) (x : value)
    (xs : list value) :
  rows depth pre post (Arr (x :: xs))
  = (depth, pre +:+ "[") :: items_rows (S depth) (x :: xs)
    ++ [(depth, "]" +:+ post)].
Proof.
  assert (G : forall l,
             (fix go (xs : list value) : list row :=
                match xs with
                | [] => []
                | x :: xs' => rows (S depth) "" (comma xs') x ++ go xs'
                end) l = items_rows (S depth) l).
  { induction l as [|y l IHl]; [reflexivity|].
    cbn [items_rows]. now rewrite <- IHl. }
  exact (f_equal (fun m => (depth, pre +:+ "[") :: m ++ [(depth, "]" +:+ post)])
           (G (x :: xs))).
Qed.

Lemma rows_obj (depth : nat) (pre post : string) (m : string * value)
    (ms : dict) :
  rows depth pre post (Obj (m :: ms))
  = (depth, pre +:+ "{") :: members_rows (S depth) (m :: ms)
    ++ [(depth, "}" +:+ post)].
Proof.
  assert (G : forall l,
             (fix go (ms : list (string * value)) : list row :=
                match ms with
                | [] => []
                | (k, x) :: ms' =>
                    rows (S depth) (encode_str k +:+ ": ") (comma ms') x
                    ++ go ms'
                end) l = members_rows (S depth) l).
  { induction l as [|[k y] l IHl]; [reflexivity|].
    cbn [members_rows]. now rewrite <- IHl. }
  exact (f_equal (fun r => (depth, pre +:+ "{") :: r ++ [(depth, "}" +:+ post)])
           (G (m :: ms))).
Qed.

Lemma rows_nonempty (depth : nat) (pre post : string) (v : value) :
  rows depth pre post v <> [].
Proof.
  destruct v as [| [|] | | | | [|x xs] | [|m ms]]; discriminate.
Qed.

Lemma text_app (a b : list row) :
  a <> [] -> b <> [] ->
  Layout.text (a ++ b)
  = Layout.text a +:+ String "010" "" +:+ Layout.text b.
Proof.
  intros Ha Hb. unfold Layout.text.
  induction a as [|r a IHa]; [congruence|].
  destruct a as [|r' a].
  - cbn [app List.map]. rewrite join_cons; [reflexivity|].
    destruct b; [congruence | discriminate].
  - change ((r :: r' :: a) ++ b) with (r :: ((r' :: a) ++ b)).
    cbn [List.map]. rewrite join_cons by discriminate.
    change (List.map indent_row ((r' :: a) ++ b))
      with (List.map indent_row ((r' :: a) ++ b)).
    rewrite IHa by discriminate.
    rewrite (join_cons _ _ (indent_row r' :: List.map indent_row a))
      by discriminate.
    cbn [List.map]. now rewrite ?append_assoc.
Qed.

Lemma encode_arr (depth : nat) (x : value) (xs : list value) :
  encode 2 depth (Arr (x :: xs))
  = String "[" (newline_indent 2 (S depth))
    +:+ Py.join (String "," (newline_indent 2 (S depth)))
          (List.map (encode 2 (S depth)) (x :: xs))
    +:+ newline_indent 2 depth +:+ "]".
Proof. reflexivity. Qed.

Lemma encode_obj (depth : nat) (m : string * value) (ms : dict) :
  encode 2 depth (Obj (m :: ms))
  = String "{" (newline_indent 2 (S depth))
    +:+ Py.join (String "," (newline_indent 2 (S depth)))
          (List.map (fun kv => encode_str (fst kv) +:+ ": "
                               +:+ encode 2 (S depth) (snd kv)) (m :: ms))
    +:+ newline_indent 2 depth +:+ "}".
Proof. reflexivity. Qed.

Lemma text_one (depth : nat) (s : string) :
  Layout.text [(depth, s)] = spaces (2 * depth) +:+ s.
Proof. reflexivity. Qed.

Lemma items_rows_nonempty (depth : nat) (x : value) (xs : list value) :
  items_rows depth (x :: xs) <> [].
Proof.
  cbn [items_rows]. intros H. apply app_eq_nil in H as [H _].
  now apply rows_nonempty in H.
Qed.

Lemma members_rows_nonempty (depth : nat) (m : string * value) (ms : dict) :
  members_rows depth (m :: ms) <> [].
Proof.
  destruct m as [k x]. cbn [members_rows]. intros H.
  apply app_eq_nil in H as [H _]. now apply rows_nonempty in H.
Qed.

(** The rows of the items are the items of the serializer, each on the
    line after the comma of the one before. *)
Lemma items_rows_text (depth : nat) (xs : list value) :
  Forall (fun v => forall d pre post,
              Layout.text (rows d pre post v)
              = spaces (2 * d) +:+ pre +:+ encode 2 d v +:+ post) xs ->
  xs <> [] ->
  Layout.text (items_rows depth xs)
  = spaces (2 * depth)
    +:+ Py.join (String "," (newline_indent 2 depth))
          (List.map (encode 2 depth) xs).
Proof.
  induction 1 as [|x xs Hx Hxs IH]; [congruence|]. intros _.
  destruct xs as [|y xs].
  - cbn [items_rows comma List.map Py.join]. rewrite app_nil_r, Hx.
    cbn [String.append]. now rewrite append_nil_r.
  - change (items_rows depth (x :: y :: xs))
      with (rows depth "" "," x ++ items_rows depth (y :: xs)).
    rewrite text_app by (apply rows_nonempty || apply items_rows_nonempty).
    rewrite Hx. rewrite IH by discriminate.
    cbn [List.map]. rewrite (join_cons _ (encode 2 depth x)) by discriminate.
    unfold newline_indent. cbn [String.append].
    rewrite ?append_assoc. cbn [String.append]. reflexivity.
Qed.

Lemma members_rows_text (depth : nat) (ms : dict) :
  Forall (fun kv => forall d pre post,
              Layout.text (rows d pre post (snd kv))
              = spaces (2 * d) +:+ pre +:+ encode 2 d (snd kv) +:+ post) ms ->
  ms <> [] ->
  Layout.text (members_rows depth ms)
  = spaces (2 * depth)
    +:+ Py.join (String "," (newline_indent 2 depth))
          (List.map (fun kv => encode_str (fst kv) +:+ ": "
                               +:+ encode 2 depth (snd kv)) ms).
Proof.
  induction 1 as [|[k x] ms Hx Hxs IH]; [congruence|]. intros _.
  cbn [fst snd] in Hx.
  destruct ms as [|m ms].
  - cbn [members_rows comma List.map Py.join fst snd].
    rewrite app_nil_r, Hx. now rewrite append_nil_r, append_assoc.
  - change (members_rows depth ((k, x) :: m :: ms))
      with (rows depth (encode_str k +:+ ": ") "," x
            ++ members_rows depth (m :: ms)).
    rewrite text_app by (apply rows_nonempty || apply members_rows_nonempty).
    rewrite Hx. rewrite IH by discriminate.
    cbn [List.map fst snd].
    rewrite (join_cons _ (encode_str k +:+ ": " +:+ encode 2 depth x))
      by discriminate.
    unfold newline_indent. cbn [String.append].
    rewrite ?append_assoc. cbn [String.append]. reflexivity.
Qed.

(** The serializer writes the rows: the text of a value at depth [d],
    after the indentation of its first row and between [pre] and
    [post], is the text of its rows. *)
Lemma encode_rows (v : value) :
  forall d pre post,
    Layout.text (rows d pre post v)
    = spaces (2 * d) +:+ pre +:+ encode 2 d v +:+ post.
Proof.
  induction v as [| b | z | r | s | items IH | members IH]
    using value_nested_ind; intros d pre post.
  - reflexivity.
  - destruct b; reflexivity.
  - reflexivity.
  - reflexivity.
  - reflexivity.
  - destruct items as [|x xs]; [reflexivity|].
    rewrite rows_arr, encode_arr.
    change ((d, pre +:+ "[") :: items_rows (S d) (x :: xs)
            ++ [(d, "]" +:+ post)])
      with ([(d, pre +:+ "[")] ++ items_rows (S d) (x :: xs)
            ++ [(d, "]" +:+ post)]).
    rewrite text_app, text_app, !text_one, items_rows_text;
      try discriminate; try apply items_rows_nonempty; try exact IH.
    + unfold newline_indent. rewrite ?append_assoc. cbn [String.append].
      rewrite ?append_assoc. reflexivity.
    + intros H. apply app_eq_nil in H as [_ H]. discriminate.
  - destruct members as [|m ms]; [reflexivity|].
    rewrite rows_obj, encode_obj.
    change ((d, pre +:+ "{") :: members_rows (S d) (m :: ms)
            ++ [(d, "}" +:+ post)])
      with ([(d, pre +:+ "{")] ++ members_rows (S d) (m :: ms)
            ++ [(d, "}" +:+ post)]).
    rewrite text_app, text_app, !text_one, members_rows_text;
      try discriminate; try apply members_rows_nonempty; try exact IH.
    + unfold newline_indent. rewrite ?append_assoc. cbn [String.append].
      rewrite ?append_assoc. reflexivity.
    + intros H. apply app_eq_nil in H as [_ H]. discriminate.
Qed.

(** A plain string is written between double quotes as it is. *)
Lemma escape_plain (s : string) : Layout.plain s = true -> escape s = s.
Proof.
  induction s as [|c s IH]; [reflexivity|]. cbn [Layout.plain Text.all_in].
  intros H. apply andb_prop in H as [Hc Hs].
  cbn [escape]. rewrite (IH Hs).
  unfold plain_char in Hc.
  apply andb_prop in Hc as [Hc Hb]. apply andb_prop in Hc as [Hr Hq].
  apply negb_true_iff in Hq, Hb.
  unfold escape_char. rewrite Hq, Hb, Hr.
  destruct (Ascii.eqb_spec c "010") as [->|_]; [discriminate Hr|].
  destruct (Ascii.eqb_spec c "013") as [->|_]; [discriminate Hr|].
  destruct (Ascii.eqb_spec c "009") as [->|_]; [discriminate Hr|].
  destruct (Ascii.eqb_spec c "008") as [->|_]; [discriminate Hr|].
  destruct (Ascii.eqb_spec c "012") as [->|_]; [discriminate Hr|].
  reflexivity.
Qed.

Lemma encode_str_plain (s : string) :
  Layout.plain s = true -> encode_str s = Text.quoted s.
Proof. intros H. unfold encode_str, Text.quoted. now rewrite escape_plain. Qed.

Lemma rows_depth (v : value) :
  forall d pre post, Forall (fun r => d <= fst r) (rows d pre post v).
Proof.
  induction v as [| b | z | r | s | items IH | members IH]
    using value_nested_ind; intros d pre post;
    try (repeat constructor; fail).
  - destruct b; repeat constructor.
  - destruct items as [|x xs]; [repeat constructor|].
    rewrite rows_arr. constructor; [cbn; lia|].
    apply Forall_app. split; [|repeat constructor].
    induction IH as [|y ys Hy _ IHys]; [constructor|].
    cbn [items_rows]. apply Forall_app. split; [|exact IHys].
    eapply Forall_impl; [apply Hy|]. cbn. intros; lia.
  - destruct members as [|m ms]; [repeat constructor|].
    rewrite rows_obj. constructor; [cbn; lia|].
    apply Forall_app. split; [|repeat constructor].
    induction IH as [|[k y] ys Hy _ IHys]; [constructor|].
    cbn [members_rows]. apply Forall_app. split; [|exact IHys].
    eapply Forall_impl; [apply Hy|]. cbn. intros; lia.
Qed.

Lemma members_rows_depth (d : nat) (ms : dict) :
  Forall (fun r => d <= fst r) (members_rows d ms).
Proof.
  induction ms as [|[k x] ms IH]; [constructor|].
  cbn [members_rows]. apply Forall_app. split; [apply rows_depth | exact IH].
Qed.

(** The rows of a member are among the rows of the mapping. *)
Lemma members_rows_lookup (d : nat) (ms : dict) (i : nat) (k : string)
    (x : value) :
  ms !! i = Some (k, x) ->
  forall r,
    In r (rows d (encode_str k +:+ ": ") (comma (drop (S i) ms)) x) ->
    In r (members_rows d ms).
Proof.
  revert i. induction ms as [|[k' x'] ms IH]; intros i H r Hr;
    [discriminate|].
  cbn [members_rows]. apply in_or_app.
  destruct i as [|i].
  - injection H as -> ->. left. exact Hr.
  - right. exact (IH i H r Hr).
Qed.

(** The member set by [dict_set] is in the mapping under its key. *)
Lemma dict_set_lookup (d : dict) (k : string) (v : value) :
  exists i, dict_set d k v !! i = Some (k, v).
Proof.
  induction d as [|[k' v'] d IH].
  - now exists 0.
  - cbn [dict_set]. destruct (String.eqb_spec k' k) as [->|_].
    + now exists 0.
    + destruct IH as [i H]. now exists (S i).
Qed.

End LayoutFacts.

(** C8. On a document that [json.loads] reads as a mapping: when its
    [version] is already the new version, the writer reports no update
    and writes nothing, so that the file stays as it is; otherwise it
    reports an update and writes the mapping with [version] set to the
    new version, every other member keeping its place and its value (a
    missing [version] goes last), serialized with an indentation of two
    spaces per level and followed by a line break. The text written is
    a text of rows, each indented by two spaces per level of nesting: an
    opening brace on the first row, the rows of the members in their
    order one level deeper, a closing brace on the last row; the member
    [version] is the row of the quoted key, a colon and a space, and
    the new version between double quotes (written as it is when it has
    only printable ASCII characters other than the double quote and the
    backslash), followed by a comma unless the member is the last. *)
Theorem update_tauri_conf_document
    (json_loads : string -> option Json.value)
    (path new_version content : string) (data : Json.dict) (w : Sys.world) :
  Sys.files w !! path = Some content ->
  json_loads content = Some (Json.Obj data) ->
  let data' := Json.dict_set data "version" (Json.Str new_version) in
  let text := Json.dumps 2 (Json.Obj data') +:+ String "010" "" in
  (Json.dict_get data "version" = Some (Json.Str new_version) ->
   BumpVersion.update_tauri_conf json_loads path new_version w
   = (inr false, Sys.log (Sys.EvRead path) w)
   /\ Sys.files (Sys.log (Sys.EvRead path) w) = Sys.files w)
  /\ (Json.dict_get data "version" <> Some (Json.Str new_version) ->
      BumpVersion.update_tauri_conf json_loads path new_version w
      = (inr true,
         Sys.World (<[path := text]> (Sys.files w)) (Sys.stdout w)
           (Sys.stderr w)
           (Sys.trace w ++ [Sys.EvRead path; Sys.EvWrite path text])))
  /\ Json.dict_get data' "version" = Some (Json.Str new_version)
  /\ (forall k, k <> "version" ->
                Json.dict_get data' k = Json.dict_get data k)
  /\ (forall i k v, data !! i = Some (k, v) -> k <> "version" ->
                    data' !! i = Some (k, v))
  /\ List.map fst data'
     = match Json.dict_get data "version" with
       | Some _ => List.map fst data
       | None => List.map fst data ++ ["version"]
       end
  /\ text
     = String "{" (String "010" "  ")
       +:+ Py.join (String "," (String "010" "  "))
             (List.map (fun kv => Json.encode_str (fst kv) +:+ ": "
                                  +:+ Json.encode 2 1 (snd kv)) data')
       +:+ String "010" "}" +:+ String "010" ""
  /\ text
     = Layout.text (Layout.rows 0 "" "" (Json.Obj data')) +:+ String "010" ""
  /\ Layout.rows 0 "" "" (Json.Obj data')
     = (0, "{") :: Layout.members_rows 1 data' ++ [(0, "}")]
  /\ Forall (fun r => 1 <= fst r) (Layout.members_rows 1 data')
  /\ (forall i k v r,
        data' !! i = Some (k, v) ->
        In r (Layout.rows 1 (Json.encode_str k +:+ ": ")
                (Layout.comma (drop (S i) data')) v) ->
        In r (Layout.members_rows 1 data'))
  /\ (Layout.plain new_version = true ->
      exists i,
        data' !! i = Some ("version", Json.Str new_version)
        /\ In (1, Text.quoted "version" +:+ ": "
                  +:+ Text.quoted new_version
                  +:+ Layout.comma (drop (S i) data'))
             (Layout.members_rows 1 data'))
  /\ (forall s, Layout.plain s = true -> Json.encode_str s = Text.quoted s).
Proof.
  intros Hfs Hload data' text.
  assert (Step : forall k : string -> Sys.M bool,
             Sys.bind (Sys.read_text path) k w
             = k content (Sys.log (Sys.EvRead path) w)).
  { intros k. apply bind_ok. unfold Sys.read_text. now rewrite Hfs. }
  assert (NE : exists m members, data' = m :: members).
  { subst data'. destruct data as [|[k0 v0] d]; cbn [Json.dict_set];
      [eauto|]. destruct (String.eqb k0 "version"); eauto. }
  split; [|split].
  - intros Hv. split; [|reflexivity].
    unfold BumpVersion.update_tauri_conf. rewrite Step, Hload.
    now apply differs_false in Hv as ->.
  - intros Hv. unfold BumpVersion.update_tauri_conf. rewrite Step, Hload.
    destruct (BumpVersion.differs _ new_version) eqn:D.
    + unfold Sys.bind, Sys.write_text, Sys.ret, Sys.log.
      cbn [Sys.files Sys.stdout Sys.stderr Sys.trace].
      now rewrite <- app_assoc.
    + now apply differs_false in D.
  - split; [apply dict_get_set_eq|].
    split; [intros k N; now apply dict_get_set_ne|].
    split; [intros i k v H N; now apply dict_set_other|].
    split; [apply dict_set_keys|].
    split.
    { subst text. unfold Json.dumps.
      destruct NE as (m & members & ->).
      cbn [Json.encode]. unfold Json.newline_indent. simpl Json.spaces.
      now rewrite !append_assoc. }
    split.
    { subst text. unfold Json.dumps.
      rewrite (encode_rows (Json.Obj data') 0 "" "").
      cbn [Nat.mul Json.spaces String.append].
      now rewrite append_nil_r. }
    split.
    { destruct NE as (m & members & ->). apply rows_obj. }
    split; [apply members_rows_depth|].
    split;
      [intros i k v r H; exact (members_rows_lookup 1 data' i k v H r)|].
    split; [|exact encode_str_plain].
    intros Hp.
    destruct (dict_set_lookup data "version" (Json.Str new_version))
      as [i Hi].
    exists i. split; [exact Hi|].
    apply (members_rows_lookup 1 data' i "version" (Json.Str new_version) Hi).
    cbn [Layout.rows]. rewrite (encode_str_plain new_version Hp).
    left. reflexivity.
Qed.

(** A document at 1.2.4 is left alone when 1.2.4 is asked for; a document
    at 1.2.3, written on one line, is rewritten at 1.2.4 on twelve lines
    with two spaces of indentation per level; a document without
    version gets it as its last member, the characters of its name
    that do not stand for themselves are escaped, its list goes on a row
    per item and its empty containers stay on their row. *)
Lemma update_tauri_conf_document_witness :
  let path := "src-tauri/tauri.conf.json" in
  let w4 := Sys.World {[ path := Sample.tauri_conf_text "1.2.4" ]} [] [] [] in
  let w3 := Sys.World {[ path := Sample.tauri_conf_text "1.2.3" ]} [] [] [] in
  let w0 := Sys.World {[ path := LayoutSample.odd_text ]} [] [] [] in
  BumpVersion.update_tauri_conf Sample.loads path "1.2.4" w4
  = (inr false, Sys.log (Sys.EvRead path) w4)
  /\ BumpVersion.update_tauri_conf Sample.loads path "1.2.4" w3
     = (inr true,
        Sys.World {[ path := LayoutSample.tauri_conf_written ]} [] []
          [Sys.EvRead path;
           Sys.EvWrite path LayoutSample.tauri_conf_written])
  /\ BumpVersion.update_tauri_conf LayoutSample.loads path "1.2.4" w0
     = (inr true,
        Sys.World {[ path := LayoutSample.odd_written ]} [] []
          [Sys.EvRead path; Sys.EvWrite path LayoutSample.odd_written]).
Proof.
  intros path w4 w3 w0. split; [|split].
  - destruct (update_tauri_conf_document Sample.loads path "1.2.4"
                (Sample.tauri_conf_text "1.2.4")
                [("productName", Json.Str "decorator");
                 ("version", Json.Str "1.2.4");
                 ("app", Json.Obj [("windows", Json.Arr [Json.Obj
                                      [("width", Json.Int 800);
                                       ("resizable", Json.Bool true)]])])]
                w4) as (H & _); [reflexivity | reflexivity |].
    apply H. reflexivity.
  - destruct (update_tauri_conf_document Sample.loads path "1.2.4"
                (Sample.tauri_conf_text "1.2.3")
                [("productName", Json.Str "decorator");
                 ("version", Json.Str "1.2.3");
                 ("app", Json.Obj [("windows", Json.Arr [Json.Obj
                                      [("width", Json.Int 800);
                                       ("resizable", Json.Bool true)]])])]
                w3) as (_ & H & _); [reflexivity | reflexivity |].
    rewrite H by discriminate. reflexivity.
  - destruct (update_tauri_conf_document LayoutSample.loads path "1.2.4"
                LayoutSample.odd_text LayoutSample.odd_members w0) as (_ & H & _); [reflexivity | reflexivity |].
    rewrite H by discriminate. reflexivity.
Defined.

(* ===================================================================== *)
(** * Further properties of bump_version                                   *)
(* ===================================================================== *)

Section BumpFurther.
Import BumpVersion.

(** What [parse_version] returns has three components. *)
Lemma parse_version_inv (s : string) (v : list N) :
  parse_version s = inr v ->
  exists d1 d2 d3 rest,
    version_prefix s d1 d2 d3 rest /\ v = [Py.int d1; Py.int d2; Py.int d3].
Proof.
  unfold parse_version. rewrite re_match_version_re.
  destruct (leading_version s) as [[groups rest]|] eqn:E; [|discriminate].
  intros [= <-].
  apply leading_version_inv in E as (d1 & d2 & d3 & -> & H).
  now exists d1, d2, d3, rest.
Qed.

Lemma parse_version_error (s : string) (e : Sys.exn) :
  parse_version s = inl e ->
  e = Sys.ValueError ("Invalid version format: " +:+ s)
  /\ forall d1 d2 d3 rest, ~ version_prefix s d1 d2 d3 rest.
Proof.
  unfold parse_version. rewrite re_match_version_re.
  destruct (leading_version s) as [[groups rest]|] eqn:E; [discriminate|].
  intros [= <-]. split; [reflexivity | now apply no_version_prefix].
Qed.

(** A bump of one of the three types: the result, what it parses to, and
    that it is greater than and other than the input. *)
Lemma bump_tag_result (s d1 d2 d3 rest : string) (t : option string) :
  version_prefix s d1 d2 d3 rest ->
  Further.is_bump_tag t ->
  exists r v',
    bump_version s t = inr r
    /\ parse_version r = inr v'
    /\ Further.version_lt [Py.int d1; Py.int d2; Py.int d3] v'
    /\ r <> s.
Proof.
  intros Hp Ht.
  pose proof (parse_version_prefix _ _ _ _ _ Hp) as P.
  assert (G : forall r v',
             bump_version s t = inr r ->
             parse_version r = inr v' ->
             Further.version_lt [Py.int d1; Py.int d2; Py.int d3] v' ->
             exists r0 v0,
               bump_version s t = inr r0
               /\ parse_version r0 = inr v0
               /\ Further.version_lt [Py.int d1; Py.int d2; Py.int d3] v0
               /\ r0 <> s).
  { intros r v' B P' L. exists r, v'. repeat split; try assumption.
    intros ->. rewrite P in P'. injection P' as <-.
    simpl in L. lia. }
  unfold bump_version in *. rewrite P in *.
  destruct Ht as [-> | [-> | ->]]; cbn [bool_decide decide_rel] in *.
  - eapply G; [reflexivity | apply (parse_version_str _ 0 0) |].
    simpl. lia.
  - eapply G; [reflexivity | apply (parse_version_str _ _ 0) |].
    simpl. lia.
  - eapply G; [reflexivity | apply parse_version_str |].
    simpl. lia.
Qed.

(** The classifier gives one of the three types or [None]. *)
Lemma get_bump_type_tag (commit_msg : string) :
  truthy (get_bump_type_from_commit commit_msg) = true ->
  Further.is_bump_tag (get_bump_type_from_commit commit_msg).
Proof.
  unfold get_bump_type_from_commit, Further.is_bump_tag.
  repeat (destruct (Py.startswith _ _)); simpl; auto; discriminate.
Qed.

End BumpFurther.

(** [bump_version] parses before it looks at the bump type: it fails only
    with the error for an invalid version format, carrying its input, and
    does so exactly on the strings that do not start with three
    dot-separated numbers, whatever the bump type is. *)
Theorem bump_version_fails_on_format_only (s : string) (t : option string) :
  (forall e, BumpVersion.bump_version s t = inl e ->
             e = Sys.ValueError ("Invalid version format: " +:+ s))
  /\ ((exists e, BumpVersion.bump_version s t = inl e)
      <-> forall d1 d2 d3 rest, ~ version_prefix s d1 d2 d3 rest).
Proof.
  unfold BumpVersion.bump_version.
  destruct (BumpVersion.parse_version s) as [e0|v] eqn:P.
  - apply parse_version_error in P as [-> N]. split.
    + now intros e [= <-].
    + split; [intros _; exact N | intros _; eauto].
  - apply parse_version_inv in P as (d1 & d2 & d3 & rest & Hp & ->).
    split.
    + intros e H. repeat case_bool_decide; discriminate H.
    + split.
      * intros [e H]. repeat case_bool_decide; discriminate H.
      * intros N. now destruct (N d1 d2 d3 rest).
Qed.

(** With a bump type that is none of the three, [None] included, a
    version string that parses is returned as it is, with its leading
    zeros and with whatever follows the third number. *)
Theorem bump_version_other_type_identity (s d1 d2 d3 rest : string)
    (t : option string) :
  version_prefix s d1 d2 d3 rest ->
  ~ Further.is_bump_tag t ->
  BumpVersion.bump_version s t = inr s.
Proof.
  intros Hp Ht. unfold BumpVersion.bump_version.
  rewrite (parse_version_prefix _ _ _ _ _ Hp).
  unfold Further.is_bump_tag in Ht.
  repeat case_bool_decide; try reflexivity; tauto.
Qed.

(** [01.2.3-beta] is returned unchanged for the type [None] and for a
    type the classifier does not give. *)
Lemma bump_version_other_type_identity_witness :
  BumpVersion.bump_version "01.2.3-beta" None = inr "01.2.3-beta"
  /\ BumpVersion.bump_version "01.2.3-beta" (Some "Major")
     = inr "01.2.3-beta".
Proof.
  split.
  - apply (bump_version_other_type_identity _ "01" "2" "3" "-beta");
      [repeat split | intros [H|[H|H]]; discriminate H].
  - apply (bump_version_other_type_identity _ "01" "2" "3" "-beta");
      [repeat split | intros [H|[H|H]]; discriminate H].
Defined.

(** A bump of one of the three types gives a version that is greater than
    the one it starts from, in the order by major, minor and patch; the
    string returned is never the string given. For the same version, the
    patch bump is below the minor bump, which is below the major bump. *)
Theorem bump_version_increases (s d1 d2 d3 rest : string)
    (t : option string) :
  version_prefix s d1 d2 d3 rest ->
  Further.is_bump_tag t ->
  (exists r v',
      BumpVersion.bump_version s t = inr r
      /\ BumpVersion.parse_version r = inr v'
      /\ Further.version_lt [Py.int d1; Py.int d2; Py.int d3] v'
      /\ r <> s)
  /\ (exists rp rn rm vp vn vm,
        BumpVersion.bump_version s (Some "patch") = inr rp
        /\ BumpVersion.bump_version s (Some "minor") = inr rn
        /\ BumpVersion.bump_version s (Some "major") = inr rm
        /\ BumpVersion.parse_version rp = inr vp
        /\ BumpVersion.parse_version rn = inr vn
        /\ BumpVersion.parse_version rm = inr vm
        /\ Further.version_lt vp vn /\ Further.version_lt vn vm).
Proof.
  intros Hp Ht.
  pose proof (parse_version_prefix _ _ _ _ _ Hp) as P.
  split; [now apply (bump_tag_result s d1 d2 d3 rest)|].
  unfold BumpVersion.bump_version. rewrite P.
  eexists _, _, _, _, _, _.
  split; [reflexivity|]. split; [reflexivity|]. split; [reflexivity|].
  split; [apply parse_version_str|].
  split; [apply (parse_version_str _ _ 0)|].
  split; [apply (parse_version_str _ 0 0)|].
  simpl. lia.
Qed.

(** From [1.9.9-rc1] a minor bump gives another string, which parses to
    1.10.0. *)
Lemma bump_version_increases_witness :
  exists r,
    BumpVersion.bump_version "1.9.9-rc1" (Some "minor") = inr r
    /\ r <> "1.9.9-rc1".
Proof.
  destruct (bump_version_increases "1.9.9-rc1" "1" "9" "9" "-rc1"
              (Some "minor"))
    as ((r & v' & B & _ & _ & N) & _).
  - repeat split.
  - right. left. reflexivity.
  - exists r. split; [exact B | exact N].
Defined.

(** [1.2], which has two numbers only, is refused whatever the type. *)
Lemma bump_version_fails_on_format_only_witness :
  exists e, BumpVersion.bump_version "1.2" None = inl e.
Proof.
  apply (proj2 (bump_version_fails_on_format_only "1.2" None)).
  apply no_version_prefix. reflexivity.
Defined.

(** Without a base version on the command line (or with an empty one), a
    run that finds a bump type and reads a current version never stops
    at the guard of line 133: the candidate is another string than the
    current version, and the run goes on to the updates. *)
Theorem no_base_never_stops_at_guard
    (json_loads : string -> option Json.value) (argv : list string)
    (fs : gmap string string) (content current candidate : string) :
  fs !! BumpVersion.root_cargo = Some content ->
  Run.reaches_guard argv content current candidate ->
  BumpVersion.truthy (Run.base_version argv) = false ->
  candidate <> current
  /\ BumpVersion.run json_loads argv fs
     = Sys.bind (BumpVersion.update_all json_loads candidate)
         (Run.report argv current candidate)
         (Sys.log (Sys.EvRead BumpVersion.root_cargo) (Run.start fs)).
Proof.
  intros Hfs Hg Hb.
  assert (N : candidate <> current).
  { destruct Hg as (_ & Ht & _ & Hbump).
    unfold Run.version_to_bump in Hbump. rewrite Hb in Hbump.
    apply get_bump_type_tag in Ht. fold (Run.bump_type argv) in Ht.
    destruct (BumpVersion.parse_version current) as [e|v] eqn:P.
    - unfold BumpVersion.bump_version in Hbump. rewrite P in Hbump.
      discriminate Hbump.
    - apply parse_version_inv in P as (d1 & d2 & d3 & rest & Hp & _).
      destruct (bump_tag_result current d1 d2 d3 rest _ Hp Ht)
        as (r & _ & B & _ & _ & Hne).
      rewrite Hbump in B. now injection B as ->. }
  split; [exact N|].
  unfold BumpVersion.run.
  rewrite (main_reaches_guard json_loads argv (Sys.World fs [] [] [])
             content current candidate Hfs Hg).
  apply String.eqb_neq in N. now rewrite N.
Qed.

(** A fix on the sample manifest, without base version, goes on to the
    updates. *)
Lemma no_base_never_stops_at_guard_witness :
  "1.2.4" <> "1.2.3"
  /\ Sys.stdout
       (snd (BumpVersion.run Sample.no_json
               ["bump_version.py"; "fix(core): patch bug"]
               {[ "Cargo.toml" := Sample.cargo_toml ]}))
     = ["Version bumped: 1.2.3 -> 1.2.4 (patch)"; "Updated: Cargo.toml"].
Proof.
  destruct (no_base_never_stops_at_guard Sample.no_json
              ["bump_version.py"; "fix(core): patch bug"]
              {[ "Cargo.toml" := Sample.cargo_toml ]}
              Sample.cargo_toml "1.2.3" "1.2.4") as [N E];
    [reflexivity | repeat split; simpl; lia | reflexivity |].
  split; [exact N|]. rewrite E. reflexivity.
Defined.

(* ===================================================================== *)
(** * Runs that fail before the updates                                    *)
(* ===================================================================== *)

Lemma bump_version_fails_on_format_only_aux (s : string) (t : option string)
    (e : Sys.exn) :
  BumpVersion.bump_version s t = inl e ->
  e = Sys.ValueError ("Invalid version format: " +:+ s)
  /\ forall d1 d2 d3 rest, ~ version_prefix s d1 d2 d3 rest.
Proof.
  unfold BumpVersion.bump_version.
  destruct (BumpVersion.parse_version s) as [e0|v] eqn:P.
  - intros [= <-]. now apply parse_version_error.
  - apply parse_version_inv in P as (d1 & d2 & d3 & rest & _ & ->).
    intros H. repeat case_bool_decide; discriminate H.
Qed.

(** Without a commit message on the command line the run ends with status
    1: the usage line goes to the error stream, nothing is printed, and
    no file is probed, read or written. *)
Theorem main_usage_error (json_loads : string -> option Json.value)
    (argv : list string) (w : Sys.world) :
  length argv < 2 ->
  let r := BumpVersion.main json_loads argv w in
  r = (inl (Sys.SystemExit 1),
       Sys.World (Sys.files w) (Sys.stdout w)
         (Sys.stderr w
          ++ ["Usage: bump_version.py <commit_message> [base_version]"])
         (Sys.trace w))
  /\ Sys.exit_status (fst r) = 1%Z.
Proof.
  intros H r. subst r. unfold BumpVersion.main.
  apply Nat.ltb_lt in H. rewrite H. split; reflexivity.
Qed.

(** The script called with no argument at all. *)
Lemma main_usage_error_witness :
  BumpVersion.run Sample.no_json ["bump_version.py"]
    {[ "Cargo.toml" := Sample.cargo_toml ]}
  = (inl (Sys.SystemExit 1),
     Sys.World {[ "Cargo.toml" := Sample.cargo_toml ]} []
       ["Usage: bump_version.py <commit_message> [base_version]"] []).
Proof.
  refine (proj1 (main_usage_error Sample.no_json ["bump_version.py"]
                   (Run.start {[ "Cargo.toml" := Sample.cargo_toml ]}) _)).
  simpl. lia.
Defined.

(** [main] when the candidate cannot be worked out. *)
Lemma main_candidate_error (json_loads : string -> option Json.value)
    (argv : list string) (w : Sys.world) (content : string) (e : Sys.exn) :
  2 <= length argv ->
  BumpVersion.truthy (Run.bump_type argv) = true ->
  Sys.files w !! BumpVersion.root_cargo = Some content ->
  Run.candidate argv content = inl e ->
  BumpVersion.main json_loads argv w
  = (inl e, Sys.log (Sys.EvRead BumpVersion.root_cargo) w).
Proof.
  intros Hlen Ht Hfs Hc.
  pose proof (get_current_version_run BumpVersion.root_cargo content w Hfs)
    as G.
  destruct argv as [|prog [|msg more]]; simpl in Hlen; try lia.
  unfold Run.candidate in Hc.
  unfold Run.bump_type, Run.version_to_bump, Run.base_version in *.
  unfold BumpVersion.main.
  destruct more as [|base more]; cbn [length Nat.ltb Nat.leb nth] in *;
    rewrite Ht; cbn [negb];
    destruct (BumpVersion.find_current_version BumpVersion.root_cargo
                content) as [e0|current] eqn:F;
    try (injection Hc as <-; erewrite bind_raise; [reflexivity | exact G]);
    (erewrite bind_ok; [|exact G]);
    (erewrite bind_raise; [reflexivity|]);
    unfold Sys.lift; now rewrite Hc.
Qed.

(** A run with a bump type that cannot work out the candidate version
    ends with status 1 on the exception raised, having read the root
    manifest and nothing else: nothing is printed and no file is
    written. The exception is [FileNotFoundError] when the root manifest
    is not there, the error of [get_current_version] when it has no
    version line, and the error of [parse_version] on the version to
    bump (the base version when one is given, else the current one) when
    that does not parse. *)
Theorem main_fails_before_updates
    (json_loads : string -> option Json.value) (argv : list string)
    (fs : gmap string string) :
  2 <= length argv ->
  BumpVersion.truthy (Run.bump_type argv) = true ->
  (fs !! BumpVersion.root_cargo = None ->
   BumpVersion.run json_loads argv fs
   = (inl (Sys.FileNotFoundError BumpVersion.root_cargo),
      Sys.World fs [] [] [Sys.EvRead BumpVersion.root_cargo]))
  /\ (forall content e,
        fs !! BumpVersion.root_cargo = Some content ->
        Run.candidate argv content = inl e ->
        BumpVersion.run json_loads argv fs
        = (inl e, Sys.World fs [] [] [Sys.EvRead BumpVersion.root_cargo])
        /\ Sys.exit_status (A := unit) (inl e) = 1%Z
        /\ (e = Sys.ValueError ("Could not find version in "
                                +:+ BumpVersion.root_cargo)
            \/ exists current,
                 BumpVersion.find_current_version BumpVersion.root_cargo
                   content = inr current
                 /\ e = Sys.ValueError
                          ("Invalid version format: "
                           +:+ Run.version_to_bump argv current))).
Proof.
  intros Hlen Ht. split.
  - intros Hfs.
    destruct argv as [|prog [|msg more]]; simpl in Hlen; try lia.
    unfold Run.bump_type in Ht.
    unfold BumpVersion.run, BumpVersion.main.
    destruct more as [|base more]; cbn [length Nat.ltb Nat.leb nth] in *;
      rewrite Ht; cbn [negb];
      (erewrite bind_raise; [reflexivity|]);
      unfold BumpVersion.get_current_version;
      (erewrite bind_raise; [reflexivity|]);
      unfold Sys.read_text; cbn [Sys.files]; now rewrite Hfs.
  - intros content e Hfs Hc.
    split; [exact (main_candidate_error json_loads argv (Sys.World fs [] [] [])
                     content e Hlen Ht Hfs Hc)|].
    unfold Run.candidate in Hc.
    destruct (BumpVersion.find_current_version BumpVersion.root_cargo content)
      as [e0|current] eqn:F.
    + injection Hc as <-. unfold BumpVersion.find_current_version in F.
      destruct (Re.re_search_multiline _ _) as [[? ?]|]; [discriminate|].
      injection F as <-. split; [reflexivity | now left].
    + destruct (bump_version_fails_on_format_only_aux _ _ _ Hc) as [-> _].
      split; [reflexivity|]. right. now exists current.
Qed.

(** A fix with the base version [abc] on the sample manifest, and a fix in
    a project without root manifest. *)
Lemma main_fails_before_updates_witness :
  BumpVersion.run Sample.no_json
    ["bump_version.py"; "fix(core): patch bug"; "abc"]
    {[ "Cargo.toml" := Sample.cargo_toml ]}
  = (inl (Sys.ValueError "Invalid version format: abc"),
     Sys.World {[ "Cargo.toml" := Sample.cargo_toml ]} [] []
       [Sys.EvRead "Cargo.toml"])
  /\ BumpVersion.run Sample.no_json
       ["bump_version.py"; "fix(core): patch bug"] ∅
     = (inl (Sys.FileNotFoundError "Cargo.toml"),
        Sys.World ∅ [] [] [Sys.EvRead "Cargo.toml"]).
Proof.
  split.
  - destruct (main_fails_before_updates Sample.no_json
                ["bump_version.py"; "fix(core): patch bug"; "abc"]
                {[ "Cargo.toml" := Sample.cargo_toml ]}) as [_ H];
      [simpl; lia | reflexivity |].
    apply (H Sample.cargo_toml); reflexivity.
  - destruct (main_fails_before_updates Sample.no_json
                ["bump_version.py"; "fix(core): patch bug"] ∅) as [H _];
      [simpl; lia | reflexivity |].
    apply H. reflexivity.
Defined.

(* ===================================================================== *)
(** * The files a run touches                                              *)
(* ===================================================================== *)

Section Confined.
Import BumpVersion Sys Further.

Lemma confined_pure {A} (c : M A) :
  (forall w, trace (snd (c w)) = trace w /\ files (snd (c w)) = files w) ->
  confined c.
Proof.
  intros H w. destruct (H w) as [Ht Hf]. split.
  - exists []. now rewrite Ht, app_nil_r.
  - intros path _. now rewrite Hf.
Qed.

Lemma confined_ret {A} (x : A) : confined (ret x).
Proof. now apply confined_pure. Qed.

Lemma confined_raise {A} (e : exn) : confined (@raise A e).
Proof. now apply confined_pure. Qed.

Lemma confined_lift {A} (r : exn + A) : confined (lift r).
Proof. now apply confined_pure. Qed.

Lemma confined_print (line : string) : confined (print line).
Proof. now apply confined_pure. Qed.

Lemma confined_eprint (line : string) : confined (eprint line).
Proof. now apply confined_pure. Qed.

Lemma confined_exit (code : Z) : confined (exit code).
Proof. now apply confined_pure. Qed.

Lemma confined_bind {A B} (c : M A) (f : A -> M B) :
  confined c -> (forall x, confined (f x)) -> confined (Sys.bind c f).
Proof.
  intros Hc Hf w. unfold Sys.bind.
  destruct (Hc w) as [(a1 & T1 & F1) O1].
  destruct (c w) as [[e|x] w1]; simpl in *.
  - split; [now exists a1 | exact O1].
  - destruct (Hf x w1) as [(a2 & T2 & F2) O2]. split.
    + exists (a1 ++ a2). rewrite T2, T1, app_assoc. split; [reflexivity|].
      now apply Forall_app.
    + intros path Hp. now rewrite O2, O1.
Qed.

Lemma confined_path_exists (path : string) :
  is_target path = true -> confined (path_exists path).
Proof.
  intros Hp w. split.
  - exists [EvExists path]. split; [reflexivity|]. now repeat constructor.
  - reflexivity.
Qed.

Lemma confined_read_text (path : string) :
  is_target path = true -> confined (read_text path).
Proof.
  intros Hp w. unfold read_text.
  destruct (files w !! path); (split;
    [exists [EvRead path]; split; [reflexivity | now repeat constructor]
    |reflexivity]).
Qed.

Lemma confined_write_text (path content : string) :
  is_target path = true -> confined (write_text path content).
Proof.
  intros Hp w. split.
  - exists [EvWrite path content]. split; [reflexivity|].
    now repeat constructor.
  - intros other Ho. simpl. apply lookup_insert_ne. congruence.
Qed.

Lemma confined_update_cargo_toml (path new_version : string) :
  is_target path = true -> confined (update_cargo_toml path new_version).
Proof.
  intros Hp. unfold update_cargo_toml.
  apply confined_bind; [now apply confined_read_text|]. intros content.
  cbv zeta. destruct (version_updated _); [|apply confined_ret].
  apply confined_bind; [now apply confined_write_text|].
  intros _. apply confined_ret.
Qed.

Lemma confined_update_tauri_conf (json_loads : string -> option Json.value)
    (path new_version : string) :
  is_target path = true ->
  confined (update_tauri_conf json_loads path new_version).
Proof.
  intros Hp. unfold update_tauri_conf.
  apply confined_bind; [now apply confined_read_text|]. intros content.
  destruct (json_loads content) as [[| | | | | |data]|];
    try apply confined_raise.
  destruct (differs _ _); [|apply confined_ret].
  apply confined_bind; [now apply confined_write_text|].
  intros _. apply confined_ret.
Qed.

Lemma confined_update_all (json_loads : string -> option Json.value)
    (new_version : string) :
  confined (update_all json_loads new_version).
Proof.
  unfold update_all. cbv zeta.
  apply confined_bind; [now apply confined_update_cargo_toml|]. intros u1.
  apply confined_bind; [now apply confined_path_exists|]. intros e2.
  apply confined_bind.
  { destruct e2; [now apply confined_update_cargo_toml | apply confined_ret]. }
  intros u2.
  apply confined_bind; [now apply confined_path_exists|]. intros e3.
  apply confined_bind.
  { destruct e3; [now apply confined_update_tauri_conf | apply confined_ret]. }
  intros u3. apply confined_ret.
Qed.

Lemma confined_main (json_loads : string -> option Json.value)
    (argv : list string) :
  confined (main json_loads argv).
Proof.
  unfold main.
  destruct (length argv <? 2).
  { apply confined_bind; [apply confined_eprint|]. intros _.
    apply confined_exit. }
  cbv zeta. destruct (negb _); [apply confined_exit|].
  apply confined_bind.
  { unfold get_current_version.
    apply confined_bind; [now apply confined_read_text|]. intros content.
    apply confined_lift. }
  intros current.
  apply confined_bind; [apply confined_lift|]. intros candidate.
  destruct (String.eqb candidate current).
  { apply confined_bind; [apply confined_print|]. intros _.
    apply confined_exit. }
  apply confined_bind; [apply confined_update_all|]. intros updated.
  destruct updated.
  - apply confined_bind; [apply confined_print|]. intros _.
    apply confined_exit.
  - apply confined_bind; [apply confined_print|]. intros _.
    apply confined_bind; [apply confined_print|]. intros _.
    apply confined_exit.
Qed.

End Confined.

(** Whatever its arguments, the files it finds and the way it ends, a run
    only probes, reads and writes [Cargo.toml], [src-tauri/Cargo.toml]
    and [src-tauri/tauri.conf.json]: every other file is at the end what
    it was at the start. *)
Theorem run_touches_targets_only
    (json_loads : string -> option Json.value) (argv : list string)
    (fs : gmap string string) :
  let w := snd (BumpVersion.run json_loads argv fs) in
  Forall (fun e => Further.is_target (Further.event_path e) = true)
    (Sys.trace w)
  /\ (forall path content,
        path <> "Cargo.toml" -> path <> "src-tauri/Cargo.toml" ->
        path <> "src-tauri/tauri.conf.json" ->
        (Sys.files w !! path = Some content <-> fs !! path = Some content)).
Proof.
  intros w. subst w. unfold BumpVersion.run.
  destruct (confined_main json_loads argv (Sys.World fs [] [] []))
    as [(added & T & F) O].
  split.
  - rewrite T. exact F.
  - intros path content N1 N2 N3. rewrite O; [reflexivity|].
    unfold Further.is_target.
    apply String.eqb_neq in N1, N2, N3.
    unfold BumpVersion.root_cargo, BumpVersion.tauri_cargo,
      BumpVersion.tauri_conf.
    now rewrite N1, N2, N3.
Qed.

(** A fix rewrites [Cargo.toml] and leaves [README.md] alone. *)
Lemma run_touches_targets_only_witness :
  Sys.files
    (snd (BumpVersion.run Sample.no_json
            ["bump_version.py"; "fix(core): patch bug"]
            {[ "Cargo.toml" := Sample.cargo_toml;
               "README.md" := "decorator" ]}))
  !! "README.md" = Some "decorator".
Proof.
  apply (proj2 (run_touches_targets_only Sample.no_json
                  ["bump_version.py"; "fix(core): patch bug"]
                  {[ "Cargo.toml" := Sample.cargo_toml;
                     "README.md" := "decorator" ]}));
    [discriminate | discriminate | discriminate | reflexivity].
Defined.

(* ===================================================================== *)
(** * The writer of Cargo.toml as a whole                                  *)
(* ===================================================================== *)

Section Writer.
Import BumpVersion Sys Manifest.

Lemma split_nonempty (sep : ascii) (s : string) : Py.split sep s <> [].
Proof.
  induction s as [|c s IH]; simpl; [discriminate|].
  destruct (Ascii.eqb c sep); [discriminate|].
  destruct (Py.split sep s); [congruence | discriminate].
Qed.

Lemma join_head (sep : string) (c : ascii) (h : string) (t : list string) :
  Py.join sep (String c h :: t) = String c (Py.join sep (h :: t)).
Proof. destruct t; reflexivity. Qed.

(** Joining what [split] gives, with the separator, gives the text
    back. *)
Lemma join_split (sep : ascii) (s : string) :
  Py.join (String sep "") (Py.split sep s) = s.
Proof.
  induction s as [|c s IH]; [reflexivity|]. simpl.
  destruct (Ascii.eqb_spec c sep) as [->|].
  - rewrite join_cons by apply split_nonempty. simpl. now rewrite IH.
  - pose proof (split_nonempty sep s) as N.
    destruct (Py.split sep s) as [|h t]; [congruence|].
    rewrite join_head. now rewrite IH.
Qed.

(** The lines that are not rewritten make the output equal to the input
    when no rewritten line changes. *)
Lemma scan_lines_same (new_version : string) (lines : list string) :
  (forall i line, lines !! i = Some line ->
                  is_rewritten lines i line = true ->
                  rewritten new_version line = line) ->
  updated_lines (scan_lines new_version lines) = lines.
Proof.
  intros H. apply list_eq. intros i.
  destruct (lines !! i) as [line|] eqn:L.
  - rewrite (scan_lines_lookup new_version lines i line L).
    destruct (is_rewritten lines i line) eqn:R; [|reflexivity].
    now rewrite (H i line L R).
  - apply lookup_ge_None. rewrite scan_lines_length.
    now apply lookup_ge_None.
Qed.

End Writer.

(** [update_cargo_toml] writes exactly when it reports an update. On a
    file that is not there it raises [FileNotFoundError]; on a file
    without version line in a tracked section it reports no update, the
    substitution not being called; in both cases it writes nothing.
    Otherwise, the new version having no backslash (so that the template
    of the substitution takes it as it is), it writes the lines of the
    loop joined by line breaks and reports an update. *)
Theorem update_cargo_toml_writes_iff_updated
    (path new_version : string) (w : Sys.world) :
  let r := BumpVersion.update_cargo_toml path new_version w in
  (Sys.files w !! path = None ->
   r = (inl (Sys.FileNotFoundError path), Sys.log (Sys.EvRead path) w))
  /\ (forall content,
        Sys.files w !! path = Some content ->
        let lines := Py.split "010" content in
        let text :=
          Py.join (String "010" "")
            (BumpVersion.updated_lines
               (BumpVersion.scan_lines new_version lines)) in
        (BumpVersion.template_literal new_version = true ->
         (exists i line, lines !! i = Some line
                         /\ Manifest.is_rewritten lines i line = true) ->
         r = (inr true,
              Sys.World (<[path := text]> (Sys.files w)) (Sys.stdout w)
                (Sys.stderr w)
                (Sys.trace w ++ [Sys.EvRead path; Sys.EvWrite path text])))
        /\ (~ (exists i line, lines !! i = Some line
                              /\ Manifest.is_rewritten lines i line = true) ->
            r = (inr false, Sys.log (Sys.EvRead path) w)))
  /\ (BumpVersion.template_literal new_version = true ->
      fst r <> inr true -> Sys.files (snd r) = Sys.files w).
Proof.
  intros r. subst r. split; [|split].
  - intros H. unfold BumpVersion.update_cargo_toml.
    erewrite bind_raise; [reflexivity|]. unfold Sys.read_text. now rewrite H.
  - intros content H lines text.
    rewrite (update_cargo_toml_run path new_version content w H).
    cbv zeta. fold lines text.
    pose proof (scan_lines_updated new_version lines) as U.
    destruct (BumpVersion.version_updated _); split; try reflexivity.
    + intros N. destruct N. now apply U.
    + intros _ E. apply U in E. discriminate.
  - intros _.
    destruct (Sys.files w !! path) as [content|] eqn:H.
    + rewrite (update_cargo_toml_run path new_version content w H).
      cbv zeta. destruct (BumpVersion.version_updated _); [|reflexivity].
      intros N. now destruct N.
    + intros _. unfold BumpVersion.update_cargo_toml.
      erewrite bind_raise;
        [|unfold Sys.read_text; rewrite H; reflexivity].
      reflexivity.
Qed.

(** The sample manifest is rewritten at 1.2.4; the manifest of a
    workspace and a missing manifest are not. *)
Lemma update_cargo_toml_writes_iff_updated_witness :
  BumpVersion.update_cargo_toml "Cargo.toml" "1.2.4"
    (Run.start {[ "Cargo.toml" := Sample.cargo_toml ]})
  = (inr true,
     Sys.World {[ "Cargo.toml" := Sample.cargo_toml_at "1.2.4" ]} [] []
       [Sys.EvRead "Cargo.toml";
        Sys.EvWrite "Cargo.toml" (Sample.cargo_toml_at "1.2.4")])
  /\ fst (BumpVersion.update_cargo_toml "Cargo.toml" "1.2.4"
            (Run.start {[ "Cargo.toml" := Sample.cargo_toml_workspace ]}))
     = inr false
  /\ BumpVersion.update_cargo_toml "Cargo.toml" "1.2.4" (Run.start ∅)
     = (inl (Sys.FileNotFoundError "Cargo.toml"),
        Sys.World ∅ [] [] [Sys.EvRead "Cargo.toml"]).
Proof.
  split; [|split].
  - destruct (update_cargo_toml_writes_iff_updated "Cargo.toml" "1.2.4"
                (Run.start {[ "Cargo.toml" := Sample.cargo_toml ]}))
      as (_ & H & _).
    destruct (H Sample.cargo_toml) as [H1 _]; [reflexivity|].
    rewrite H1; [vm_compute; reflexivity | reflexivity |].
    exists 2, ("version = " +:+ Sample.quoted "1.2.3"). split; reflexivity.
  - destruct (update_cargo_toml_writes_iff_updated "Cargo.toml" "1.2.4"
                (Run.start {[ "Cargo.toml" := Sample.cargo_toml_workspace ]}))
      as (_ & H & _).
    destruct (H Sample.cargo_toml_workspace) as [_ H2]; [reflexivity|].
    rewrite H2; [reflexivity|].
    intros (i & line & L & R).
    do 6 (destruct i as [|i]; [injection L as <-; discriminate R|]).
    discriminate L.
  - apply (update_cargo_toml_writes_iff_updated "Cargo.toml" "1.2.4"
             (Run.start ∅)). reflexivity.
Defined.

(** When every version line of the tracked sections already holds the new
    version, with no double quote after its closing quote, the writer
    still reports an update and writes the file, and the text it writes
    is the text it read. The new version has no backslash, so that the
    template of the substitution takes it as it is. *)
Theorem update_cargo_toml_same_version (path new_version content : string)
    (w : Sys.world) :
  Sys.files w !! path = Some content ->
  Text.is_value new_version = true ->
  BumpVersion.template_literal new_version = true ->
  let lines := Py.split "010" content in
  (exists i line, lines !! i = Some line
                  /\ Manifest.is_rewritten lines i line = true) ->
  (forall i line,
      lines !! i = Some line ->
      Manifest.is_rewritten lines i line = true ->
      exists ws0 ws1 ws2 rest,
        line = ws0 +:+ Text.version_assignment ws1 ws2 new_version +:+ rest
        /\ Text.is_blank ws0 = true /\ Text.is_blank ws1 = true
        /\ Text.is_blank ws2 = true
        /\ Text.all_in Text.not_quote rest = true) ->
  BumpVersion.update_cargo_toml path new_version w
  = (inr true,
     Sys.World (Sys.files w) (Sys.stdout w) (Sys.stderr w)
       (Sys.trace w ++ [Sys.EvRead path; Sys.EvWrite path content])).
Proof.
  intros Hfs Hv _ lines Hex Hsame.
  rewrite (update_cargo_toml_run path new_version content w Hfs).
  cbv zeta. fold lines.
  rewrite (proj2 (scan_lines_updated new_version lines) Hex).
  rewrite (scan_lines_same new_version lines).
  - subst lines. rewrite join_split. now rewrite insert_id.
  - intros i line L R.
    destruct (Hsame i line L R) as (ws0 & ws1 & ws2 & rest & -> & B0 & B1
                                    & B2 & Hr).
    rewrite (rewritten_assignment new_version ws0 ws1 ws2 new_version rest
               B0 B1 B2 Hv).
    now rewrite sub_no_quote.
Qed.

(** The sample manifest at 1.2.4 is written back as it is when 1.2.4 is
    asked for. *)
Lemma update_cargo_toml_same_version_witness :
  BumpVersion.update_cargo_toml "Cargo.toml" "1.2.4"
    (Run.start {[ "Cargo.toml" := Sample.cargo_toml_at "1.2.4" ]})
  = (inr true,
     Sys.World {[ "Cargo.toml" := Sample.cargo_toml_at "1.2.4" ]} [] []
       [Sys.EvRead "Cargo.toml";
        Sys.EvWrite "Cargo.toml" (Sample.cargo_toml_at "1.2.4")]).
Proof.
  refine (update_cargo_toml_same_version "Cargo.toml" "1.2.4"
            (Sample.cargo_toml_at "1.2.4")
            (Run.start {[ "Cargo.toml" := Sample.cargo_toml_at "1.2.4" ]})
            _ _ _ _ _).
  - reflexivity.
  - reflexivity.
  - reflexivity.
  - exists 2, ("version = " +:+ Sample.quoted "1.2.4"). split; reflexivity.
  - intros i line L R.
    do 7 (destruct i as [|i];
          [injection L as <-; try discriminate R;
           exists "", " ", " ", ""; repeat split |]).
    discriminate L.
Defined.

(* ===================================================================== *)
(** * The writer and the reader of Cargo.toml                              *)
(* ===================================================================== *)

Section WriterReader.
Import BumpVersion Sys Manifest.

(** In a regular manifest the lines before the version line are copied
    and the version line gets the new version. *)
Lemma regular_manifest_output (new_version : string) (lines : list string)
    (n : nat) :
  Further.regular_manifest lines n ->
  Text.is_value new_version = true ->
  exists ws1 ws2 rest' after,
    updated_lines (scan_lines new_version lines)
    = take n lines
      ++ (Text.version_assignment ws1 ws2 new_version +:+ rest') :: after
    /\ Text.is_blank ws1 = true /\ Text.is_blank ws2 = true
    /\ Forall (fun l => Text.is_line l = true
                        /\ Py.startswith l "version" = false) (take n lines)
    /\ version_updated (scan_lines new_version lines) = true.
Proof.
  intros (ws1 & ws2 & v & rest & Ln & B1 & B2 & Hv & Ht & Hbefore) Hnew.
  set (line := Text.version_assignment ws1 ws2 v +:+ rest) in *.
  assert (R : is_rewritten lines n line = true).
  { unfold is_rewritten. rewrite Ht.
    pose proof (version_line_match "" ws1 ws2 v rest eq_refl B1 B2 Hv) as M.
    change ("" +:+ ?x) with x in M. fold line in M. rewrite M.
    destruct (version_line_not_header "" (ws1 +:+ "=" +:+ ws2
                                           +:+ Text.quoted v +:+ rest)
                eq_refl) as [H _].
    change ("" +:+ ?x) with x in H.
    replace ("version" +:+ ws1 +:+ "=" +:+ ws2 +:+ Text.quoted v +:+ rest)
      with line in H.
    - now rewrite H.
    - subst line. unfold Text.version_assignment.
      now rewrite !append_assoc. }
  set (out := updated_lines (scan_lines new_version lines)).
  assert (On : out !! n
               = Some (Text.version_assignment ws1 ws2 new_version
                       +:+ Re.sub_from version_value_re
                             (version_template new_version) 0 false rest)).
  { subst out. rewrite (scan_lines_lookup new_version lines n line Ln), R.
    pose proof (rewritten_assignment new_version "" ws1 ws2 v rest eq_refl
                  B1 B2 Hv) as E.
    change ("" +:+ ?x) with x in E. fold line in E. now rewrite E. }
  exists ws1, ws2,
    (Re.sub_from version_value_re (version_template new_version) 0 false rest),
    (drop (S n) out).
  split; [|split; [exact B1|split; [exact B2|split]]].
  - etransitivity; [symmetry; exact (take_drop_middle out n _ On)|].
    f_equal. apply list_eq. intros i.
    destruct (decide (i < n)) as [Hi|Hi].
    + rewrite !lookup_take_lt by exact Hi.
      destruct (lines !! i) as [l|] eqn:L.
      * subst out. rewrite (scan_lines_lookup new_version lines i l L).
        unfold is_rewritten.
        destruct (Hbefore i l Hi L) as (_ & _ & ->).
        now rewrite andb_false_r.
      * apply lookup_ge_None in L. apply lookup_lt_Some in Ln. lia.
    + now rewrite !lookup_take_ge by lia.
  - apply Forall_lookup. intros i l L.
    apply lookup_take_Some in L as [L Hi].
    destruct (Hbefore i l Hi L) as (H1 & H2 & _). now split.
  - apply scan_lines_updated. now exists n, line.
Qed.

End WriterReader.

(** On a regular manifest (the first line that begins with the word
    [version] is a version assignment without indentation in a tracked
    section, and no line before it is a version line), and for a new
    version without backslash, which the template of the substitution
    takes as it is, the writer reports an update, and
    [get_current_version] on the file it has written reads the new
    version. *)
Theorem update_cargo_toml_then_get_current_version
    (path new_version content : string) (n : nat) (w : Sys.world) :
  Sys.files w !! path = Some content ->
  Further.regular_manifest (Py.split "010" content) n ->
  Text.is_value new_version = true ->
  BumpVersion.template_literal new_version = true ->
  let r := BumpVersion.update_cargo_toml path new_version w in
  fst r = inr true
  /\ fst (BumpVersion.get_current_version path (snd r)) = inr new_version.
Proof.
  intros Hfs Hreg Hnew _ r. subst r.
  rewrite (update_cargo_toml_run path new_version content w Hfs). cbv zeta.
  destruct (regular_manifest_output new_version _ n Hreg Hnew)
    as (ws1 & ws2 & rest' & after & Out & B1 & B2 & Hb & U).
  rewrite U. split; [reflexivity|]. cbn [fst snd].
  erewrite get_current_version_run
    by (cbn [Sys.files]; apply lookup_insert_eq).
  cbn [fst]. rewrite find_current_version_first, Out.
  now rewrite (first_version_lines _ after _ ws1 ws2 new_version rest').
Qed.

(** The sample manifest, rewritten at 2.0.0, reads 2.0.0. *)
Lemma update_cargo_toml_then_get_current_version_witness :
  let w := Run.start {[ "Cargo.toml" := Sample.cargo_toml ]} in
  fst (BumpVersion.get_current_version "Cargo.toml"
         (snd (BumpVersion.update_cargo_toml "Cargo.toml" "2.0.0" w)))
  = inr "2.0.0".
Proof.
  intros w.
  refine (proj2 (update_cargo_toml_then_get_current_version "Cargo.toml"
                   "2.0.0" Sample.cargo_toml 2 w _ _ _ _));
    [reflexivity | | reflexivity | reflexivity].
  exists " ", " ", "1.2.3", "".
  repeat split; try reflexivity;
    destruct i as [|[|i]]; try lia; injection H0 as <-; reflexivity.
Defined.

(* ===================================================================== *)
(** * The writer of tauri.conf.json: failures and a second call            *)
(* ===================================================================== *)

(** [update_tauri_conf] fails with [FileNotFoundError] on a file that is
    not there, with the error of [json.loads] on a text it does not
    read, and with [AttributeError] on a document that is not a mapping;
    whenever it fails it has written nothing. On a mapping it never
    fails, and a [version] that is missing or is not a string is always
    replaced. *)
Theorem update_tauri_conf_failures
    (json_loads : string -> option Json.value) (path new_version : string)
    (w : Sys.world) :
  let r := BumpVersion.update_tauri_conf json_loads path new_version w in
  (Sys.files w !! path = None ->
   r = (inl (Sys.FileNotFoundError path), Sys.log (Sys.EvRead path) w))
  /\ (forall content,
        Sys.files w !! path = Some content ->
        json_loads content = None ->
        r = (inl Sys.JSONDecodeError, Sys.log (Sys.EvRead path) w))
  /\ (forall content v,
        Sys.files w !! path = Some content ->
        json_loads content = Some v ->
        (forall data, v <> Json.Obj data) ->
        r = (inl Sys.AttributeError, Sys.log (Sys.EvRead path) w))
  /\ (forall e, fst r = inl e -> Sys.files (snd r) = Sys.files w)
  /\ (forall content data,
        Sys.files w !! path = Some content ->
        json_loads content = Some (Json.Obj data) ->
        (exists updated, fst r = inr updated)
        /\ ((forall s, Json.dict_get data "version" <> Some (Json.Str s)) ->
            fst r = inr true)).
Proof.
  intros r. subst r. unfold BumpVersion.update_tauri_conf.
  split; [|split; [|split; [|split]]].
  - intros H. erewrite bind_raise; [reflexivity|].
    unfold Sys.read_text. now rewrite H.
  - intros content H L.
    erewrite bind_ok; [|unfold Sys.read_text; rewrite H; reflexivity].
    now rewrite L.
  - intros content v H L N.
    erewrite bind_ok; [|unfold Sys.read_text; rewrite H; reflexivity].
    rewrite L. destruct v; try reflexivity. now destruct (N members).
  - intros e. unfold Sys.bind, Sys.read_text.
    destruct (Sys.files w !! path) as [content|]; [|reflexivity].
    destruct (json_loads content) as [[| | | | | |data]|]; try reflexivity.
    destruct (BumpVersion.differs _ _); [discriminate | reflexivity].
  - intros content data H L.
    erewrite bind_ok; [|unfold Sys.read_text; rewrite H; reflexivity].
    rewrite L. split.
    + destruct (BumpVersion.differs _ _); eauto.
    + intros N.
      destruct (BumpVersion.differs _ new_version) eqn:D; [reflexivity|].
      apply differs_false in D. now destruct (N new_version).
Qed.

(** A text that is no document at all, and a document without
    [version]. *)
Lemma update_tauri_conf_failures_witness :
  let path := "src-tauri/tauri.conf.json" in
  BumpVersion.update_tauri_conf Sample.no_json path "1.2.4"
    (Run.start {[ path := "{" ]})
  = (inl Sys.JSONDecodeError,
     Sys.World {[ path := "{" ]} [] [] [Sys.EvRead path])
  /\ fst (BumpVersion.update_tauri_conf
            (fun _ => Some (Json.Obj [("productName", Json.Str "decorator")]))
            path "1.2.4" (Run.start {[ path := "{}" ]}))
     = inr true.
Proof.
  intros path. split.
  - refine (proj1 (proj2 (update_tauri_conf_failures Sample.no_json path
                            "1.2.4" (Run.start {[ path := "{" ]})))
              "{" _ _); reflexivity.
  - destruct (update_tauri_conf_failures
                (fun _ => Some (Json.Obj [("productName",
                                           Json.Str "decorator")]))
                path "1.2.4" (Run.start {[ path := "{}" ]}))
      as (_ & _ & _ & _ & H).
    destruct (H "{}" [("productName", Json.Str "decorator")]) as [_ H2];
      [reflexivity | reflexivity |].
    apply H2. intros s. discriminate.
Defined.

(** When [json.loads] reads back what the writer writes, a second call of
    the writer with the same version reports no update and writes
    nothing, whether the first call has written or not. *)
Theorem update_tauri_conf_twice
    (json_loads : string -> option Json.value)
    (path new_version content : string) (data : Json.dict) (w : Sys.world) :
  Sys.files w !! path = Some content ->
  json_loads content = Some (Json.Obj data) ->
  let data' := Json.dict_set data "version" (Json.Str new_version) in
  json_loads (Json.dumps 2 (Json.Obj data') +:+ String "010" "")
  = Some (Json.Obj data') ->
  let w1 :=
    snd (BumpVersion.update_tauri_conf json_loads path new_version w) in
  BumpVersion.update_tauri_conf json_loads path new_version w1
  = (inr false, Sys.log (Sys.EvRead path) w1).
Proof.
  intros Hfs Hload data' Hback w1. subst w1.
  assert (Step : forall w0 c k,
             Sys.files w0 !! path = Some c ->
             Sys.bind (Sys.read_text path) k w0
             = (k c (Sys.log (Sys.EvRead path) w0) : (Sys.exn + bool) * _)).
  { intros w0 c k H. apply bind_ok. unfold Sys.read_text. now rewrite H. }
  assert (Call : forall w0 c d,
             Sys.files w0 !! path = Some c ->
             json_loads c = Some (Json.Obj d) ->
             BumpVersion.update_tauri_conf json_loads path new_version w0
             = (if BumpVersion.differs (Json.dict_get d "version") new_version
                then
                  Sys.bind
                    (Sys.write_text path
                       (Json.dumps 2
                          (Json.Obj (Json.dict_set d "version"
                                       (Json.Str new_version)))
                        +:+ String "010" ""))
                    (fun _ => Sys.ret true)
                else Sys.ret false) (Sys.log (Sys.EvRead path) w0)).
  { intros w0 c d H L. unfold BumpVersion.update_tauri_conf.
    now rewrite (Step w0 c _ H), L. }
  rewrite (Call w content data Hfs Hload).
  destruct (BumpVersion.differs (Json.dict_get data "version") new_version)
    eqn:D.
  - unfold Sys.bind at 1. cbn [Sys.write_text Sys.ret snd]. fold data'.
    erewrite Call;
      [|cbn [Sys.files Sys.log]; apply lookup_insert_eq | exact Hback].
    now rewrite (proj2 (differs_false (Json.dict_get data' "version")
                          new_version) (dict_get_set_eq data _ _)).
  - cbn [Sys.ret snd].
    erewrite Call; [|exact Hfs | exact Hload].
    now rewrite D.
Qed.

(** The document at 1.2.3, rewritten at 1.2.4, is left alone by a second
    call. *)
Lemma update_tauri_conf_twice_witness :
  let path := "src-tauri/tauri.conf.json" in
  let w := Run.start {[ path := Sample.tauri_conf_text "1.2.3" ]} in
  let w1 :=
    snd (BumpVersion.update_tauri_conf FurtherSample.loads path "1.2.4" w) in
  Sys.files w1 = {[ path := FurtherSample.tauri_conf_written "1.2.4" ]}
  /\ BumpVersion.update_tauri_conf FurtherSample.loads path "1.2.4" w1
     = (inr false, Sys.log (Sys.EvRead path) w1).
Proof.
  intros path w w1. split; [reflexivity|].
  refine (update_tauri_conf_twice FurtherSample.loads path "1.2.4"
            (Sample.tauri_conf_text "1.2.3")
            [("productName", Json.Str "decorator");
             ("version", Json.Str "1.2.3");
             ("app", Json.Obj [("windows", Json.Arr [Json.Obj
                                  [("width", Json.Int 800);
                                   ("resizable", Json.Bool true)]])])]
            w _ _ _); reflexivity.
Defined.

(* ===================================================================== *)
(** * Runs with the follower files                                         *)
(* ===================================================================== *)

Section Followers.
Import BumpVersion Sys.
Variable json_loads : string -> option Json.value.

Lemma string_of_uint_not_quote (d : Decimal.uint) :
  Text.all_in Text.not_quote (NilEmpty.string_of_uint d) = true.
Proof. induction d; simpl; auto. Qed.

Lemma is_value_app (a b : string) :
  Text.is_value a = true -> Text.all_in Text.not_quote b = true ->
  Text.is_value (a +:+ b) = true.
Proof.
  unfold Text.is_value. intros H Hb. apply andb_prop in H as [N A].
  rewrite all_in_app, A, Hb. destruct a; [discriminate N | reflexivity].
Qed.

Lemma str_is_value (n : N) : Text.is_value (Py.str n) = true.
Proof.
  pose proof (str_is_number n) as H. unfold Text.is_number in H.
  apply andb_prop in H as [Ne _]. unfold Text.is_value. rewrite Ne.
  apply string_of_uint_not_quote.
Qed.

(** A version made by a bump of one of the three types can stand between
    double quotes. *)
Lemma bump_tag_is_value (s r : string) (t : option string) :
  Further.is_bump_tag t -> bump_version s t = inr r ->
  Text.is_value r = true.
Proof.
  intros Ht. unfold bump_version.
  destruct (parse_version s) as [e|v] eqn:P; [discriminate|].
  apply parse_version_inv in P as (d1 & d2 & d3 & rest & _ & ->).
  assert (Q : forall n, Text.all_in Text.not_quote (Py.str n) = true).
  { intros n. apply string_of_uint_not_quote. }
  destruct Ht as [-> | [-> | ->]]; cbn [bool_decide decide_rel];
    intros [= <-]; apply is_value_app; try apply str_is_value;
    repeat (cbn [Text.all_in String.append]; rewrite ?all_in_app, ?Q);
    reflexivity.
Qed.

Lemma passes_guard_is_value (argv : list string)
    (content current candidate : string) :
  Run.passes_guard argv content current candidate ->
  Text.is_value candidate = true.
Proof.
  intros [(_ & Ht & _ & Hb) _].
  apply get_bump_type_tag in Ht. fold (Run.bump_type argv) in Ht.
  exact (bump_tag_is_value _ _ _ Ht Hb).
Qed.

(** What the writer makes of a regular manifest reads back as the new
    version. *)
Lemma regular_manifest_reads_back (path new_version content : string)
    (n : nat) :
  Further.regular_manifest (Py.split "010" content) n ->
  Text.is_value new_version = true ->
  let st := scan_lines new_version (Py.split "010" content) in
  version_updated st = true
  /\ find_current_version path
       (Py.join (String "010" "") (updated_lines st)) = inr new_version.
Proof.
  intros Hreg Hnew st. subst st.
  destruct (regular_manifest_output new_version _ n Hreg Hnew)
    as (ws1 & ws2 & rest' & after & Out & B1 & B2 & Hb & U).
  split; [exact U|].
  rewrite find_current_version_first, Out.
  now rewrite (first_version_lines _ after _ ws1 ws2 new_version rest').
Qed.

(** The updates when the three files are there, the two manifests having
    a version line in a tracked section. *)
Lemma update_all_three (new_version c1 c2 c3 : string) (w : world) :
  files w !! root_cargo = Some c1 ->
  files w !! tauri_cargo = Some c2 ->
  files w !! tauri_conf = Some c3 ->
  let t1 := Py.join (String "010" "")
              (updated_lines (scan_lines new_version (Py.split "010" c1))) in
  let t2 := Py.join (String "010" "")
              (updated_lines (scan_lines new_version (Py.split "010" c2))) in
  version_updated (scan_lines new_version (Py.split "010" c1)) = true ->
  version_updated (scan_lines new_version (Py.split "010" c2)) = true ->
  update_all json_loads new_version w
  = Sys.bind (update_tauri_conf json_loads tauri_conf new_version)
      (fun u3 =>
         ret (if u3 : bool
              then ["Cargo.toml"; "src-tauri/Cargo.toml";
                    "src-tauri/tauri.conf.json"]
              else ["Cargo.toml"; "src-tauri/Cargo.toml"]))
      (World (<[tauri_cargo := t2]> (<[root_cargo := t1]> (files w)))
         (stdout w) (stderr w)
         (trace w ++ [EvRead root_cargo; EvWrite root_cargo t1;
                      EvExists tauri_cargo; EvRead tauri_cargo;
                      EvWrite tauri_cargo t2; EvExists tauri_conf])).
Proof.
  intros H1 H2 H3 t1 t2 U1 U2. unfold update_all. cbv zeta.
  pose proof (update_cargo_toml_run root_cargo new_version c1 w H1) as E1.
  cbv zeta in E1. rewrite U1 in E1. fold t1 in E1.
  erewrite bind_ok; [|exact E1].
  erewrite bind_ok.
  2:{ apply (path_exists_present tauri_cargo c2). cbn [files].
      rewrite lookup_insert_ne; [exact H2 | cbv; discriminate]. }
  cbv beta iota.
  match goal with
  | |- Sys.bind (update_cargo_toml tauri_cargo new_version) _ ?w1 = _ =>
      assert (H2' : files w1 !! tauri_cargo = Some c2)
        by (unfold log; cbn [files];
            rewrite lookup_insert_ne; [exact H2 | cbv; discriminate]);
      pose proof (update_cargo_toml_run tauri_cargo new_version c2 w1 H2')
        as E2
  end.
  cbv zeta in E2. rewrite U2 in E2. fold t2 in E2.
  erewrite bind_ok; [|exact E2].
  erewrite bind_ok.
  2:{ apply (path_exists_present tauri_conf c3). cbn [files log].
      rewrite !lookup_insert_ne; [exact H3 | cbv; discriminate..]. }
  cbv beta iota. unfold log. cbn [files stdout stderr trace].
  rewrite <- !app_assoc. cbn [app].
  unfold Sys.bind.
  destruct (update_tauri_conf json_loads tauri_conf new_version _)
    as [[e|[|]] w3]; reflexivity.
Qed.

End Followers.

(** The purpose of the tool: when the three files are there, the two
    manifests being regular and the document a mapping, a run that goes
    past the guard ends with status 0 and leaves the three files at the
    candidate version, as [get_current_version] reads the manifests and
    as the mapping written (or left, when it was at that version) has
    it. It names the two manifests as updated, and the document when it
    was rewritten. *)
Theorem run_brings_files_in_step
    (json_loads : string -> option Json.value) (argv : list string)
    (fs : gmap string string) (c1 c2 c3 : string) (n1 n2 : nat)
    (data : Json.dict) (current candidate : string) :
  fs !! BumpVersion.root_cargo = Some c1 ->
  fs !! BumpVersion.tauri_cargo = Some c2 ->
  fs !! BumpVersion.tauri_conf = Some c3 ->
  Further.regular_manifest (Py.split "010" c1) n1 ->
  Further.regular_manifest (Py.split "010" c2) n2 ->
  json_loads c3 = Some (Json.Obj data) ->
  Run.passes_guard argv c1 current candidate ->
  let r := BumpVersion.run json_loads argv fs in
  let data' := Json.dict_set data "version" (Json.Str candidate) in
  let rewritten := BumpVersion.differs (Json.dict_get data "version")
                     candidate in
  fst r = inl (Sys.SystemExit 0)
  /\ (exists t1,
        Sys.files (snd r) !! BumpVersion.root_cargo = Some t1
        /\ BumpVersion.find_current_version BumpVersion.root_cargo t1
           = inr candidate)
  /\ (exists t2,
        Sys.files (snd r) !! BumpVersion.tauri_cargo = Some t2
        /\ BumpVersion.find_current_version BumpVersion.tauri_cargo t2
           = inr candidate)
  /\ Sys.files (snd r) !! BumpVersion.tauri_conf
     = Some (if rewritten
             then Json.dumps 2 (Json.Obj data') +:+ String "010" ""
             else c3)
  /\ Json.dict_get (if rewritten then data' else data) "version"
     = Some (Json.Str candidate)
  /\ Sys.stdout (snd r)
     = ["Version bumped: " +:+ Run.version_to_bump argv current +:+ " -> "
        +:+ candidate +:+ " (" +:+ default "" (Run.bump_type argv) +:+ ")";
        "Updated: Cargo.toml, src-tauri/Cargo.toml"
        +:+ (if rewritten then ", src-tauri/tauri.conf.json" else "")].
Proof.
  intros H1 H2 H3 R1 R2 L G r data' rewritten.
  pose proof (passes_guard_is_value _ _ _ _ G) as V.
  destruct G as [Hg Hne].
  destruct (regular_manifest_reads_back BumpVersion.root_cargo candidate c1
              n1 R1 V) as [U1 F1].
  destruct (regular_manifest_reads_back BumpVersion.tauri_cargo candidate c2
              n2 R2 V) as [U2 F2].
  cbv zeta in U1, U2, F1, F2.
  assert (E : r = Sys.bind (BumpVersion.update_all json_loads candidate)
                    (Run.report argv current candidate)
                    (Sys.log (Sys.EvRead BumpVersion.root_cargo)
                       (Sys.World fs [] [] []))).
  { subst r. unfold BumpVersion.run.
    rewrite (main_reaches_guard json_loads argv (Sys.World fs [] [] [])
               c1 current candidate H1 Hg).
    apply String.eqb_neq in Hne. now rewrite Hne. }
  rewrite E. clear E.
  pose proof (update_all_three json_loads candidate c1 c2 c3
                (Sys.log (Sys.EvRead BumpVersion.root_cargo)
                   (Sys.World fs [] [] [])) H1 H2 H3 U1 U2) as UA.
  cbn [Sys.log Sys.files Sys.stdout Sys.stderr Sys.trace app] in UA.
  match type of UA with
  | _ = Sys.bind _ _ ?w2 =>
      assert (H3' : Sys.files w2 !! BumpVersion.tauri_conf = Some c3)
        by (cbn [Sys.files];
            rewrite !lookup_insert_ne; [exact H3 | cbv; discriminate..]);
      pose proof (update_tauri_conf_run json_loads BumpVersion.tauri_conf
                    candidate c3 data w2 H3' L) as Call
  end.
  fold data' in Call. subst rewritten.
  destruct (BumpVersion.differs (Json.dict_get data "version") candidate)
    eqn:D.
  - rewrite (bind_ok _ _ _ _ _ Call) in UA.
    rewrite (bind_ok _ _ _ _ _ UA).
    unfold Run.report, Sys.bind, Sys.print, Sys.exit, Sys.raise, Sys.log.
    cbn [fst snd Sys.files Sys.stdout Sys.stderr Sys.trace app Py.join].
    split; [reflexivity|].
    split.
    { eexists. split; [|exact F1].
      rewrite !lookup_insert_ne by (cbv; discriminate).
      apply lookup_insert_eq. }
    split.
    { eexists. split; [|exact F2].
      rewrite lookup_insert_ne by (cbv; discriminate).
      apply lookup_insert_eq. }
    split; [apply lookup_insert_eq|].
    split; [apply dict_get_set_eq|]. reflexivity.
  - apply differs_false in D as Dv.
    rewrite (bind_ok _ _ _ _ _ Call) in UA.
    rewrite (bind_ok _ _ _ _ _ UA).
    unfold Run.report, Sys.bind, Sys.print, Sys.exit, Sys.raise, Sys.log.
    cbn [fst snd Sys.files Sys.stdout Sys.stderr Sys.trace app Py.join].
    split; [reflexivity|].
    split.
    { eexists. split; [|exact F1].
      rewrite lookup_insert_ne by (cbv; discriminate).
      apply lookup_insert_eq. }
    split.
    { eexists. split; [|exact F2]. apply lookup_insert_eq. }
    split.
    { rewrite !lookup_insert_ne by (cbv; discriminate). exact H3. }
    split; [exact Dv|]. reflexivity.
Qed.

(** A feature commit, on a project at 1.2.3: the run ends with
    status 0, the three files are at 1.3.0 and the three are named. *)
Lemma run_brings_files_in_step_witness :
  let r := BumpVersion.run FurtherSample.loads
             ["bump_version.py"; "feature(ui): rounded corners"]
             (FurtherSample.project_at "1.2.3") in
  fst r = inl (Sys.SystemExit 0)
  /\ Sys.files (snd r) !! BumpVersion.tauri_conf
     = Some (Json.dumps 2 (Sample.tauri_conf_value "1.3.0")
             +:+ String "010" "")
  /\ Sys.stdout (snd r)
     = ["Version bumped: 1.2.3 -> 1.3.0 (minor)";
        "Updated: Cargo.toml, src-tauri/Cargo.toml, src-tauri/tauri.conf.json"].
Proof.
  intros r.
  assert (Reg : forall c, c = Sample.cargo_toml_at "1.2.3"
                          \/ c = FurtherSample.tauri_cargo_toml_at "1.2.3" ->
                          Further.regular_manifest (Py.split "010" c) 2).
  { intros c Hc. exists " ", " ", "1.2.3", "".
    destruct Hc as [-> | ->];
      (repeat split; try reflexivity;
       destruct i as [|[|i]]; try lia; injection H0 as <-; reflexivity). }
  destruct (run_brings_files_in_step FurtherSample.loads
              ["bump_version.py"; "feature(ui): rounded corners"]
              (FurtherSample.project_at "1.2.3")
              (Sample.cargo_toml_at "1.2.3")
              (FurtherSample.tauri_cargo_toml_at "1.2.3")
              (Sample.tauri_conf_text "1.2.3") 2 2
              [("productName", Json.Str "decorator");
               ("version", Json.Str "1.2.3");
               ("app", Json.Obj [("windows", Json.Arr [Json.Obj
                                    [("width", Json.Int 800);
                                     ("resizable", Json.Bool true)]])])]
              "1.2.3" "1.3.0")
    as (Status & _ & _ & Doc & _ & Out);
    [reflexivity | reflexivity | reflexivity
    | apply Reg; now left | apply Reg; now right | reflexivity
    | split; [split; [simpl; lia | repeat split; vm_compute; reflexivity]
             | discriminate] |].
  exact (conj Status (conj Doc Out)).
Defined.

(** The updates are not undone: when the two manifests are there and each
    has a line to rewrite, and the text of [tauri.conf.json] is not read by
    [json.loads], or is not read as a mapping, a run that goes past the
    guard fails with the error of that step ([JSONDecodeError] or
    [AttributeError]) and status 1 after it has written the two manifests
    at the candidate version: they stay rewritten, the document stays as
    it was, and nothing is printed. *)
Theorem run_fails_after_manifests_written
    (json_loads : string -> option Json.value) (argv : list string)
    (fs : gmap string string) (c1 c2 c3 current candidate : string) :
  fs !! BumpVersion.root_cargo = Some c1 ->
  fs !! BumpVersion.tauri_cargo = Some c2 ->
  fs !! BumpVersion.tauri_conf = Some c3 ->
  Run.passes_guard argv c1 current candidate ->
  BumpVersion.version_updated
    (BumpVersion.scan_lines candidate (Py.split "010" c1)) = true ->
  BumpVersion.version_updated
    (BumpVersion.scan_lines candidate (Py.split "010" c2)) = true ->
  (forall data, json_loads c3 <> Some (Json.Obj data)) ->
  let r := BumpVersion.run json_loads argv fs in
  let t1 := Py.join (String "010" "")
              (BumpVersion.updated_lines
                 (BumpVersion.scan_lines candidate (Py.split "010" c1))) in
  let t2 := Py.join (String "010" "")
              (BumpVersion.updated_lines
                 (BumpVersion.scan_lines candidate (Py.split "010" c2))) in
  fst r = inl (match json_loads c3 with
               | None => Sys.JSONDecodeError
               | Some _ => Sys.AttributeError
               end)
  /\ Sys.exit_status (fst r) = 1%Z
  /\ Sys.files (snd r)
     = <[BumpVersion.tauri_cargo := t2]>
         (<[BumpVersion.root_cargo := t1]> fs)
  /\ Sys.stdout (snd r) = []
  /\ Sys.trace (snd r)
     = [Sys.EvRead BumpVersion.root_cargo;
        Sys.EvRead BumpVersion.root_cargo;
        Sys.EvWrite BumpVersion.root_cargo t1;
        Sys.EvExists BumpVersion.tauri_cargo;
        Sys.EvRead BumpVersion.tauri_cargo;
        Sys.EvWrite BumpVersion.tauri_cargo t2;
        Sys.EvExists BumpVersion.tauri_conf;
        Sys.EvRead BumpVersion.tauri_conf].
Proof.
  intros H1 H2 H3 [Hg Hne] U1 U2 Bad r t1 t2.
  assert (E : r = Sys.bind (BumpVersion.update_all json_loads candidate)
                    (Run.report argv current candidate)
                    (Sys.log (Sys.EvRead BumpVersion.root_cargo)
                       (Sys.World fs [] [] []))).
  { subst r. unfold BumpVersion.run.
    rewrite (main_reaches_guard json_loads argv (Sys.World fs [] [] [])
               c1 current candidate H1 Hg).
    apply String.eqb_neq in Hne. now rewrite Hne. }
  rewrite E. clear E.
  pose proof (update_all_three json_loads candidate c1 c2 c3
                (Sys.log (Sys.EvRead BumpVersion.root_cargo)
                   (Sys.World fs [] [] [])) H1 H2 H3 U1 U2) as UA.
  cbn [Sys.log Sys.files Sys.stdout Sys.stderr Sys.trace app] in UA.
  fold t1 t2 in UA.
  match type of UA with
  | _ = Sys.bind _ _ ?w2 =>
      assert (Call : BumpVersion.update_tauri_conf json_loads
                       BumpVersion.tauri_conf candidate w2
                     = (inl (match json_loads c3 with
                             | None => Sys.JSONDecodeError
                             | Some _ => Sys.AttributeError
                             end),
                        Sys.log (Sys.EvRead BumpVersion.tauri_conf) w2))
  end.
  { unfold BumpVersion.update_tauri_conf.
    erewrite bind_ok.
    2:{ unfold Sys.read_text. cbn [Sys.files].
        rewrite !lookup_insert_ne; [rewrite H3; reflexivity
                                   | cbv; discriminate..]. }
    destruct (json_loads c3) as [[| | | | | |data]|] eqn:L;
      try reflexivity.
    now destruct (Bad data). }
  rewrite (bind_raise _ _ _ _ _ Call) in UA.
  rewrite (bind_raise _ _ _ _ _ UA).
  unfold Sys.log.
  cbn [fst snd Sys.files Sys.stdout Sys.stderr Sys.trace app].
  split; [reflexivity|].
  split; [now destruct (json_loads c3)|].
  repeat split.
Qed.

(** A feature commit on a project at 1.2.3 whose configuration document
    is not JSON: the run fails with status 1 and the two manifests are at
    1.3.0. *)
Lemma run_fails_after_manifests_written_witness :
  let r := BumpVersion.run Sample.no_json
             ["bump_version.py"; "feature(ui): rounded corners"]
             (<["src-tauri/tauri.conf.json" := "{"]>
                (FurtherSample.project_at "1.2.3")) in
  fst r = inl Sys.JSONDecodeError
  /\ Sys.files (snd r)
     = <["src-tauri/tauri.conf.json" := "{"]>
         (FurtherSample.project_at "1.3.0").
Proof.
  intros r.
  destruct (run_fails_after_manifests_written Sample.no_json
              ["bump_version.py"; "feature(ui): rounded corners"]
              (<["src-tauri/tauri.conf.json" := "{"]>
                 (FurtherSample.project_at "1.2.3"))
              (Sample.cargo_toml_at "1.2.3")
              (FurtherSample.tauri_cargo_toml_at "1.2.3") "{"
              "1.2.3" "1.3.0")
    as (Status & _ & Files & _);
    [reflexivity | reflexivity | reflexivity
    | split; [split; [simpl; lia | repeat split; vm_compute; reflexivity]
             | discriminate]
    | reflexivity | reflexivity | discriminate |].
  split; [exact Status|].
  fold r in Files. rewrite Files. vm_compute. reflexivity.
Defined.
